(* ===== verification/_CoqProject ===== *)
-Q . S2P
Prelude.v
Js.v
Crypto.v
CryptoModel.v
Sql.v
Db.v
Http.v
Auth.v
Books.v
Users.v
Server.v
Startup.v
Core.v
BookStore.v
Race.v
Progress.v
RaceFree.v
Linearize.v
Lifecycle.v
