(* ===== verification/Prelude.v ===== *)
(** * A verification development of the goodreads server (src/index.js)

    ** The program

    src/index.js is an Express server over an SQLite database
    ([goodreads.db], tables [user] and [book]). It has three parts that
    call each other:
    - the authentication middleware [authenticateToken] (lines 34-56),
      which reads the [authorization] header, verifies the bearer token
      with jsonwebtoken and the secret ["MY_SECRET_TOKEN"], and either
      answers 401 or sets [request.username] and calls [next()];
    - the user endpoints: register (POST /users/, lines 59-84, bcrypt hash
      then SELECT then INSERT), login (POST /login/, lines 87-109, SELECT,
      [bcrypt.compare], [jwt.sign]) and profile (GET /profile/, 113-118);
    - the book endpoints (lines 121-276): list, filtered list, get, add,
      update, delete and an author's books, all behind the middleware.
    Each handler builds its SQL statement by interpolating request data
    into a template literal and awaits [db.get], [db.all] or [db.run].

    ** The files

    - [Prelude]: this header, the scope [goodreads_scope], the result type
      [result] with its bind notation [let*], string and list lemmas, the
      hint databases [goodreads] and [goodreads_rw], the tactics [invc],
      [closed_term] and [res_inv].
    - [Js]: JavaScript values [jsval] (what [express.json()] delivers),
      property reads [js_get] ([undefined] when absent), template-literal
      conversion [js_to_string] (integers in decimal, [undefined] as the
      text ["undefined"]), [String.prototype.split] as [split_on] with its
      inverse [join_on] (round trips [join_split], [split_join]).
    - [Crypto]: the libraries the server only calls, as interfaces:
      [Class Bcrypt] (hash with rounds and salt, compare; compare reads
      the first 72 bytes, [bcrypt_key]) and [Class Jwt] (sign, verify with
      the errors of jsonwebtoken). Every theorem about the handlers is
      proved against these interfaces, for every instance.
    - [CryptoModel]: executable instances [bcrypt_model], [jwt_model]
      proving the laws consistent and letting concrete runs evaluate.
    - [Sql]: the lexer (a state machine over characters, [lex]) and the
      parser (precedence climbing, [parse_stmt]) of the SQL text the
      handlers emit; [compile] turns text into a statement [stmt].
    - [Db]: tables (columns, INTEGER PRIMARY KEY alias, UNIQUE columns,
      rows with rowids) and [exec] of a statement: three-valued WHERE with
      [=], [AND], [OR], [LIKE], ORDER BY, LIMIT/OFFSET, INSERT with the
      rowid rule (largest rowid + 1) and UNIQUE check, UPDATE, DELETE;
      [db_get], [db_all], [db_run] are the promise API of [sqlite].
      [exec_wf]: every statement keeps every table well formed.
    - [Http]: requests, responses, and [prog], the await points of an
      async handler as a tree ([PGet], [PAll], [PRun], [PHash],
      [PCompare], [PNow], [PSend]); [step] resumes a handler for one
      await, [run] executes it on a world (database, salt counter, clock).
      A rejected await ends the handler with [Rejected]; what the
      runtime then does ([Startup.after_request]) depends on the
      Express and Node versions, which the repository does not pin.
    - [Auth]: [authenticateToken] as a function from the request to send
      or next; [authorize], the spec's contract for the gate.
    - [Books]: the seven book handlers and their statements.
    - [Users]: [userRegisterAPI], [userLoginAPI], [getProfile] and the
      statements [selectUserQuery], [createUserQuery] with exact spacing.
    - [Server]: [app_routes] in registration order, Express's matching
      ([match_path]: trailing slash optional, case-insensitive, [:param]),
      first match wins ([select_route]), middleware chains ([run_chain]),
      404 otherwise; [serve] handles one request on a world, [serve_all]
      a sequence.
    - [Startup]: the process around the handlers (lines 16-31): [db]
      is [null] until [open] resolves, [initializeDBAndServer_settle]
      stores it and calls [app.listen] or logs and exits, the listening
      callback; [handle] and [run_events] deliver the events of Node's
      loop (open settles, port bound or not, a request served by
      [Server.serve]).
    - [Core]: the spec's authorization core over an abstract credential
      store ([registerUser], [login], the authorized profile, the
      response table of section 6) and the reading of the [user] table
      as that store ([store_of], [represents]).
    - [BookStore]: the [book] table read as a catalogue, a finite map
      from book id to the stored fields ([cat_rows], [cat_represents]),
      and the catalogue operations ([cat_step]: lookup, insert under
      [next_id], [alter], [delete]).
    - [Race]: several handlers in flight, interleaved at their await
      points ([cstep], [reachable]), as the spec's concurrency model
      (section 5) allows.
    - [Progress]: a bound on the awaits of each handler
      ([Http.prog_bound]), the event loop's one-await-at-a-time run
      ([Http.run_steps]) against [Http.run], and the termination and
      liveness of the interleavings.
    - [RaceFree]: concurrent registrations of distinct usernames; the
      four programs a registration handler passes through ([reg_thread],
      with [reg_k1] and [reg_k2] the handler after each await) and the
      invariant [reg_inv] on the interleavings.
    - [Linearize]: the same interleavings read through [Core.represents]:
      a history of the registrations in the order they drew their salts
      ([lin_inv]) and the specification's [core_run] over it.
    - [Lifecycle]: which table a statement can change ([stmt_target],
      read off its first tokens by [token_target]), the relation
      [rows_kept] (every row still there, unchanged, in order) and
      [prog_keeps], the statements a handler can send on every path.

    ** The theorems

    - The gate (Server.app_gate, Auth): every route after register and
      login answers 401 to a request [authorize] rejects and leaves the
      world as it was; [authenticateToken] refines [authorize]; tokens
      signed with the secret pass under their username claim, whether or
      not the user exists; tokens signed otherwise, missing headers or
      malformed tokens get 401.
    - The user endpoints (Users): every branch of register and login, on
      every database satisfying the user-table invariant and for every
      bcrypt and jsonwebtoken instance; the 72-byte truncation; the
      rejection, with no response, of a registration without a password;
      absent profile fields stored as the text ["undefined"].
    - The book endpoints (Books): list, get, update, delete and author's
      books by numeric id, insertion under the next rowid, the
      insert-then-get round trip below [2^53], and the rounded [bookId]
      past it.
    - End to end (Server): for any fresh username, register, login and an
      authenticated request succeed in sequence; two users registering
      one password store different hashes and both log in (salting); the
      filtered book route is unreachable.
    - Injection and forged tokens (Server, Books): the username
      [x' OR '1'='1] logs in as the first user and reads that user's
      profile; the book id [1 OR 1=1] deletes every book; a token anyone
      signs with the literal secret, for any username, passes the gate,
      and one such request empties the book table.
    - Invariants (Server, Race): every sequence of requests, and every
      interleaving of concurrent ones, keeps every table well formed.
    - Users are never updated or deleted (Lifecycle): whatever text a
      request interpolates into the templates, each compiles to a read,
      an insert, or an update or delete of [book]; so no request, alone
      or interleaved with others, changes or removes a row of the [user]
      table.
    - Refinement of the spec (Core): a register, login or profile
      request with quote-free text, and any sequence of them, gets the
      responses the specification gives, and leaves a [user] table that
      reads as the specification's store.
    - Refinement of the catalogue (BookStore): the keyed book requests
      (get, add, update, delete), alone or in sequence, answer as the
      catalogue operations and leave a table that reads as the new
      catalogue; a missing id is answered with success and changes
      nothing; deleting the largest id makes it the next id again.
    - Startup (Startup): the server listens only once [db] holds the
      opened connection and every request it accepts is served on it,
      with an outcome (no handler reads [null]); a failed open logs
      ["DB Error: ..."] and exits with 1; a failed [listen] exits with 1
      without reaching the [catch]; with Express 4 on Node 15 or later a
      single request whose handler rejects (a registration without a
      password) ends the process.
    - Termination, liveness, equivalence (Progress): every handler ends
      within four resumptions and the event loop's step-by-step run
      computes what [run] computes; every interleaving of [n] requests
      has at most [4 * n] steps; from every reachable configuration all
      handlers can still end, with one outcome per request.
    - Concurrency (Race): serving a request alone is one interleaving;
      two concurrent registrations of one username both succeed and
      leave two rows without a UNIQUE constraint, and leave one client
      without a response with it. Registrations of pairwise distinct
      free usernames do not race (RaceFree.distinct_registrations):
      whatever the interleaving, once all have ended every client was
      told "User created successfully", every username has one row and
      every user can log in with their password.
      Registrations of distinct usernames, free or taken, are
      linearizable (Linearize.registrations_linearizable): the answers
      (as a multiset) and the final world are those of the
      specification's [registerUser] run one after the other, in the
      order of the handlers' [bcrypt.hash] awaits.
    - Witnesses run the theorems on concrete worlds with the model
      instances.

    ** Bounds and fuel

    [N_to_string] uses [N.size_nat n] steps; a number has at most as many
    decimal digits as bits ([Js.N_size_nat_bound]), so the digits are all
    produced, and [Sql.lex_run_number] reads them back. The expression
    parser gets [5 * length ts + 5] steps: each step consumes a token or
    moves one of the four precedence levels down, so five per token
    suffice; lists use [length ts] steps, one per element at least. The
    compile lemmas of Users and Books show the fuel is enough for every
    statement the server emits on the inputs they cover. [run_steps] gets
    four resumptions per handler: the longest handlers await three times
    and then send ([Progress.app_bound]); the same bound per handler gives
    the [4 * n] steps of an interleaving. Integers are
    unbounded [Z]: JSON numbers are taken as integers (no fractions), and
    the 64-bit rowid [lastID] becomes a JavaScript number in [db_run],
    exact below [2^53] and rounded to the nearest double (ties to even)
    above ([Js.js_number_of_int]), which is what breaks the add-then-get
    round trip at [2^53 + 1].

    ** Not modelled

    The file system behind [open] and the socket behind [app.listen]
    are I/O: [Startup] takes their results as events. A handler that
    throws other than through a rejected await is not modelled; the
    handlers of the source throw only when [db] is [null], which
    [Startup.startup_db_ready] shows never happens. Integer column
    values read back in rows are kept exact (the driver would round
    those above [2^53] too), and SQLite's random choice of a rowid once
    the largest is [2^63 - 1] is not modelled. JSON body parsing and percent-decoding of
    paths are not modelled: a request carries its parsed body and decoded
    path. SQLite's type affinity (a text stored in an INTEGER column),
    multi-row VALUES and statements the server never emits are outside
    the SQL model. The bcrypt and jsonwebtoken algorithms are given by
    their interfaces' laws, not computed. *)

From stdpp Require Export base strings list sets.
From Stdlib Require Export Ascii ZArith.

Declare Scope goodreads_scope.
Delimit Scope goodreads_scope with gr.
Open Scope goodreads_scope.

(** ** Proof automation shared by the components *)

Ltac invc H := inversion H; subst; clear H.

(** Succeeds when [t] mentions no local variable. *)
Ltac closed_term t :=
  match t with
  | context [?x] => is_var x; fail 1
  | _ => idtac
  end.

(** ** Results: the success and error values of fallible code *)

Inductive result (A E : Type) : Type :=
| Ok (a : A)
| Err (e : E).
Arguments Ok {A E} a.
Arguments Err {A E} e.

Definition res_bind {A B E} (r : result A E) (k : A -> result B E) : result B E :=
  match r with Ok a => k a | Err e => Err e end.

Notation "'let*' x ':=' c1 'in' c2" := (res_bind c1 (fun x => c2))
  (at level 100, x name, c1 at next level, right associativity) : goodreads_scope.

Definition res_of_option {A E} (o : option A) (e : E) : result A E :=
  match o with Some a => Ok a | None => Err e end.

(** ** Characters and strings *)

Definition chr_quote : ascii := "'"%char.
Definition chr_space : ascii := " "%char.
Definition chr_slash : ascii := "/"%char.
Definition chr_newline : ascii := "010"%char.

(** [has_char c s]: the character [c] occurs in [s]. *)
Fixpoint has_char (c : ascii) (s : string) : bool :=
  match s with
  | EmptyString => false
  | String d s' => Ascii.eqb c d || has_char c s'
  end.

Lemma res_bind_Ok {A B E} (r : result A E) (k : A -> result B E) b :
  res_bind r k = Ok b <-> exists a, r = Ok a /\ k a = Ok b.
Proof.
  destruct r as [a|e]; simpl; split.
  - intros H. by exists a.
  - by intros (a' & [= ->] & H).
  - done.
  - by intros (a' & ? & _).
Qed.

(** stdpp declares [String.append] [simpl never]; these two equations
    are its computation rules. *)
Lemma string_app_nil_l (s : string) : "" +:+ s = s.
Proof. done. Qed.

Lemma string_app_cons c (s1 s2 : string) : String c s1 +:+ s2 = String c (s1 +:+ s2).
Proof. done. Qed.

Lemma string_app_nil_r (s : string) : s +:+ "" = s.
Proof. induction s as [|c s IH]; [done|]. by rewrite string_app_cons, IH. Qed.

Lemma string_app_assoc (s1 s2 s3 : string) :
  s1 +:+ (s2 +:+ s3) = (s1 +:+ s2) +:+ s3.
Proof. induction s1 as [|c s1 IH]; [done|]. by rewrite !string_app_cons, IH. Qed.

Lemma has_char_app c (s1 s2 : string) :
  has_char c (s1 +:+ s2) = has_char c s1 || has_char c s2.
Proof.
  induction s1 as [|d s1 IH]; [done|].
  rewrite string_app_cons. simpl. by rewrite IH, orb_assoc.
Qed.

Lemma has_char_cons_false c d s :
  has_char c (String d s) = false <-> c <> d /\ has_char c s = false.
Proof.
  simpl. rewrite orb_false_iff, Ascii.eqb_neq. done.
Qed.

(** ** Lists *)

Lemma find_none_iff {A} (f : A -> bool) (l : list A) :
  find f l = None <-> Forall (fun x => f x = false) l.
Proof.
  induction l as [|x l IH]; simpl; [split; by auto|].
  rewrite Forall_cons, <- IH. destruct (f x); naive_solver.
Qed.

(** A filter no element passes is empty. *)
Lemma filter_Forall_not {A} (P : A -> Prop) `{!forall x, Decision (P x)} (l : list A) :
  Forall (fun x => ~ P x) l -> filter P l = [].
Proof. induction 1; [done|]. by rewrite filter_cons_False. Qed.

Lemma zip_map_fst_snd {A B} (l : list (A * B)) : zip (map fst l) (map snd l) = l.
Proof. induction l as [|[a b] l IH]; simpl; [done|]. by rewrite IH. Qed.

(** A relation between a list and an updated list: the updated position
    relates to its new value, the others as before. *)
Lemma Forall2_insert_others {A B} (P Q : A -> B -> Prop) (l : list A) (k : list B) i x y :
  Forall2 P l k -> l !! i = Some x ->
  (forall j a b, j <> i -> l !! j = Some a -> k !! j = Some b -> P a b -> Q a b) -> Q x y ->
  Forall2 Q l (<[i:=y]> k).
Proof.
  intros Hlk Hi Hother Hxy. rewrite <- (list_insert_id l i x Hi). apply Forall2_same_length_lookup.
  split; [rewrite !length_insert; by eapply Forall2_length|].
  intros j a b Ha Hb. destruct (decide (j = i)) as [->|Hne].
  - pose proof (lookup_lt_Some _ _ _ Hi) as Hlt.
    rewrite list_lookup_insert_eq in Ha by done.
    rewrite list_lookup_insert_eq in Hb by (rewrite <- (Forall2_length _ _ _ Hlk); done). by simplify_eq.
  - rewrite list_lookup_insert_ne in Ha by done. rewrite list_lookup_insert_ne in Hb by done.
    destruct (Forall2_lookup_l _ _ _ _ _ Hlk Ha) as (b' & Hb' & HP). simplify_eq. by apply (Hother j).
Qed.

(** Distinct images: two positions of a list without duplicate images. *)
Lemma NoDup_map_lookup_ne {A B} (f : A -> B) (l : list A) i j a b :
  NoDup (f <$> l) -> l !! i = Some a -> l !! j = Some b -> j <> i -> f b <> f a.
Proof.
  intros Hnd Ha Hb Hne Heq. apply Hne. eapply NoDup_lookup; [exact Hnd| |].
  - by rewrite list_lookup_fmap, Hb.
  - by rewrite list_lookup_fmap, Ha, Heq.
Qed.

(** ** Hint databases *)

(** Inverts a computation of the [result] monad that succeeded: each
    [let*] gives its intermediate value, each [match] is split. *)
Ltac res_inv H :=
  repeat (first [ apply res_bind_Ok in H as (? & ? & H) | case_match | discriminate H ]; simpl in H).

Create HintDb goodreads.
Create Rewrite HintDb goodreads_rw.
#[export] Hint Rewrite string_app_nil_l string_app_cons string_app_nil_r has_char_app orb_false_r : goodreads_rw.
#[export] Hint Rewrite <- string_app_assoc : goodreads_rw.
