(* ===== verification/Js.v ===== *)
(** * JavaScript values and the string operations the server uses

    The request body delivered by [express.json()] and the values the
    handlers interpolate into SQL text are JavaScript values; this file
    holds their model [jsval], the property read [request.body.x]
    ([js_get]), the template-literal conversion [`${v}`] ([js_to_string]),
    and [String.prototype.split] with a one-character separator
    ([split_on]), with its lemmas. Numbers are modelled as integers [Z]
    (the fractional numbers of a book's [rating] and [price] are not
    modelled); [js_number_of_int] is the conversion of a 64-bit integer
    to a number, exact below [2^53], rounded above. *)

From S2P Require Import Prelude.

(** ** Values *)

Inductive jsval : Type :=
| JUndefined
| JNull
| JBool (b : bool)
| JNum (n : Z)
| JStr (s : string).

#[export] Instance jsval_eq_dec : EqDecision jsval.
Proof. solve_decision. Defined.

(** A parsed JSON object: [JSON.parse] keeps one binding per key. *)
Definition js_object : Type := list (string * jsval).

(** [o.k]: the bound value, [undefined] when the key is absent. *)
Fixpoint js_get (o : js_object) (k : string) : jsval :=
  match o with
  | [] => JUndefined
  | (k', v) :: o' => if String.eqb k k' then v else js_get o' k
  end.

(** ** Number to string: [String(n)] for an integer [n] *)

Definition digit_char (d : N) : ascii := ascii_of_N (48 + d).

Fixpoint N_digits (fuel : nat) (n : N) (acc : string) : string :=
  match fuel with
  | O => acc
  | S fuel' =>
      let acc' := String (digit_char (n mod 10)) acc in
      if (n <? 10)%N then acc' else N_digits fuel' (n / 10)%N acc'
  end.

(** [N.size_nat n] (the bit length) bounds the number of decimal digits. *)
Definition N_to_string (n : N) : string := N_digits (N.size_nat n) n "".

Definition js_number_to_string (z : Z) : string :=
  match z with
  | Z0 => "0"
  | Zpos p => N_to_string (Npos p)
  | Zneg p => String "-" (N_to_string (Npos p))
  end.

(** A 64-bit integer made a JavaScript number, as the driver does with
    [sqlite3_int64] values ([Napi::Number::New] of the C++ [double]
    conversion): integers of magnitude below [2^53] are kept, larger
    ones are rounded to the nearest double, ties to an even mantissa. *)
Definition js_number_of_int (n : Z) : Z :=
  let a := Z.abs n in
  let e := (Z.log2 a - 52)%Z in
  if (e <=? 0)%Z then n else
  let q := (a / 2 ^ e)%Z in
  let r := (a mod 2 ^ e)%Z in
  let h := (2 ^ (e - 1))%Z in
  let q' := if (r <? h)%Z then q else if (h <? r)%Z then (q + 1)%Z else if Z.even q then q else (q + 1)%Z in
  (Z.sgn n * (q' * 2 ^ e))%Z.

(** [`${v}`]: the conversion a template literal applies to [v]. *)
Definition js_to_string (v : jsval) : string :=
  match v with
  | JUndefined => "undefined"
  | JNull => "null"
  | JBool true => "true"
  | JBool false => "false"
  | JNum n => js_number_to_string n
  | JStr s => s
  end.

(** A line break inside a template literal. *)
Definition nl : string := String chr_newline EmptyString.

(** ** [s.split(sep)] for a one-character separator *)

(** JavaScript returns [[""]] on the empty string and an empty field
    around every separator, which this definition reproduces. *)
Fixpoint split_on (sep : ascii) (s : string) : list string :=
  match s with
  | EmptyString => [EmptyString]
  | String c s' =>
      let parts := split_on sep s' in
      if Ascii.eqb c sep then EmptyString :: parts
      else match parts with
           | p :: ps => String c p :: ps
           | [] => [String c EmptyString]
           end
  end.

(** [arr.join(sep)], the inverse of [split_on]. *)
Fixpoint join_on (sep : ascii) (parts : list string) : string :=
  match parts with
  | [] => ""
  | [p] => p
  | p :: ps => p +:+ String sep (join_on sep ps)
  end.

(** ** Lemmas on [split_on] *)

Section Split.
Context (sep : ascii).

Lemma split_on_nonempty s : split_on sep s <> [].
Proof.
  destruct s as [|c s]; simpl; [done|].
  destruct (Ascii.eqb c sep); [done|]. by destruct (split_on sep s).
Qed.

(** The computation rule for a character other than the separator. *)
Lemma split_on_cons_ne c s p ps :
  c <> sep -> split_on sep s = p :: ps ->
  split_on sep (String c s) = String c p :: ps.
Proof.
  intros Hc Hs. simpl. rewrite Hs.
  by destruct (Ascii.eqb_spec c sep).
Qed.

Lemma split_on_no_sep s : has_char sep s = false -> split_on sep s = [s].
Proof.
  induction s as [|c s IH]; [done|].
  intros [Hc Hs]%has_char_cons_false.
  apply split_on_cons_ne; [done|]. by apply IH.
Qed.

Lemma split_on_app_sep a b :
  has_char sep a = false ->
  split_on sep (a +:+ String sep b) = a :: split_on sep b.
Proof.
  induction a as [|c a IH].
  - intros _. simpl. by rewrite Ascii.eqb_refl.
  - intros [Hc Ha]%has_char_cons_false. rewrite string_app_cons.
    apply split_on_cons_ne; [done|]. by apply IH.
Qed.

(** Every field of the result is free of the separator. *)
Lemma split_on_fields s : Forall (fun p => has_char sep p = false) (split_on sep s).
Proof.
  induction s as [|c s IH]; simpl; [by repeat constructor|].
  destruct (Ascii.eqb_spec c sep) as [->|Hc]; [by constructor|].
  destruct (split_on sep s) as [|p ps] eqn:E; [by apply split_on_nonempty in E|].
  apply Forall_cons in IH as [Hp Hps]. constructor; [|done].
  apply has_char_cons_false. split; [by intros ->|done].
Qed.

(** Round trip: joining the fields with the separator gives [s] back. *)
Lemma join_split s : join_on sep (split_on sep s) = s.
Proof.
  induction s as [|c s IH]; [done|]. simpl.
  destruct (Ascii.eqb_spec c sep) as [->|Hc].
  - destruct (split_on sep s) as [|p ps] eqn:E; [by apply split_on_nonempty in E|].
    simpl. by rewrite <- IH.
  - destruct (split_on sep s) as [|p [|p' ps]] eqn:E;
      [by apply split_on_nonempty in E| |].
    + simpl in *. by subst.
    + simpl in *. rewrite string_app_cons. by rewrite <- IH.
Qed.

(** Round trip: splitting a join of separator-free fields gives the fields. *)
Lemma split_join parts :
  parts <> [] -> Forall (fun p => has_char sep p = false) parts ->
  split_on sep (join_on sep parts) = parts.
Proof.
  induction parts as [|p [|p' ps] IH]; intros Hne Hall; [done| |].
  - apply Forall_cons in Hall as [Hp _]. simpl. by apply split_on_no_sep.
  - apply Forall_cons in Hall as [Hp Hall].
    change (join_on sep (p :: p' :: ps)) with (p +:+ String sep (join_on sep (p' :: ps))).
    rewrite split_on_app_sep by done. f_equal. by apply IH.
Qed.
Lemma has_char_join c parts :
  c <> sep -> Forall (fun p => has_char c p = false) parts ->
  has_char c (join_on sep parts) = false.
Proof.
  intros Hc. induction parts as [|p [|p' ps] IH]; intros Hall; [done| |].
  - by apply Forall_cons in Hall as [Hp _].
  - apply Forall_cons in Hall as [Hp Hall].
    change (join_on sep (p :: p' :: ps)) with (p +:+ String sep (join_on sep (p' :: ps))).
    rewrite has_char_app, Hp. apply has_char_cons_false. split; [done|]. by apply IH.
Qed.
End Split.

(** The digits are produced in front of the accumulator. *)
Lemma N_digits_app fuel n (a b : string) : N_digits fuel n (a +:+ b) = N_digits fuel n a +:+ b.
Proof.
  revert n a. induction fuel as [|f IH]; intros n a; [done|]. cbn [N_digits].
  rewrite <- string_app_cons. destruct (n <? 10)%N; [done|apply IH].
Qed.

(** [N.size_nat] is the bit length, so [n < 10 ^ N.size_nat n]. *)
Lemma N_size_nat_bound n : (n < 10 ^ N.of_nat (N.size_nat n))%N.
Proof.
  destruct n as [|p]; [done|]. simpl N.size_nat.
  assert (Hp : (Npos p < 2 ^ N.of_nat (Pos.size_nat p))%N).
  { induction p as [p IH|p IH|]; simpl Pos.size_nat; [| |done];
      rewrite Nat2N.inj_succ, N.pow_succ_r'; lia. }
  eapply N.lt_le_trans; [exact Hp|]. apply N.pow_le_mono_l. lia.
Qed.

#[export] Hint Resolve split_on_nonempty : goodreads.

Lemma digit_char_range d : (d < 10)%N -> (48 <= N_of_ascii (digit_char d) <= 57)%N.
Proof. intros Hd. unfold digit_char. rewrite N_ascii_embedding; lia. Qed.

(** The text of a non-negative number is made of digits: not empty, and
    without any other character, such as ['/'] or a quote. *)
Lemma N_digits_no_char c fuel n acc :
  (48 <= N_of_ascii c <= 57 -> False)%N -> has_char c acc = false ->
  has_char c (N_digits fuel n acc) = false.
Proof.
  intros Hc. revert n acc. induction fuel as [|f IH]; intros n acc Hacc; [done|]. cbn [N_digits].
  assert (Hd : has_char c (String (digit_char (n mod 10)) acc) = false).
  { simpl. rewrite Hacc, orb_false_r. apply Ascii.eqb_neq. intros ->. apply Hc.
    apply digit_char_range, N.mod_lt. lia. }
  destruct (n <? 10)%N; [done|by apply IH].
Qed.

Lemma js_number_no_char c z :
  (0 <= z)%Z -> (48 <= N_of_ascii c <= 57 -> False)%N -> has_char c (js_number_to_string z) = false.
Proof.
  intros Hz Hc. destruct z as [|p|p]; [|by apply N_digits_no_char|lia].
  simpl. rewrite orb_false_r. apply Ascii.eqb_neq. intros ->. by apply Hc.
Qed.

Lemma N_digits_nonempty fuel n acc : acc <> "" -> N_digits fuel n acc <> "".
Proof.
  revert n acc. induction fuel as [|f IH]; intros n acc Hacc; [done|]. cbn [N_digits].
  destruct (n <? 10)%N; [done|by apply IH].
Qed.

Lemma js_number_nonempty z : js_number_to_string z <> "".
Proof.
  destruct z as [|p|p]; [done| |done]. unfold js_number_to_string, N_to_string.
  assert (Hs : N.size_nat (Npos p) <> 0) by (destruct p; done).
  destruct (N.size_nat (Npos p)) as [|f]; [done|]. cbn [N_digits].
  destruct (_ <? 10)%N; [done|by apply N_digits_nonempty].
Qed.

(** Integers of magnitude below [2^53] are numbers exactly. *)
Lemma js_number_of_int_safe n : (Z.abs n < 2 ^ 53)%Z -> js_number_of_int n = n.
Proof.
  intros Hn. unfold js_number_of_int.
  assert (Hl : (Z.log2 (Z.abs n) < 53)%Z).
  { destruct (Z.eq_dec n 0) as [->|Hnz]; [done|]. apply Z.log2_lt_pow2; lia. }
  by rewrite (proj2 (Z.leb_le _ 0)) by lia.
Qed.
