(* ===== verification/Crypto.v ===== *)
(** * The two libraries of the authentication code: bcrypt and jsonwebtoken

    The handlers call [bcrypt.hash], [bcrypt.compare], [jwt.sign] and
    [jwt.verify]. These are libraries the sources only call, so they are
    stated here as interfaces ([Class Bcrypt], [Class Jwt]) whose laws are
    the behaviour the libraries document and the server relies on; the
    handlers' theorems are proved against the interfaces, and
    [CryptoModel.v] gives each interface an instance that discharges its
    laws. *)

From S2P Require Import Prelude Js.

(** ** bcrypt *)

(** bcrypt uses the first 72 bytes of the password and ignores the rest. *)
Definition bcrypt_key (pw : string) : string := String.substring 0 72 pw.

(** [bcrypt_hash rounds salt data] is [bcrypt.hash(data, rounds)] once the
    library has drawn [salt]; [bcrypt_compare data encrypted] is
    [bcrypt.compare(data, encrypted)]. *)
Class Bcrypt : Type := {
  bcrypt_hash : Z -> string -> string -> string;
  bcrypt_compare : string -> string -> bool;
  (** the hash verifies exactly the passwords with the same 72-byte key *)
  bcrypt_compare_hash r salt pw pw' :
    bcrypt_compare pw (bcrypt_hash r salt pw') = String.eqb (bcrypt_key pw) (bcrypt_key pw');
  (** the salt is part of the hash: two salts give two hashes *)
  bcrypt_hash_salted r s1 s2 pw : bcrypt_hash r s1 pw = bcrypt_hash r s2 pw -> s1 = s2;
  (** the hash alphabet is [./A-Za-z0-9$]: no quote *)
  bcrypt_hash_no_quote r s pw : has_char chr_quote (bcrypt_hash r s pw) = false;
}.

(** ** jsonwebtoken *)

(** The payload [jwt.sign] stores and [jwt.verify] returns: the
    [username] claim the server puts in, and the [iat] (issued at, in
    seconds) claim the library adds. *)
Record claims : Type := {
  claim_username : jsval;
  claim_iat : Z;
}.

(** The error kinds of [jwt.verify] when no expiry claim is set. *)
Inductive jwt_error : Type :=
| JwtMustBeProvided      (** the token is the empty string *)
| JwtMalformed           (** the token does not have three dot-separated parts *)
| JwtInvalidToken        (** the header or payload does not decode *)
| JwtInvalidSignature.   (** the signature does not match the secret *)

(** [jwt_sign c secret] is [jwt.sign(payload, secret)] at the instant
    recorded in [claim_iat c]; [jwt_verify token secret] is
    [jwt.verify(token, secret, callback)], whose callback receives the
    error or the decoded payload. *)
Class Jwt : Type := {
  jwt_sign : claims -> string -> string;
  jwt_verify : string -> string -> result claims jwt_error;
  (** a token verifies under its own secret, giving back its claims *)
  jwt_verify_sign c k : jwt_verify (jwt_sign c k) k = Ok c;
  (** a token signed with another secret is rejected *)
  jwt_verify_other_key c k k' : k <> k' -> jwt_verify (jwt_sign c k) k' = Err JwtInvalidSignature;
  (** the empty token is rejected before anything else *)
  jwt_verify_empty k : jwt_verify "" k = Err JwtMustBeProvided;
  (** a compact JWS is base64url text and dots: no space *)
  jwt_sign_no_space c k : has_char chr_space (jwt_sign c k) = false;
}.

