(* ===== verification/CryptoModel.v ===== *)
(** * Model instances of the bcrypt and jsonwebtoken interfaces

    [bcrypt_model] and [jwt_model] satisfy the laws of [Bcrypt] and [Jwt]
    (so the laws are consistent) and compute, so that concrete runs of the
    server evaluate. They are built from a reversible text encoding
    (hexadecimal for strings, binary digits for integers); they are not
    cryptographically secure, and only their laws matter to the theorems. *)

From S2P Require Import Prelude Js Crypto.

(** ** A reversible encoding into a safe alphabet *)

Definition hex_digit (n : N) : ascii :=
  if (n <? 10)%N then ascii_of_N (48 + n) else ascii_of_N (87 + n).

Definition hex_val (c : ascii) : option N :=
  let n := N_of_ascii c in
  if ((48 <=? n) && (n <? 58))%N then Some (n - 48)%N
  else if ((97 <=? n) && (n <? 103))%N then Some (n - 87)%N
  else None.

Definition hex_hi (c : ascii) : ascii := hex_digit (N_of_ascii c / 16).
Definition hex_lo (c : ascii) : ascii := hex_digit (N_of_ascii c mod 16).

Definition hex_pair (h l : ascii) : option ascii :=
  match hex_val h, hex_val l with
  | Some a, Some b => Some (ascii_of_N (16 * a + b))
  | _, _ => None
  end.

Fixpoint hex_enc (s : string) : string :=
  match s with
  | EmptyString => EmptyString
  | String c s' => String (hex_hi c) (String (hex_lo c) (hex_enc s'))
  end.

Fixpoint hex_dec (s : string) : option string :=
  match s with
  | EmptyString => Some EmptyString
  | String h (String l s') =>
      match hex_pair h l, hex_dec s' with
      | Some c, Some r => Some (String c r)
      | _, _ => None
      end
  | String _ EmptyString => None
  end.

(** The encoding uses the digits [0-9a-f] only. *)
Definition safe_char (c : ascii) : bool := bool_decide (is_Some (hex_val c)).

Fixpoint safe_string (s : string) : bool :=
  match s with
  | EmptyString => true
  | String c s' => safe_char c && safe_string s'
  end.

(** Integers as a sign and the binary digits of a positive. *)
Fixpoint pos_enc (p : positive) : string :=
  match p with
  | xH => EmptyString
  | xO p' => String "0" (pos_enc p')
  | xI p' => String "1" (pos_enc p')
  end.

Fixpoint pos_dec (s : string) : option positive :=
  match s with
  | EmptyString => Some xH
  | String c s' =>
      match pos_dec s' with
      | Some p => if Ascii.eqb c "0" then Some (xO p)
                  else if Ascii.eqb c "1" then Some (xI p) else None
      | None => None
      end
  end.

Definition z_enc (z : Z) : string :=
  match z with
  | Z0 => "0"
  | Zpos p => String "1" (pos_enc p)
  | Zneg p => String "2" (pos_enc p)
  end.

Definition z_dec (s : string) : option Z :=
  match s with
  | String c s' =>
      if Ascii.eqb c "0" then (if String.eqb s' "" then Some Z0 else None)
      else if Ascii.eqb c "1" then Zpos <$> pos_dec s'
      else if Ascii.eqb c "2" then Zneg <$> pos_dec s'
      else None
  | EmptyString => None
  end.

Definition chr_dollar : ascii := "$"%char.

Definition bcrypt_model_hash (r : Z) (salt pw : string) : string :=
  join_on chr_dollar ["";"2b"; z_enc r; hex_enc salt; hex_enc (bcrypt_key pw)].

Definition bcrypt_model_compare (pw h : string) : bool :=
  match split_on chr_dollar h with
  | [_; _; _; _; d] => String.eqb d (hex_enc (bcrypt_key pw))
  | _ => false
  end.

Definition chr_dot : ascii := "."%char.
Definition chr_dash : ascii := "-"%char.

Definition jsval_enc (v : jsval) : string :=
  match v with
  | JUndefined => "U"
  | JNull => "N"
  | JBool true => "T"
  | JBool false => "F"
  | JNum n => String "Z" (z_enc n)
  | JStr s => String "S" (hex_enc s)
  end.

Definition jsval_dec (s : string) : option jsval :=
  match s with
  | EmptyString => None
  | String t r =>
      if Ascii.eqb t "Z" then JNum <$> z_dec r
      else if Ascii.eqb t "S" then JStr <$> hex_dec r
      else if negb (String.eqb r "") then None
      else if Ascii.eqb t "U" then Some JUndefined
      else if Ascii.eqb t "N" then Some JNull
      else if Ascii.eqb t "T" then Some (JBool true)
      else if Ascii.eqb t "F" then Some (JBool false)
      else None
  end.

(** The base64url of the header [{"alg":"HS256","typ":"JWT"}]. *)
Definition jwt_header : string := "eyJhbGciOiJIUzI1NiIsInR5cCI6IkpXVCJ9".

Definition jwt_payload (c : claims) : string :=
  join_on chr_dash [z_enc (claim_iat c); jsval_enc (claim_username c)].

Definition jwt_model_sign (c : claims) (k : string) : string :=
  join_on chr_dot [jwt_header; jwt_payload c; hex_enc k].

Definition jwt_model_verify (t k : string) : result claims jwt_error :=
  if String.eqb t "" then Err JwtMustBeProvided else
  match split_on chr_dot t with
  | [_; p; sig] =>
      match split_on chr_dash p with
      | [a; b] =>
          match z_dec a, jsval_dec b with
          | Some iat, Some u =>
              if String.eqb sig (hex_enc k)
              then Ok {| claim_username := u; claim_iat := iat |}
              else Err JwtInvalidSignature
          | _, _ => Err JwtInvalidToken
          end
      | _ => Err JwtInvalidToken
      end
  | _ => Err JwtMalformed
  end.

(** A safe string contains none of the characters that delimit tokens,
    SQL literals or bcrypt fields. *)
Lemma safe_no_char c s :
  safe_char c = false -> safe_string s = true -> has_char c s = false.
Proof.
  intros Hc. induction s as [|d s IH]; simpl; [done|].
  intros [Hd Hs]%andb_prop. rewrite IH by done.
  destruct (Ascii.eqb_spec c d) as [->|]; [congruence|done].
Qed.

(** Checked on all 256 characters. *)
Lemma hex_pair_hi_lo c : hex_pair (hex_hi c) (hex_lo c) = Some c.
Proof. destruct c as [[] [] [] [] [] [] [] []]; reflexivity. Qed.

Lemma hex_dec_enc s : hex_dec (hex_enc s) = Some s.
Proof. induction s as [|c s IH]; simpl; [done|]. by rewrite hex_pair_hi_lo, IH. Qed.

Lemma hex_enc_inj s1 s2 : hex_enc s1 = hex_enc s2 -> s1 = s2.
Proof.
  intros H. apply (f_equal hex_dec) in H. rewrite !hex_dec_enc in H. congruence.
Qed.

Lemma safe_hex_hi_lo c : safe_char (hex_hi c) && safe_char (hex_lo c) = true.
Proof. destruct c as [[] [] [] [] [] [] [] []]; reflexivity. Qed.

Lemma safe_hex_enc s : safe_string (hex_enc s) = true.
Proof.
  induction s as [|c s IH]; simpl; [done|].
  pose proof (safe_hex_hi_lo c) as Hc. apply andb_prop in Hc as [-> ->]. done.
Qed.

Lemma safe_string_app s1 s2 :
  safe_string (s1 +:+ s2) = safe_string s1 && safe_string s2.
Proof.
  induction s1 as [|c s1 IH]; [done|].
  rewrite string_app_cons. simpl. by rewrite IH, andb_assoc.
Qed.

Lemma pos_dec_enc p : pos_dec (pos_enc p) = Some p.
Proof. induction p as [p IH|p IH|]; simpl; try rewrite IH; done. Qed.

Lemma z_dec_enc z : z_dec (z_enc z) = Some z.
Proof. destruct z as [|p|p]; simpl; try rewrite pos_dec_enc; done. Qed.

Lemma safe_pos_enc p : safe_string (pos_enc p) = true.
Proof. induction p as [p IH|p IH|]; simpl; try rewrite IH; done. Qed.

Lemma safe_z_enc z : safe_string (z_enc z) = true.
Proof. destruct z; simpl; rewrite ?safe_pos_enc; done. Qed.

Lemma hex_enc_eqb s1 s2 : String.eqb (hex_enc s1) (hex_enc s2) = String.eqb s1 s2.
Proof.
  destruct (String.eqb_spec s1 s2) as [->|Hne]; [apply String.eqb_refl|].
  apply String.eqb_neq. by intros ?%hex_enc_inj.
Qed.

(** A field list joined by a separator the fields do not contain splits back. *)
Lemma split_join_safe (sep : ascii) parts :
  safe_char sep = false -> parts <> [] -> Forall (fun p => safe_string p = true) parts ->
  split_on sep (join_on sep parts) = parts.
Proof.
  intros Hsep Hne Hall. apply split_join; [done|].
  eapply Forall_impl; [exact Hall|]. intros p Hp. by apply safe_no_char.
Qed.

Lemma bcrypt_model_split r salt pw :
  split_on chr_dollar (bcrypt_model_hash r salt pw)
  = ["";"2b"; z_enc r; hex_enc salt; hex_enc (bcrypt_key pw)].
Proof.
  apply split_join_safe; [done|done|].
  repeat constructor; auto using safe_z_enc, safe_hex_enc.
Qed.

Lemma jsval_dec_enc v : jsval_dec (jsval_enc v) = Some v.
Proof. destruct v as [| |[]|n|s]; simpl; rewrite ?z_dec_enc, ?hex_dec_enc; done. Qed.

Lemma jsval_enc_no_char c v :
  safe_char c = false -> c ∉ ["U"; "N"; "T"; "F"; "Z"; "S"]%char ->
  has_char c (jsval_enc v) = false.
Proof.
  intros Hsafe Htag.
  destruct v as [| |[]|n|s]; cbn [jsval_enc]; apply has_char_cons_false;
    (split; [intros ->; apply Htag; set_solver|]);
    try done; apply safe_no_char; auto using safe_z_enc, safe_hex_enc.
Qed.

Lemma jwt_payload_split c :
  split_on chr_dash (jwt_payload c) = [z_enc (claim_iat c); jsval_enc (claim_username c)].
Proof.
  apply split_join; [done|]. repeat constructor.
  - apply safe_no_char; auto using safe_z_enc.
  - apply jsval_enc_no_char; [done|]. set_solver.
Qed.

Lemma jwt_payload_no_char c x :
  safe_char x = false -> x ∉ ["U"; "N"; "T"; "F"; "Z"; "S"; "-"]%char ->
  has_char x (jwt_payload c) = false.
Proof.
  intros Hs Hx. apply has_char_join; [intros ->; apply Hx; set_solver|].
  repeat constructor.
  - apply safe_no_char; auto using safe_z_enc.
  - apply jsval_enc_no_char; [done|]. set_solver.
Qed.

Lemma jwt_model_split c k :
  split_on chr_dot (jwt_model_sign c k) = [jwt_header; jwt_payload c; hex_enc k].
Proof.
  apply split_join; [done|]. repeat constructor.
  - apply jwt_payload_no_char; [done|]. set_solver.
  - apply safe_no_char; auto using safe_hex_enc.
Qed.

Lemma jwt_model_verify_signed c k k' :
  jwt_model_verify (jwt_model_sign c k) k'
  = if String.eqb (hex_enc k) (hex_enc k') then Ok c else Err JwtInvalidSignature.
Proof.
  unfold jwt_model_verify.
  destruct (String.eqb_spec (jwt_model_sign c k) "") as [E|_].
  { apply (f_equal (split_on chr_dot)) in E. by rewrite jwt_model_split in E. }
  rewrite jwt_model_split, jwt_payload_split, z_dec_enc, jsval_dec_enc.
  destruct c. by rewrite String.eqb_sym.
Qed.

#[local] Program Instance bcrypt_model : Bcrypt := {|
  bcrypt_hash := bcrypt_model_hash;
  bcrypt_compare := bcrypt_model_compare |}.
Next Obligation.
  intros r salt pw pw'. unfold bcrypt_model_compare. rewrite bcrypt_model_split.
  rewrite String.eqb_sym. apply hex_enc_eqb.
Qed.
Next Obligation.
  intros r s1 s2 pw H. apply (f_equal (split_on chr_dollar)) in H.
  rewrite !bcrypt_model_split in H. simplify_eq. by apply hex_enc_inj.
Qed.
Next Obligation.
  intros r s pw. apply has_char_join; [done|].
  repeat constructor; apply safe_no_char; auto using safe_z_enc, safe_hex_enc.
Qed.

#[local] Program Instance jwt_model : Jwt := {|
  jwt_sign := jwt_model_sign;
  jwt_verify := jwt_model_verify |}.
Next Obligation.
  intros c k. simpl. by rewrite jwt_model_verify_signed, String.eqb_refl.
Qed.
Next Obligation.
  intros c k k' Hne. simpl. rewrite jwt_model_verify_signed, hex_enc_eqb.
  by destruct (String.eqb_spec k k').
Qed.
Next Obligation. done. Qed.
Next Obligation.
  intros c k. apply has_char_join; [done|]. repeat constructor.
  - apply jwt_payload_no_char; [done|]. set_solver.
  - apply safe_no_char; auto using safe_hex_enc.
Qed.
