(* ===== verification/Sql.v ===== *)
(** * The SQL text the handlers send to SQLite: lexer and parser

    Every handler builds its statement with a template literal and hands
    the text to [db.get], [db.all] or [db.run]. This file gives that text
    a meaning: a lexer ([lex], a state machine over the characters, in the
    manner of SQLite's tokenizer), the syntax of the fragment of SQL the
    server emits ([stmt]) and a recursive-descent parser ([parse_stmt]).
    The evaluation of statements on the tables is in [Db.v]. Like the
    [sqlite3] driver, only the first statement of the text is compiled:
    what follows its [;] is ignored.

    Simplifications, none of which the server's statements exercise on
    quote-free input: identifiers are ASCII letters, digits and [_];
    numeric literals are unsigned integers; keywords are the ones the
    server's statements use. *)

From S2P Require Import Prelude Js.

(** ** Tokens *)

Inductive token : Type :=
| TWord (w : string)   (** identifier or keyword, as written *)
| TStr (s : string)    (** a ['...'] literal, its [''] unescaped *)
| TNum (n : Z)         (** an unsigned integer literal *)
| TSym (c : ascii).    (** punctuation: [* , ( ) = ; % + - < > / .] *)

#[export] Instance token_eq_dec : EqDecision token.
Proof. solve_decision. Defined.

Definition is_letter (c : ascii) : bool :=
  let n := N_of_ascii c in
  ((65 <=? n) && (n <=? 90))%N || ((97 <=? n) && (n <=? 122))%N || Ascii.eqb c "_".

Definition digit_val (c : ascii) : option Z :=
  let n := N_of_ascii c in
  if ((48 <=? n) && (n <=? 57))%N then Some (Z.of_N (n - 48)) else None.

Definition is_space (c : ascii) : bool :=
  Ascii.eqb c " " || Ascii.eqb c chr_newline || Ascii.eqb c "009" || Ascii.eqb c "013".

Definition is_symbol (c : ascii) : bool :=
  existsb (Ascii.eqb c) ["*"; ","; "("; ")"; "="; ";"; "%"; "+"; "<"; ">"; "/"; "."]%char.

(** ** The lexer: one step per character *)

Inductive lmode : Type :=
| LTop                         (** between tokens *)
| LWord (acc : list ascii)     (** in a word; characters reversed *)
| LNum (n : Z)                 (** in a number *)
| LStr (acc : list ascii)      (** in a string literal *)
| LStrQ (acc : list ascii)     (** in a string literal, just after a quote *)
| LDash                        (** after a [-] *)
| LComment.                    (** in a [--] comment *)

Definition word_of (acc : list ascii) : string := String.string_of_list_ascii (rev acc).

(** The character [c] read between tokens; [out] holds the tokens read so
    far, last first. [None] is SQLite's "unrecognized token". *)
Definition lex_top (out : list token) (c : ascii) : option (lmode * list token) :=
  if is_space c then Some (LTop, out)
  else if is_letter c then Some (LWord [c], out)
  else match digit_val c with
  | Some d => Some (LNum d, out)
  | None =>
      if Ascii.eqb c chr_quote then Some (LStr [], out)
      else if Ascii.eqb c "-" then Some (LDash, out)
      else if is_symbol c then Some (LTop, TSym c :: out)
      else None
  end.

Definition lex_step (m : lmode) (out : list token) (c : ascii) : option (lmode * list token) :=
  match m with
  | LTop => lex_top out c
  | LWord acc =>
      if is_letter c || bool_decide (is_Some (digit_val c)) then Some (LWord (c :: acc), out)
      else lex_top (TWord (word_of acc) :: out) c
  | LNum n =>
      match digit_val c with
      | Some d => Some (LNum (10 * n + d), out)
      | None => lex_top (TNum n :: out) c
      end
  | LStr acc => if Ascii.eqb c chr_quote then Some (LStrQ acc, out) else Some (LStr (c :: acc), out)
  | LStrQ acc =>
      if Ascii.eqb c chr_quote then Some (LStr (c :: acc), out)
      else lex_top (TStr (word_of acc) :: out) c
  | LDash => if Ascii.eqb c "-" then Some (LComment, out) else lex_top (TSym "-" :: out) c
  | LComment => if Ascii.eqb c chr_newline then Some (LTop, out) else Some (LComment, out)
  end.

Fixpoint lex_run (m : lmode) (out : list token) (s : string) : option (lmode * list token) :=
  match s with
  | EmptyString => Some (m, out)
  | String c s' =>
      match lex_step m out c with
      | Some (m', out') => lex_run m' out' s'
      | None => None
      end
  end.

(** End of text: an open string literal is an error. *)
Definition lex_finish (m : lmode) (out : list token) : option (list token) :=
  match m with
  | LTop | LComment => Some (rev out)
  | LWord acc => Some (rev (TWord (word_of acc) :: out))
  | LNum n => Some (rev (TNum n :: out))
  | LStr _ => None
  | LStrQ acc => Some (rev (TStr (word_of acc) :: out))
  | LDash => Some (rev (TSym "-" :: out))
  end.

Definition lex (s : string) : option (list token) :=
  match lex_run LTop [] s with
  | Some (m, out) => lex_finish m out
  | None => None
  end.

(** ** The statements *)

Inductive sql_value : Type :=
| SNull
| SInt (n : Z)
| SText (s : string).

#[export] Instance sql_value_eq_dec : EqDecision sql_value.
Proof. solve_decision. Defined.

Inductive binop : Type := OpEq | OpAnd | OpOr | OpLike.

Inductive expr : Type :=
| ELit (v : sql_value)
| ECol (c : string)
| ENeg (e : expr)
| EBin (op : binop) (e1 e2 : expr).

Inductive stmt : Type :=
| SSelect (tbl : string) (where_ : option expr)
          (order : option (string * bool))         (** column, descending *)
          (limit : option (expr * option expr))    (** LIMIT, OFFSET *)
| SInsert (tbl : string) (cols : list string) (vals : list expr)
| SUpdate (tbl : string) (sets : list (string * expr)) (where_ : option expr)
| SDelete (tbl : string) (where_ : option expr).

(** ** The parser *)

Definition ascii_upper (c : ascii) : ascii :=
  let n := N_of_ascii c in
  if ((97 <=? n) && (n <=? 122))%N then ascii_of_N (n - 32) else c.

Fixpoint string_upper (s : string) : string :=
  match s with
  | EmptyString => EmptyString
  | String c s' => String (ascii_upper c) (string_upper s')
  end.

Definition keywords : list string :=
  ["SELECT"; "FROM"; "WHERE"; "ORDER"; "BY"; "ASC"; "DESC"; "LIMIT"; "OFFSET";
   "INSERT"; "INTO"; "VALUES"; "UPDATE"; "SET"; "DELETE"; "AND"; "OR"; "LIKE"; "NULL"].

(** Keywords are case-insensitive. *)
Definition is_kw (kw : string) (t : token) : bool :=
  match t with TWord w => String.eqb (string_upper w) kw | _ => false end.

Definition expect_kw (kw : string) (ts : list token) : option (list token) :=
  match ts with t :: ts' => if is_kw kw t then Some ts' else None | [] => None end.

Definition expect_sym (c : ascii) (ts : list token) : option (list token) :=
  match ts with TSym d :: ts' => if Ascii.eqb c d then Some ts' else None | _ => None end.

Definition parse_ident (ts : list token) : option (string * list token) :=
  match ts with
  | TWord w :: ts' => if existsb (String.eqb (string_upper w)) keywords then None else Some (w, ts')
  | _ => None
  end.

(** The binary operator of precedence level [lvl]: OR, AND, then [=] and LIKE. *)
Definition binop_at (lvl : nat) (ts : list token) : option (binop * list token) :=
  match lvl, ts with
  | 0, t :: ts' => if is_kw "OR" t then Some (OpOr, ts') else None
  | 1, t :: ts' => if is_kw "AND" t then Some (OpAnd, ts') else None
  | 2, TSym c :: ts' => if Ascii.eqb c "=" then Some (OpEq, ts') else None
  | 2, t :: ts' => if is_kw "LIKE" t then Some (OpLike, ts') else None
  | _, _ => None
  end.

(** Precedence climbing; [fuel] bounds the depth of the recursion. *)
Fixpoint pexpr (fuel lvl : nat) (ts : list token) {struct fuel} : option (expr * list token) :=
  match fuel with
  | O => None
  | S f =>
      if lvl <? 3 then
        match pexpr f (S lvl) ts with
        | Some (e, ts') => pchain f lvl e ts'
        | None => None
        end
      else pprim f ts
  end
with pchain (fuel lvl : nat) (e : expr) (ts : list token) {struct fuel} : option (expr * list token) :=
  match fuel with
  | O => None
  | S f =>
      match binop_at lvl ts with
      | Some (op, ts1) =>
          match pexpr f (S lvl) ts1 with
          | Some (e2, ts2) => pchain f lvl (EBin op e e2) ts2
          | None => None
          end
      | None => Some (e, ts)
      end
  end
with pprim (fuel : nat) (ts : list token) {struct fuel} : option (expr * list token) :=
  match fuel with
  | O => None
  | S f =>
      match ts with
      | TStr s :: ts' => Some (ELit (SText s), ts')
      | TNum n :: ts' => Some (ELit (SInt n), ts')
      | TSym c :: ts' =>
          if Ascii.eqb c "-" then
            match pprim f ts' with Some (e, ts2) => Some (ENeg e, ts2) | None => None end
          else if Ascii.eqb c "(" then
            match pexpr f 0 ts' with
            | Some (e, ts2) => (fun ts3 => (e, ts3)) <$> expect_sym ")" ts2
            | None => None
            end
          else None
      | t :: ts' =>
          if is_kw "NULL" t then Some (ELit SNull, ts')
          else (fun '(w, ts2) => (ECol w, ts2)) <$> parse_ident ts
      | [] => None
      end
  end.

Definition parse_expr (ts : list token) : option (expr * list token) :=
  pexpr (5 * length ts + 5) 0 ts.

(** [p (, p)*] *)
Fixpoint sep_list {A} (fuel : nat) (p : list token -> option (A * list token))
    (ts : list token) : option (list A * list token) :=
  match fuel with
  | O => None
  | S f =>
      '(a, ts1) ← p ts;
      match expect_sym "," ts1 with
      | Some ts2 => '(l, ts3) ← sep_list f p ts2; Some (a :: l, ts3)
      | None => Some ([a], ts1)
      end
  end.

Definition parse_list {A} (p : list token -> option (A * list token)) (ts : list token)
    : option (list A * list token) :=
  sep_list (length ts) p ts.

Definition opt_where (ts : list token) : option (option expr * list token) :=
  match expect_kw "WHERE" ts with
  | Some ts1 => (fun '(e, ts2) => (Some e, ts2)) <$> parse_expr ts1
  | None => Some (None, ts)
  end.

Definition opt_order (ts : list token) : option (option (string * bool) * list token) :=
  match expect_kw "ORDER" ts with
  | Some ts1 =>
      ts2 ← expect_kw "BY" ts1;
      '(c, ts3) ← parse_ident ts2;
      match expect_kw "DESC" ts3, expect_kw "ASC" ts3 with
      | Some ts4, _ => Some (Some (c, true), ts4)
      | None, Some ts4 => Some (Some (c, false), ts4)
      | None, None => Some (Some (c, false), ts3)
      end
  | None => Some (None, ts)
  end.

Definition opt_limit (ts : list token) : option (option (expr * option expr) * list token) :=
  match expect_kw "LIMIT" ts with
  | Some ts1 =>
      '(l, ts2) ← parse_expr ts1;
      match expect_kw "OFFSET" ts2 with
      | Some ts3 => '(o, ts4) ← parse_expr ts3; Some (Some (l, Some o), ts4)
      | None => Some (Some (l, None), ts2)
      end
  | None => Some (None, ts)
  end.

Definition parse_assign (ts : list token) : option ((string * expr) * list token) :=
  '(c, ts1) ← parse_ident ts;
  ts2 ← expect_sym "=" ts1;
  '(e, ts3) ← parse_expr ts2;
  Some ((c, e), ts3).

Definition parse_select (ts : list token) : option (stmt * list token) :=
  ts1 ← expect_kw "SELECT" ts;
  ts2 ← expect_sym "*" ts1;
  ts3 ← expect_kw "FROM" ts2;
  '(t, ts4) ← parse_ident ts3;
  '(w, ts5) ← opt_where ts4;
  '(o, ts6) ← opt_order ts5;
  '(l, ts7) ← opt_limit ts6;
  Some (SSelect t w o l, ts7).

Definition parse_insert (ts : list token) : option (stmt * list token) :=
  ts1 ← expect_kw "INSERT" ts;
  ts2 ← expect_kw "INTO" ts1;
  '(t, ts3) ← parse_ident ts2;
  ts4 ← expect_sym "(" ts3;
  '(cs, ts5) ← parse_list parse_ident ts4;
  ts6 ← expect_sym ")" ts5;
  ts7 ← expect_kw "VALUES" ts6;
  ts8 ← expect_sym "(" ts7;
  '(vs, ts9) ← parse_list parse_expr ts8;
  ts10 ← expect_sym ")" ts9;
  Some (SInsert t cs vs, ts10).

Definition parse_update (ts : list token) : option (stmt * list token) :=
  ts1 ← expect_kw "UPDATE" ts;
  '(t, ts2) ← parse_ident ts1;
  ts3 ← expect_kw "SET" ts2;
  '(sets, ts4) ← parse_list parse_assign ts3;
  '(w, ts5) ← opt_where ts4;
  Some (SUpdate t sets w, ts5).

Definition parse_delete (ts : list token) : option (stmt * list token) :=
  ts1 ← expect_kw "DELETE" ts;
  ts2 ← expect_kw "FROM" ts1;
  '(t, ts3) ← parse_ident ts2;
  '(w, ts4) ← opt_where ts3;
  Some (SDelete t w, ts4).

(** The first statement ends at the end of the text or at its [;]. *)
Definition stmt_end (ts : list token) : bool :=
  match ts with [] => true | TSym c :: _ => Ascii.eqb c ";" | _ => false end.

Definition parse_stmt (ts : list token) : option stmt :=
  '(s, rest) ←
    match ts with
    | t :: _ =>
        if is_kw "SELECT" t then parse_select ts
        else if is_kw "INSERT" t then parse_insert ts
        else if is_kw "UPDATE" t then parse_update ts
        else if is_kw "DELETE" t then parse_delete ts
        else None
    | [] => None
    end;
  if stmt_end rest then Some s else None.

(** [None] is a syntax error: SQLite rejects the statement. *)
Definition compile (sql : string) : option stmt := lex sql ≫= parse_stmt.

(** A value interpolated between quotes stays inside its SQL literal. *)
Definition sql_safe (v : jsval) : Prop := has_char chr_quote (js_to_string v) = false.

(** ** Lexing a text with a string literal inside *)

Lemma lex_run_app m out (s1 s2 : string) :
  lex_run m out (s1 +:+ s2) =
  match lex_run m out s1 with Some (m', out') => lex_run m' out' s2 | None => None end.
Proof.
  revert m out. induction s1 as [|c s1 IH]; intros m out; [done|].
  rewrite string_app_cons. simpl. destruct (lex_step m out c) as [[m' out']|]; [apply IH|done].
Qed.

(** Inside a literal, a quote-free text is read character by character. *)
Lemma lex_run_lit acc out (u : string) :
  has_char chr_quote u = false ->
  lex_run (LStr acc) out u = Some (LStr (rev (String.list_ascii_of_string u) ++ acc), out).
Proof.
  revert acc. induction u as [|c u IH]; intros acc Hu; [done|].
  apply has_char_cons_false in Hu as [Hc Hu]. simpl.
  rewrite (proj2 (Ascii.eqb_neq c chr_quote)) by congruence.
  rewrite IH by done. by rewrite <- app_assoc.
Qed.

Lemma word_of_lit (u : string) : word_of (rev (String.list_ascii_of_string u) ++ []) = u.
Proof.
  unfold word_of. rewrite app_nil_r, rev_involutive. apply String.string_of_list_ascii_of_string.
Qed.

Lemma lex_top_out out c :
  lex_top out c = (fun '(m', o) => (m', o ++ out)) <$> lex_top [] c.
Proof. unfold lex_top. by repeat case_match. Qed.

(** The lexer only ever pushes onto the tokens read so far. *)
Lemma lex_top_push t out c :
  lex_top (t :: out) c = (fun '(m', o) => (m', o ++ out)) <$> lex_top [t] c.
Proof.
  rewrite (lex_top_out (t :: out)), (lex_top_out [t]).
  destruct (lex_top [] c) as [[m o]|]; simpl; [by rewrite <- app_assoc|done].
Qed.

(** The lexer only ever pushes onto the tokens read so far. *)
Lemma lex_step_out m out c :
  lex_step m out c = (fun '(m', o) => (m', o ++ out)) <$> lex_step m [] c.
Proof.
  destruct m; cbn [lex_step]; [apply lex_top_out| | | | | |];
    repeat match goal with
    | |- context [if ?b then _ else _] => destruct b
    | |- context [match ?o with Some _ => _ | None => _ end] => destruct o
    end; first [done | apply lex_top_push].
Qed.

Lemma lex_run_out m out s :
  lex_run m out s = (fun '(m', o) => (m', o ++ out)) <$> lex_run m [] s.
Proof.
  revert m out. induction s as [|c s IH]; intros m out; [done|]. simpl.
  rewrite lex_step_out. destruct (lex_step m [] c) as [[m' o]|]; simpl; [|done].
  rewrite IH, (IH m' o). destruct (lex_run m' [] s) as [[]|]; simpl; [|done].
  by rewrite app_assoc.
Qed.

Lemma lex_run_nil m out : lex_run m out "" = Some (m, out).
Proof. done. Qed.

Lemma lex_finish_strq acc out :
  lex_finish (LStrQ acc) out = Some (rev (TStr (word_of acc) :: out)).
Proof. done. Qed.

Lemma lex_run_close acc out s :
  lex_run (LStr acc) out (String chr_quote s) = lex_run (LStrQ acc) out s.
Proof. done. Qed.

Lemma lex_run_strq_top acc out c s :
  Ascii.eqb c chr_quote = false ->
  lex_run (LStrQ acc) out (String c s) = lex_run LTop (TStr (word_of acc) :: out) (String c s).
Proof. intros Hc. simpl. by rewrite Hc. Qed.

Lemma lex_run_out_some m s m' o out :
  lex_run m [] s = Some (m', o) -> lex_run m out s = Some (m', o ++ out).
Proof. intros E. by rewrite lex_run_out, E. Qed.

(** ** Lexing a number the server interpolated *)

Lemma lex_top_digit out d :
  (d < 10)%N -> lex_top out (digit_char d) = Some (LNum (Z.of_N d), out).
Proof.
  intros Hd.
  assert (d = 0 \/ d = 1 \/ d = 2 \/ d = 3 \/ d = 4 \/ d = 5 \/ d = 6 \/ d = 7 \/ d = 8 \/ d = 9)%N
    as Hcases by lia.
  by repeat destruct Hcases as [->|Hcases]; try subst d.
Qed.

Lemma digit_val_char d : (d < 10)%N -> digit_val (digit_char d) = Some (Z.of_N d).
Proof.
  intros Hd. unfold digit_val, digit_char. rewrite N_ascii_embedding by lia.
  rewrite (proj2 (N.leb_le 48 (48 + d))), (proj2 (N.leb_le (48 + d) 57)) by lia.
  do 2 f_equal. lia.
Qed.

(** The digits of [n], read between tokens, leave the lexer in a number
    holding [n]. *)
Lemma lex_N_digits fuel n acc out :
  (n < 10 ^ N.of_nat (S fuel))%N ->
  lex_run LTop out (N_digits (S fuel) n acc) = lex_run (LNum (Z.of_N n)) out acc.
Proof.
  revert n acc. induction fuel as [|f IH]; intros n acc Hn.
  - cbn [N_digits]. replace (n <? 10)%N with true by (symmetry; apply N.ltb_lt; simpl in Hn; lia).
    cbn [lex_run lex_step]. rewrite lex_top_digit by (apply N.mod_lt; lia).
    by rewrite N.mod_small by (simpl in Hn; lia).
  - change (N_digits (S (S f)) n acc) with
      (if (n <? 10)%N then String (digit_char (n mod 10)) acc
       else N_digits (S f) (n / 10) (String (digit_char (n mod 10)) acc)).
    destruct (N.ltb_spec n 10) as [Hlt|Hge].
    + cbn [lex_run lex_step]. rewrite lex_top_digit by (apply N.mod_lt; lia).
      by rewrite N.mod_small by lia.
    + rewrite IH; [|rewrite Nat2N.inj_succ, N.pow_succ_r' in Hn;
                   apply N.Div0.div_lt_upper_bound; lia].
      cbn [lex_run lex_step]. rewrite digit_val_char by (apply N.mod_lt; lia).
      do 2 f_equal. rewrite (N.div_mod n 10) at 3 by lia. lia.
Qed.

Lemma lex_run_number z out :
  (0 <= z)%Z -> lex_run LTop out (js_number_to_string z) = Some (LNum z, out).
Proof.
  intros Hz. destruct z as [|p|p]; [done| |lia]. unfold js_number_to_string, N_to_string.
  pose proof (N_size_nat_bound (Npos p)) as Hb.
  destruct (N.size_nat (Npos p)) as [|f]; [simpl in Hb; lia|].
  replace (N_digits (S f) (Npos p) "") with (N_digits (S f) (Npos p) "" +:+ "")
    by apply string_app_nil_r.
  by rewrite lex_run_app, lex_N_digits.
Qed.

(** A number ends at the first character that is not a digit. *)
Lemma lex_run_num_end n out c s :
  digit_val c = None -> lex_run (LNum n) out (String c s) = lex_run LTop (TNum n :: out) (String c s).
Proof. intros Hc. simpl. by rewrite Hc. Qed.

(** ** A text with a fixed prefix *)

Lemma lex_finish_app m o' o :
  lex_finish m (o' ++ o) = (fun l => rev o ++ l) <$> lex_finish m o'.
Proof.
  destruct m; simpl; try done; by rewrite rev_app_distr, ?app_assoc.
Qed.

(** The tokens of [p +:+ s] are those of [p], then those of [s] read on
    from the mode [p] leaves the lexer in. *)
Lemma lex_prefix p s m o :
  lex_run LTop [] p = Some (m, o) ->
  lex (p +:+ s) = (fun l => rev o ++ l) <$> (lex_run m [] s ≫= fun '(m', o') => lex_finish m' o').
Proof.
  intros Hp. unfold lex. rewrite lex_run_app, Hp, lex_run_out.
  destruct (lex_run m [] s) as [[m' o']|]; simpl; [apply lex_finish_app|done].
Qed.

(** Computes the lexer on the constant pieces of a text and steps over
    the quote-free strings interpolated into its literals. *)
Ltac lex_pieces :=
  try unfold nl;
  repeat first
    [ rewrite lex_run_app
    | rewrite lex_run_lit by assumption
    | rewrite lex_run_close
    | rewrite lex_run_nil
    | rewrite lex_finish_strq
    | rewrite word_of_lit
    | rewrite lex_run_strq_top by reflexivity
    | rewrite lex_run_number by assumption
    | rewrite lex_run_num_end by reflexivity
    | match goal with
      | |- context [lex_run ?m ?o ?s] =>
          closed_term m; closed_term s;
          let v := eval vm_compute in (lex_run m [] s) in
          lazymatch v with
          | Some (?m', ?o') => rewrite (lex_run_out_some m s m' o' o) by reflexivity
          end
      end
    | progress cbv iota beta ].
