(* ===== verification/Db.v ===== *)
(** * The database: tables and the execution of a statement

    The server's single connection [db] (opened on [goodreads.db]) holds
    the tables [user] and [book]. A table is its column list, its
    [INTEGER PRIMARY KEY] column if it has one (an alias of the rowid, as
    [book_id] is: the handler of [POST /books/] returns [lastID] as the
    new [bookId]), its [UNIQUE] columns and its rows with their rowids.
    [exec] runs one parsed statement the way SQLite does: names are
    checked first, [WHERE] is three-valued, a new rowid is one more than
    the largest, a constraint violation rejects the statement.
    [db_get], [db_all] and [db_run] are the promise API of the [sqlite]
    package the handlers await; [db_run] makes [lastID] a JavaScript
    number as the driver does ([Js.js_number_of_int]).

    [db_wf] says every table is well formed ([table_wf]: each row has
    the table's columns, rowids are distinct, [UNIQUE] constraints hold);
    [exec_wf] shows every statement keeps it, whatever its text.

    Not modelled: column type affinity (a text never equals an integer),
    updating the rowid column, collations other than BINARY. *)

From S2P Require Import Prelude Js Sql.

Definition row : Type := list (string * sql_value).

Record table : Type := mk_table {
  tbl_cols : list string;
  tbl_key : option string;
  tbl_unique : list string;
  tbl_rows : list (Z * row);
}.

#[export] Instance table_eq_dec : EqDecision table.
Proof. solve_decision. Defined.

Record db : Type := mk_db {
  db_tables : list (string * table);
  db_last_rowid : Z;     (** [sqlite3_last_insert_rowid], read as [lastID] *)
}.

Inductive sql_error : Type :=
| ErrSyntax
| ErrNoTable (t : string)
| ErrNoColumn (c : string)
| ErrValueCount
| ErrConstraint (c : string)
| ErrMismatch
| ErrUnsupported.

(** What [db.run] resolves to: the statement object's [lastID] and [changes]. *)
Record run_info : Type := { last_id : Z; changes : nat }.

(** ** Names: SQLite compares them case-insensitively *)

Definition name_eqb (a b : string) : bool := String.eqb (string_upper a) (string_upper b).

Fixpoint row_lookup (r : row) (c : string) : option sql_value :=
  match r with
  | [] => None
  | (c', v) :: r' => if name_eqb c c' then Some v else row_lookup r' c
  end.

(** [row.col], NULL when absent. *)
Definition col_val (r : row) (c : string) : sql_value := default SNull (row_lookup r c).

Fixpoint find_table (ts : list (string * table)) (name : string) : option table :=
  match ts with
  | [] => None
  | (n, t) :: ts' => if name_eqb name n then Some t else find_table ts' name
  end.

Fixpoint set_table (ts : list (string * table)) (name : string) (t : table)
    : list (string * table) :=
  match ts with
  | [] => []
  | (n, t') :: ts' => if name_eqb name n then (n, t) :: ts' else (n, t') :: set_table ts' name t
  end.

Definition has_col (t : table) (c : string) : bool := existsb (name_eqb c) (tbl_cols t).

Fixpoint expr_cols (e : expr) : list string :=
  match e with
  | ELit _ => []
  | ECol c => [c]
  | ENeg e1 => expr_cols e1
  | EBin _ e1 e2 => expr_cols e1 ++ expr_cols e2
  end.

(** The first column name of [cs] the table lacks. *)
Definition missing_col (t : table) (cs : list string) : option string :=
  find (fun c => negb (has_col t c)) cs.

(** ** Values *)

(** The numeric prefix of a text, as SQLite's cast to NUMERIC reads it. *)
Fixpoint digits_prefix (s : string) (acc : Z) : Z :=
  match s with
  | String c s' => match digit_val c with Some d => digits_prefix s' (10 * acc + d) | None => acc end
  | EmptyString => acc
  end.

Fixpoint text_num (s : string) : Z :=
  match s with
  | String c s' =>
      if is_space c then text_num s'
      else if Ascii.eqb c "-" then - digits_prefix s' 0
      else if Ascii.eqb c "+" then digits_prefix s' 0
      else digits_prefix s 0
  | EmptyString => 0
  end.

(** Truth of a [WHERE] value: [None] is SQL's NULL. *)
Definition sql_truth (v : sql_value) : option bool :=
  match v with
  | SNull => None
  | SInt n => Some (negb (n =? 0)%Z)
  | SText s => Some (negb (text_num s =? 0)%Z)
  end.

Definition sql_text (v : sql_value) : string :=
  match v with SNull => "" | SInt n => js_number_to_string n | SText s => s end.

Definition of_bool (b : bool) : sql_value := SInt (if b then 1 else 0).

(** [LIKE]: [%] any run, [_] one character, ASCII letters case-insensitive. *)
Fixpoint like_match (p s : string) : bool :=
  match p with
  | EmptyString => match s with EmptyString => true | _ => false end
  | String c p' =>
      if Ascii.eqb c "%" then
        (fix any (s : string) : bool :=
           like_match p' s || match s with EmptyString => false | String _ s' => any s' end) s
      else match s with
           | EmptyString => false
           | String d s' =>
               (Ascii.eqb c "_" || Ascii.eqb (ascii_upper c) (ascii_upper d)) && like_match p' s'
           end
  end.

Definition eval_binop (op : binop) (a b : sql_value) : sql_value :=
  match op with
  | OpEq =>
      match a, b with
      | SNull, _ | _, SNull => SNull
      | _, _ => of_bool (bool_decide (a = b))
      end
  | OpAnd =>
      match sql_truth a, sql_truth b with
      | Some false, _ | _, Some false => of_bool false
      | Some true, Some true => of_bool true
      | _, _ => SNull
      end
  | OpOr =>
      match sql_truth a, sql_truth b with
      | Some true, _ | _, Some true => of_bool true
      | Some false, Some false => of_bool false
      | _, _ => SNull
      end
  | OpLike =>
      match a, b with
      | SNull, _ | _, SNull => SNull
      | _, _ => of_bool (like_match (sql_text b) (sql_text a))
      end
  end.

Fixpoint eval (r : row) (e : expr) : result sql_value sql_error :=
  match e with
  | ELit v => Ok v
  | ECol c => res_of_option (row_lookup r c) (ErrNoColumn c)
  | ENeg e1 =>
      let* v := eval r e1 in
      Ok (match v with SNull => SNull | SInt n => SInt (- n) | SText s => SInt (- text_num s) end)
  | EBin op e1 e2 =>
      let* a := eval r e1 in
      let* b := eval r e2 in
      Ok (eval_binop op a b)
  end.

(** Whether a row passes a [WHERE] clause. *)
Definition row_matches (w : option expr) (r : row) : result bool sql_error :=
  match w with
  | None => Ok true
  | Some e => let* v := eval r e in Ok (bool_decide (sql_truth v = Some true))
  end.

(** ** Executing a statement *)

Fixpoint filter_rows (w : option expr) (rs : list (Z * row)) : result (list (Z * row)) sql_error :=
  match rs with
  | [] => Ok []
  | (id, r) :: rs' =>
      let* b := row_matches w r in
      let* rest := filter_rows w rs' in
      Ok (if b then (id, r) :: rest else rest)
  end.

(** SQLite's order on values: NULL, then integers, then texts. *)
Definition sql_le (a b : sql_value) : bool :=
  match a, b with
  | SNull, _ => true
  | _, SNull => false
  | SInt x, SInt y => (x <=? y)%Z
  | SInt _, SText _ => true
  | SText _, SInt _ => false
  | SText x, SText y => String.leb x y
  end.

Fixpoint insert_by (le : row -> row -> bool) (r : row) (rs : list row) : list row :=
  match rs with
  | [] => [r]
  | r' :: rs' => if le r r' then r :: r' :: rs' else r' :: insert_by le r rs'
  end.

Definition sort_rows (c : string) (desc : bool) (rs : list row) : list row :=
  let key r := col_val r c in
  let le r r' := if desc then sql_le (key r') (key r) else sql_le (key r) (key r') in
  foldr (insert_by le) [] rs.

Definition int_of (e : expr) : result Z sql_error :=
  let* v := eval [] e in
  match v with SInt n => Ok n | _ => Err ErrMismatch end.

(** [LIMIT l OFFSET o]: a negative limit is no limit. *)
Definition apply_limit (l : option (expr * option expr)) (rs : list row) : result (list row) sql_error :=
  match l with
  | None => Ok rs
  | Some (le, oe) =>
      let* n := int_of le in
      let* o := match oe with Some e => int_of e | None => Ok 0%Z end in
      let rs' := drop (Z.to_nat o) rs in
      Ok (if (n <? 0)%Z then rs' else take (Z.to_nat n) rs')
  end.

Fixpoint eval_all (es : list expr) : result (list sql_value) sql_error :=
  match es with
  | [] => Ok []
  | e :: es' => let* v := eval [] e in let* vs := eval_all es' in Ok (v :: vs)
  end.

Definition next_rowid (t : table) : Z := (1 + foldr Z.max 0 (map fst (tbl_rows t)))%Z.

Fixpoint insert_rowid (x : Z * row) (rs : list (Z * row)) : list (Z * row) :=
  match rs with
  | [] => [x]
  | y :: rs' => if (fst x <? fst y)%Z then x :: y :: rs' else y :: insert_rowid x rs'
  end.

(** The first [UNIQUE] column on which two rows share a non-NULL value. *)
Definition unique_violation (t : table) (rs : list (Z * row)) : option string :=
  find (fun c =>
          let vs := filter (fun v => v <> SNull) (map (fun x => col_val x.2 c) rs) in
          negb (bool_decide (NoDup vs)))
       (tbl_unique t).

Definition with_rows (t : table) (rs : list (Z * row)) : table :=
  mk_table (tbl_cols t) (tbl_key t) (tbl_unique t) rs.

Definition is_key (t : table) (c : string) : bool :=
  match tbl_key t with Some k => name_eqb k c | None => false end.

(** The rowid of a new row: the key value given, or one more than the largest. *)
Definition new_rowid (t : table) (given : row) : result Z sql_error :=
  match tbl_key t with
  | Some k =>
      match row_lookup given k with
      | Some (SInt n) =>
          if bool_decide (n ∈ map fst (tbl_rows t)) then Err (ErrConstraint k) else Ok n
      | Some (SText _) => Err ErrMismatch
      | _ => Ok (next_rowid t)
      end
  | None => Ok (next_rowid t)
  end.

Definition insert_row (t : table) (cs : list string) (vs : list expr)
    : result (table * Z) sql_error :=
  if negb (length cs =? length vs)%nat then Err ErrValueCount else
  match missing_col t cs with
  | Some c => Err (ErrNoColumn c)
  | None =>
      let* vals := eval_all vs in
      let given := zip cs vals in
      let* rid := new_rowid t given in
      let r := map (fun c => (c, if is_key t c then SInt rid else col_val given c)) (tbl_cols t) in
      let rows := insert_rowid (rid, r) (tbl_rows t) in
      match unique_violation t rows with
      | Some c => Err (ErrConstraint c)
      | None => Ok (mk_table (tbl_cols t) (tbl_key t) (tbl_unique t) rows, rid)
      end
  end.

Definition set_col (c : string) (v : sql_value) (r : row) : row :=
  map (fun '(c', v') => if name_eqb c c' then (c', v) else (c', v')) r.

(** The new values are computed from the old row, then stored. *)
Definition apply_sets (sets : list (string * expr)) (r : row) : result row sql_error :=
  let* vs := foldr (fun '(c, e) acc => let* v := eval r e in let* l := acc in Ok ((c, v) :: l))
                   (Ok []) sets in
  Ok (foldr (fun '(c, v) r' => set_col c v r') r vs).

Fixpoint update_rows (sets : list (string * expr)) (w : option expr) (rs : list (Z * row))
    : result (list (Z * row) * nat) sql_error :=
  match rs with
  | [] => Ok ([], 0%nat)
  | (id, r) :: rs' =>
      let* b := row_matches w r in
      let* r' := if b then apply_sets sets r else Ok r in
      let* res := update_rows sets w rs' in
      Ok ((id, r') :: fst res, if b then S (snd res) else snd res)
  end.

Fixpoint delete_rows (w : option expr) (rs : list (Z * row))
    : result (list (Z * row) * nat) sql_error :=
  match rs with
  | [] => Ok ([], 0%nat)
  | (id, r) :: rs' =>
      let* b := row_matches w r in
      let* res := delete_rows w rs' in
      Ok (if b then (fst res, S (snd res)) else ((id, r) :: fst res, snd res))
  end.

Definition check_cols (t : table) (cs : list string) : result unit sql_error :=
  match missing_col t cs with Some c => Err (ErrNoColumn c) | None => Ok tt end.

Definition where_cols (w : option expr) : list string :=
  match w with Some e => expr_cols e | None => [] end.

(** One statement on the database: the new database, the rows it
    selects, and the statement's [lastID] and [changes]. *)
Definition exec (d : db) (s : stmt) : result (db * list row * run_info) sql_error :=
  let tables := db_tables d in
  let info0 := {| last_id := db_last_rowid d; changes := 0 |} in
  match s with
  | SSelect tn w o l =>
      let* t := res_of_option (find_table tables tn) (ErrNoTable tn) in
      let* _ := check_cols t (where_cols w ++ from_option (fun '(c, _) => [c]) [] o) in
      let* rs := filter_rows w (tbl_rows t) in
      let rows := map snd rs in
      let rows := match o with Some (c, desc) => sort_rows c desc rows | None => rows end in
      let* rows := apply_limit l rows in
      Ok (d, rows, info0)
  | SInsert tn cs vs =>
      let* t := res_of_option (find_table tables tn) (ErrNoTable tn) in
      let* res := insert_row t cs vs in
      Ok (mk_db (set_table tables tn (fst res)) (snd res), [],
          {| last_id := snd res; changes := 1 |})
  | SUpdate tn sets w =>
      let* t := res_of_option (find_table tables tn) (ErrNoTable tn) in
      let* _ := check_cols t (map fst sets ++ where_cols w ++ concat (map (fun '(_, e) => expr_cols e) sets)) in
      if existsb (fun '(c, _) => is_key t c) sets then Err ErrUnsupported else
      let* res := update_rows sets w (tbl_rows t) in
      match unique_violation t (fst res) with
      | Some c => Err (ErrConstraint c)
      | None =>
          Ok (mk_db (set_table tables tn (with_rows t (fst res))) (db_last_rowid d), [],
              {| last_id := db_last_rowid d; changes := snd res |})
      end
  | SDelete tn w =>
      let* t := res_of_option (find_table tables tn) (ErrNoTable tn) in
      let* _ := check_cols t (where_cols w) in
      let* res := delete_rows w (tbl_rows t) in
      Ok (mk_db (set_table tables tn (with_rows t (fst res))) (db_last_rowid d), [],
          {| last_id := db_last_rowid d; changes := snd res |})
  end.

(** ** The promise API the handlers await *)

(** The text is compiled then run; a syntax error rejects the promise. *)
Definition db_exec (d : db) (sql : string) : result (db * list row * run_info) sql_error :=
  match compile sql with
  | None => Err ErrSyntax
  | Some s => exec d s
  end.

(** [await db.get(sql)]: the first row, [undefined] when there is none. *)
Definition db_get (d : db) (sql : string) : result (db * option row) sql_error :=
  match db_exec d sql with
  | Ok (d', rows, _) => Ok (d', head rows)
  | Err e => Err e
  end.

(** [await db.all(sql)]: all the rows. *)
Definition db_all (d : db) (sql : string) : result (db * list row) sql_error :=
  match db_exec d sql with
  | Ok (d', rows, _) => Ok (d', rows)
  | Err e => Err e
  end.

(** [await db.run(sql)]: the statement's [lastID] and [changes]; the
    driver makes the 64-bit rowid a JavaScript number. *)
Definition db_run (d : db) (sql : string) : result (db * run_info) sql_error :=
  match db_exec d sql with
  | Ok (d', _, info) => Ok (d', {| last_id := js_number_of_int (last_id info); changes := changes info |})
  | Err e => Err e
  end.

(** The row an [INSERT] builds: each column gets its value, NULL when not given. *)
Definition insert_values (t : table) (cs : list string) (vs : list sql_value) : row :=
  map (fun c => (c, col_val (zip cs vs) c)) (tbl_cols t).

(** The row an [INSERT] builds in a table with a rowid column: the key
    column holds the rowid, the others their value or NULL. *)
Definition key_values (t : table) (rid : Z) (cs : list string) (vs : list sql_value) : row :=
  map (fun c => (c, if is_key t c then SInt rid else col_val (zip cs vs) c)) (tbl_cols t).

(** ** What the server's statements do *)

(** A table as SQLite keeps it: every row has the table's columns, the
    rowids are distinct, the [UNIQUE] constraints hold. *)
Definition table_wf (t : table) : Prop :=
  Forall (fun x => map fst x.2 = tbl_cols t) (tbl_rows t) /\
  NoDup (map fst (tbl_rows t)) /\
  unique_violation t (tbl_rows t) = None.

(** Every table of the database is well formed. *)
Definition db_wf (d : db) : Prop := Forall (fun nt => table_wf nt.2) (db_tables d).

(** [table_wf] as a test, for concrete tables. *)
Definition table_wfb (t : table) : bool :=
  forallb (fun x => bool_decide (map fst x.2 = tbl_cols t)) (tbl_rows t) &&
  bool_decide (NoDup (map fst (tbl_rows t))) &&
  bool_decide (unique_violation t (tbl_rows t) = None).

Definition db_wfb (d : db) : bool := forallb (fun nt => table_wfb nt.2) (db_tables d).

Lemma name_eqb_trans a b c : name_eqb a b = true -> name_eqb c a = name_eqb c b.
Proof. unfold name_eqb. by intros ->%String.eqb_eq. Qed.

Lemma find_set_table_eq ts n t t' :
  find_table ts n = Some t -> find_table (set_table ts n t') n = Some t'.
Proof.
  induction ts as [|[k u] ts IH]; simpl; [done|].
  destruct (name_eqb n k) eqn:E; simpl; rewrite ?E; [done|]. apply IH.
Qed.

Lemma find_set_table_ne ts n m t' :
  name_eqb m n = false -> find_table (set_table ts n t') m = find_table ts m.
Proof.
  intros Hmn. induction ts as [|[k u] ts IH]; simpl; [done|].
  destruct (name_eqb n k) eqn:E; simpl.
  - by rewrite <- (name_eqb_trans n k m E), Hmn.
  - by rewrite IH.
Qed.

Lemma row_lookup_has r c cols :
  map fst r = cols -> existsb (name_eqb c) cols = true -> is_Some (row_lookup r c).
Proof.
  intros <-. induction r as [|[c' v] r IH]; simpl; [done|].
  destruct (name_eqb c c'); simpl; [eauto|auto].
Qed.

Lemma rows_have_col t c :
  table_wf t -> has_col t c = true -> Forall (fun x => is_Some (row_lookup x.2 c)) (tbl_rows t).
Proof.
  intros [Hrows _] Hc. eapply Forall_impl; [exact Hrows|]. intros x Hx.
  eapply row_lookup_has; [exact Hx|exact Hc].
Qed.

(** [WHERE c = v]: the rows whose column [c] holds [v]. *)
Lemma row_matches_eq r c v x :
  v <> SNull -> row_lookup r c = Some x ->
  row_matches (Some (EBin OpEq (ECol c) (ELit v))) r = Ok (bool_decide (x = v)).
Proof.
  intros Hv Hx. simpl. rewrite Hx. simpl. f_equal.
  destruct x as [|n|s], v as [|m|s']; try congruence; simpl;
    repeat case_bool_decide; simplify_eq/=; done.
Qed.

Lemma filter_rows_eq c v rs :
  v <> SNull -> Forall (fun x => is_Some (row_lookup x.2 c)) rs ->
  filter_rows (Some (EBin OpEq (ECol c) (ELit v))) rs
  = Ok (filter (fun x => row_lookup x.2 c = Some v) rs).
Proof.
  induction rs as [|[id r] rs IH]; intros Hv Hall; [done|].
  apply Forall_cons in Hall as [[x Hx] Hrs]. simpl in Hx. cbn [filter_rows].
  rewrite (row_matches_eq r c v x), IH by done. cbn [res_bind].
  rewrite filter_cons. simpl. rewrite Hx. by repeat case_bool_decide; case_decide; simplify_eq.
Qed.

Lemma exec_select_eq d tn t c v :
  find_table (db_tables d) tn = Some t -> table_wf t -> has_col t c = true -> v <> SNull ->
  exec d (SSelect tn (Some (EBin OpEq (ECol c) (ELit v))) None None) =
  Ok (d, map snd (filter (fun x => row_lookup x.2 c = Some v) (tbl_rows t)),
      {| last_id := db_last_rowid d; changes := 0 |}).
Proof.
  intros Ht Hwf Hc Hv. unfold exec. rewrite Ht. simpl.
  unfold check_cols, missing_col. simpl. rewrite Hc. simpl.
  by rewrite filter_rows_eq by auto using rows_have_col.
Qed.

(** [INSERT] of literal values into a table without a rowid column. *)
Lemma eval_all_lits vs : eval_all (map ELit vs) = Ok vs.
Proof. induction vs as [|v vs IH]; simpl; [done|]. by rewrite IH. Qed.

Lemma foldr_max_ge (l : list Z) y : y ∈ l -> (y <= foldr Z.max 0 l)%Z.
Proof.
  induction l as [|z l IH]; simpl; [by intros ?%elem_of_nil|].
  intros [->|Hy]%elem_of_cons; [lia|]. specialize (IH Hy). lia.
Qed.

Lemma next_rowid_fresh t : Forall (fun x => (x.1 < next_rowid t)%Z) (tbl_rows t).
Proof.
  unfold next_rowid. apply Forall_forall. intros x Hx.
  assert (x.1 ∈ map fst (tbl_rows t)) as Hin%foldr_max_ge
    by (apply list_elem_of_In, in_map, list_elem_of_In, Hx). lia.
Qed.

Lemma insert_rowid_last x rs : Forall (fun y => (y.1 < x.1)%Z) rs -> insert_rowid x rs = rs ++ [x].
Proof.
  induction rs as [|y rs IH]; intros Hall; [done|].
  apply Forall_cons in Hall as [Hy Hrs]. simpl.
  destruct (Z.ltb_spec x.1 y.1); [lia|]. by rewrite IH.
Qed.

Lemma exec_insert_lits d tn t cs vs :
  find_table (db_tables d) tn = Some t -> tbl_key t = None -> length cs = length vs ->
  missing_col t cs = None ->
  unique_violation t (tbl_rows t ++ [(next_rowid t, insert_values t cs vs)]) = None ->
  exec d (SInsert tn cs (map ELit vs)) =
  Ok (mk_db (set_table (db_tables d) tn
               (with_rows t (tbl_rows t ++ [(next_rowid t, insert_values t cs vs)])))
            (next_rowid t), [],
      {| last_id := next_rowid t; changes := 1 |}).
Proof.
  intros Ht Hkey Hlen Hmiss Huniq. unfold exec. rewrite Ht. simpl.
  unfold insert_row. rewrite length_map, Hlen, Nat.eqb_refl, Hmiss. simpl.
  rewrite eval_all_lits. simpl. unfold new_rowid. rewrite Hkey. simpl.
  unfold is_key. rewrite Hkey.
  rewrite insert_rowid_last by apply next_rowid_fresh.
  match goal with |- context [unique_violation ?t ?l] =>
    replace (unique_violation t l) with (@None string) by (symmetry; exact Huniq) end.
  simpl. unfold with_rows. by rewrite Hkey.
Qed.

Lemma table_wfb_sound t : table_wfb t = true -> table_wf t.
Proof.
  unfold table_wfb. intros [[Hrows Hids]%andb_prop Huniq]%andb_prop.
  split_and!; [|by apply bool_decide_eq_true in Hids|by apply bool_decide_eq_true in Huniq].
  apply Forall_forall. intros x Hx. apply (bool_decide_eq_true (map fst x.2 = tbl_cols t)).
  apply (proj1 (forallb_forall _ _) Hrows x). by apply list_elem_of_In.
Qed.

(** A new row keeps the [UNIQUE] constraints when its value in each
    constrained column is NULL or new. *)
Lemma unique_violation_snoc t rs x :
  unique_violation t rs = None ->
  Forall (fun c => col_val x.2 c = SNull \/ col_val x.2 c ∉ map (fun y => col_val y.2 c) rs)
         (tbl_unique t) ->
  unique_violation t (rs ++ [x]) = None.
Proof.
  unfold unique_violation. rewrite !find_none_iff. intros H1 H2.
  pose proof (proj2 (Forall_and _ _) (conj H1 H2)) as H12.
  eapply Forall_impl; [exact H12|]. intros c [Hc1 Hc2]. simpl in Hc1 |- *.
  apply negb_false_iff in Hc1. apply negb_false_iff.
  rewrite bool_decide_eq_true in Hc1 |- *.
  rewrite map_app, filter_app. apply NoDup_app. split_and!; [done| |].
  - intros v Hv (Hnn & ->%list_elem_of_singleton)%list_elem_of_filter.
    apply list_elem_of_filter in Hv as [_ Hv]. destruct Hc2 as [Hc2|Hc2]; [done|].
    by apply Hc2, list_elem_of_In, in_map_iff; apply list_elem_of_In, in_map_iff in Hv.
  - apply NoDup_filter, NoDup_singleton.
Qed.

Lemma insert_values_cols t cs vs : map fst (insert_values t cs vs) = tbl_cols t.
Proof. unfold insert_values. rewrite map_map. apply map_id. Qed.

(** A row appended under a fresh rowid keeps the table well formed. *)
Lemma table_wf_snoc t r :
  table_wf t -> map fst r = tbl_cols t ->
  unique_violation t (tbl_rows t ++ [(next_rowid t, r)]) = None ->
  table_wf (with_rows t (tbl_rows t ++ [(next_rowid t, r)])).
Proof.
  intros (Hrows & Hids & _) Hr Huniq. split_and!; simpl.
  - apply Forall_app. split; [done|]. by repeat constructor.
  - rewrite map_app. apply NoDup_app. split_and!; [done| |apply NoDup_singleton].
    intros i Hi ->%list_elem_of_singleton.
    apply list_elem_of_fmap_1 in Hi as [x [Hx Hin]].
    pose proof (proj1 (Forall_forall _ _) (next_rowid_fresh t) x Hin). simpl in *. lia.
  - done.
Qed.

(** [DELETE ... WHERE c = v]: the rows whose column [c] holds [v] go. *)
Lemma delete_rows_eq c v rs :
  v <> SNull -> Forall (fun x => is_Some (row_lookup x.2 c)) rs ->
  delete_rows (Some (EBin OpEq (ECol c) (ELit v))) rs
  = Ok (filter (fun x => row_lookup x.2 c <> Some v) rs,
        length (filter (fun x => row_lookup x.2 c = Some v) rs)).
Proof.
  induction rs as [|[id r] rs IH]; intros Hv Hall; [done|].
  apply Forall_cons in Hall as [[x Hx] Hrs]. simpl in Hx. cbn [delete_rows].
  rewrite (row_matches_eq r c v x), IH by done. cbn [res_bind].
  rewrite !filter_cons. simpl. rewrite Hx.
  by repeat case_bool_decide; repeat case_decide; simplify_eq.
Qed.

(** A [WHERE] clause every row satisfies deletes every row. *)
Lemma delete_rows_all w rs :
  Forall (fun x => row_matches w x.2 = Ok true) rs -> delete_rows w rs = Ok ([], length rs).
Proof.
  induction rs as [|[id r] rs IH]; intros Hall; [done|].
  apply Forall_cons in Hall as [Hr Hrs]. cbn [delete_rows]. simpl in Hr.
  by rewrite Hr, IH.
Qed.

(** [e OR e'] holds on a row where [e] evaluates and [e'] is true. *)
Lemma row_matches_or_true r e e' v v' :
  eval r e = Ok v -> eval r e' = Ok v' -> sql_truth v' = Some true ->
  row_matches (Some (EBin OpOr e e')) r = Ok true.
Proof.
  intros He He' Ht. simpl. rewrite He, He'. simpl. rewrite Ht.
  by destruct (sql_truth v) as [[]|].
Qed.

Lemma exec_delete d tn t w res :
  find_table (db_tables d) tn = Some t -> delete_rows w (tbl_rows t) = Ok res ->
  missing_col t (where_cols w) = None ->
  exec d (SDelete tn w) =
  Ok (mk_db (set_table (db_tables d) tn (with_rows t res.1)) (db_last_rowid d), [],
      {| last_id := db_last_rowid d; changes := res.2 |}).
Proof.
  intros Ht Hdel Hmiss. unfold exec. rewrite Ht. simpl.
  unfold check_cols. rewrite Hmiss. simpl. by rewrite Hdel.
Qed.

Lemma filter_rows_none rs : filter_rows None rs = Ok rs.
Proof. induction rs as [|[id r] rs IH]; [done|]. simpl. by rewrite IH. Qed.

(** [INSERT] of literal values into a table whose rowid column is not
    given: the row gets the next rowid, also as its key column. *)
Lemma exec_insert_key_lits d tn t k cs vs :
  find_table (db_tables d) tn = Some t -> tbl_key t = Some k -> length cs = length vs ->
  missing_col t cs = None -> row_lookup (zip cs vs) k = None ->
  unique_violation t (tbl_rows t ++ [(next_rowid t, key_values t (next_rowid t) cs vs)]) = None ->
  exec d (SInsert tn cs (map ELit vs)) =
  Ok (mk_db (set_table (db_tables d) tn
               (with_rows t (tbl_rows t ++ [(next_rowid t, key_values t (next_rowid t) cs vs)])))
            (next_rowid t), [],
      {| last_id := next_rowid t; changes := 1 |}).
Proof.
  intros Ht Hkey Hlen Hmiss Hk Huniq. unfold exec. rewrite Ht. simpl.
  unfold insert_row. rewrite length_map, Hlen, Nat.eqb_refl, Hmiss. simpl.
  rewrite eval_all_lits. simpl. unfold new_rowid. rewrite Hkey, Hk. simpl.
  rewrite insert_rowid_last by apply next_rowid_fresh.
  unfold key_values in Huniq.
  match goal with |- context [unique_violation ?t ?l] =>
    replace (unique_violation t l) with (@None string) by (symmetry; exact Huniq) end.
  simpl. unfold with_rows, key_values. by rewrite Hkey.
Qed.

(** A [WHERE] clause every row satisfies selects every row. *)
Lemma filter_rows_all w rs :
  Forall (fun x => row_matches w x.2 = Ok true) rs -> filter_rows w rs = Ok rs.
Proof.
  induction rs as [|[id r] rs IH]; intros Hall; [done|].
  apply Forall_cons in Hall as [Hr Hrs]. cbn [filter_rows]. simpl in Hr.
  by rewrite Hr, IH.
Qed.

(** ** Every statement keeps every table well formed *)

Lemma set_table_wf ts n t :
  Forall (fun nt => table_wf nt.2) ts -> table_wf t -> Forall (fun nt => table_wf nt.2) (set_table ts n t).
Proof.
  intros Hts Ht. induction Hts as [|[k u] ts Hu Hts IH]; simpl; [done|].
  destruct (name_eqb n k); by constructor.
Qed.

Lemma find_table_wf ts n t :
  Forall (fun nt => table_wf nt.2) ts -> find_table ts n = Some t -> table_wf t.
Proof.
  induction 1 as [|[k u] ts Hu Hts IH]; simpl; [done|].
  destruct (name_eqb n k); [by intros [= <-]|done].
Qed.

Lemma insert_rowid_perm x rs : insert_rowid x rs ≡ₚ x :: rs.
Proof.
  induction rs as [|y rs IH]; simpl; [done|].
  destruct (x.1 <? y.1)%Z; [done|]. rewrite IH. constructor.
Qed.

Lemma new_rowid_fresh t given rid :
  new_rowid t given = Ok rid -> rid ∉ map fst (tbl_rows t).
Proof.
  assert (Hnext : next_rowid t ∉ map fst (tbl_rows t)).
  { intros (x & Hx & Hin)%list_elem_of_fmap_1.
    pose proof (proj1 (Forall_forall _ _) (next_rowid_fresh t) x Hin). simpl in *. lia. }
  unfold new_rowid. destruct (tbl_key t) as [k|]; [|by intros [= <-]].
  destruct (row_lookup given k) as [[|n|s]|]; try by intros [= <-].
  case_bool_decide; by intros [= <-].
Qed.

Lemma map_sublist {A B} (f : A -> B) l1 l2 : sublist l1 l2 -> sublist (map f l1) (map f l2).
Proof. induction 1; simpl; by constructor. Qed.

Lemma filter_sublist {A} (P : A -> Prop) `{!forall x, Decision (P x)} l1 l2 :
  sublist l1 l2 -> sublist (filter P l1) (filter P l2).
Proof.
  induction 1 as [|x l1 l2 _ IH|x l1 l2 _ IH]; [done| |].
  - rewrite !filter_cons. case_decide; [by constructor|done].
  - rewrite filter_cons. case_decide; [by constructor|done].
Qed.

(** Fewer rows cannot break a [UNIQUE] constraint. *)
Lemma unique_violation_sublist t rs rs' :
  unique_violation t rs = None -> sublist rs' rs -> unique_violation t rs' = None.
Proof.
  unfold unique_violation. rewrite !find_none_iff. intros Hall Hsub.
  eapply Forall_impl; [exact Hall|]. intros c Hc. simpl in *.
  apply negb_false_iff in Hc. apply negb_false_iff.
  apply bool_decide_eq_true in Hc. apply bool_decide_eq_true.
  eapply sublist_NoDup; [exact Hc|]. by apply filter_sublist, map_sublist.
Qed.

Lemma table_wf_sublist t rs :
  table_wf t -> sublist rs (tbl_rows t) -> table_wf (with_rows t rs).
Proof.
  intros (Hcols & Hids & Huniq) Hsub. split_and!; simpl.
  - apply Forall_forall. intros x Hx. apply (proj1 (Forall_forall _ _) Hcols).
    by eapply elem_of_sublist.
  - eapply sublist_NoDup; [exact Hids|]. by apply map_sublist.
  - by eapply unique_violation_sublist.
Qed.

Lemma delete_rows_sublist w rs res : delete_rows w rs = Ok res -> sublist res.1 rs.
Proof.
  revert res. induction rs as [|[id r] rs IH]; intros res; simpl; [by intros [= <-]|].
  destruct (row_matches w r) as [b|]; simpl; [|done].
  destruct (delete_rows w rs) as [res'|]; simpl; [|done].
  specialize (IH res' eq_refl). destruct b; intros [= <-]; simpl; by constructor.
Qed.

Lemma insert_row_wf t cs vs t' rid :
  table_wf t -> insert_row t cs vs = Ok (t', rid) ->
  table_wf t' /\ tbl_cols t' = tbl_cols t /\ tbl_key t' = tbl_key t /\ tbl_unique t' = tbl_unique t.
Proof.
  intros (Hcols & Hids & _). unfold insert_row.
  destruct (negb _); [done|]. destruct (missing_col t cs); [done|]. simpl.
  destruct (eval_all vs) as [vals|]; simpl; [|done].
  destruct (new_rowid t (zip cs vals)) as [r|] eqn:Hrid; simpl; [|done].
  apply new_rowid_fresh in Hrid.
  match goal with |- context [unique_violation t ?rows] => destruct (unique_violation t rows) eqn:Hu end;
    [done|]. intros [= <- <-]. split_and!; [|done..]. split_and!; [| |exact Hu].
  - apply Forall_forall. intros x Hx.
    simpl in Hx. rewrite insert_rowid_perm in Hx. apply elem_of_cons in Hx as [->|Hx].
    + simpl. rewrite map_map. apply map_id.
    + by apply (proj1 (Forall_forall _ _) Hcols).
  - simpl. rewrite insert_rowid_perm. simpl. by constructor.
Qed.

Lemma set_col_fst c v r : map fst (set_col c v r) = map fst r.
Proof. induction r as [|[c' v'] r IH]; simpl; [done|]. by destruct (name_eqb c c'); rewrite IH. Qed.

Lemma foldr_set_col_fst (vs : list (string * sql_value)) r :
  map fst (foldr (fun '(c, v) r' => set_col c v r') r vs) = map fst r.
Proof. induction vs as [|[c v] vs IH]; simpl; [done|]. by rewrite set_col_fst. Qed.

Lemma apply_sets_fst sets r r' : apply_sets sets r = Ok r' -> map fst r' = map fst r.
Proof. unfold apply_sets. intros H. res_inv H. simplify_eq. apply foldr_set_col_fst. Qed.

(** [UPDATE] keeps the rowids and the columns of every row. *)
Lemma update_rows_shape sets w rs res cols :
  update_rows sets w rs = Ok res -> Forall (fun x => map fst x.2 = cols) rs ->
  map fst res.1 = map fst rs /\ Forall (fun x => map fst x.2 = cols) res.1.
Proof.
  revert res. induction rs as [|[id r] rs IH]; intros res H Hall; simpl in H; [by simplify_eq|].
  apply Forall_cons in Hall as [Hr Hrs]. res_inv H; simplify_eq/=;
    destruct (IH _ ltac:(eassumption) Hrs) as [-> Hall']; (split; [done|constructor; [|done]]);
    simpl; [|done]. by erewrite apply_sets_fst by eassumption.
Qed.

Lemma exec_wf d s d' rows info : db_wf d -> exec d s = Ok (d', rows, info) -> db_wf d'.
Proof.
  unfold db_wf, exec. intros Hwf H. destruct s; res_inv H; simplify_eq/=; try done;
    unfold res_of_option in *; case_match; simplify_eq/=;
    apply set_table_wf; try done; pose proof (find_table_wf _ _ _ Hwf ltac:(eassumption)) as Ht.
  - match goal with Hi : insert_row _ _ _ = Ok ?p |- _ =>
      destruct p; by destruct (insert_row_wf _ _ _ _ _ Ht Hi) end.
  - destruct Ht as (Hcols & Hids & _).
    destruct (update_rows_shape _ _ _ _ _ ltac:(eassumption) Hcols) as [Hfst Hall].
    split_and!; simpl; [done|by rewrite Hfst|done].
  - apply table_wf_sublist; [done|]. by eapply delete_rows_sublist.
Qed.

(** The promise API keeps every table well formed. *)
Lemma db_exec_wf d sql d' rows info : db_wf d -> db_exec d sql = Ok (d', rows, info) -> db_wf d'.
Proof. unfold db_exec. destruct (compile sql); [apply exec_wf|done]. Qed.

Lemma db_get_wf d sql d' r : db_wf d -> db_get d sql = Ok (d', r) -> db_wf d'.
Proof.
  unfold db_get. destruct (db_exec d sql) as [[[d1 rows] info]|] eqn:E; [|done].
  intros Hwf [= <- _]. by eapply db_exec_wf.
Qed.

Lemma db_all_wf d sql d' rs : db_wf d -> db_all d sql = Ok (d', rs) -> db_wf d'.
Proof.
  unfold db_all. destruct (db_exec d sql) as [[[d1 rows] info]|] eqn:E; [|done].
  intros Hwf [= <- _]. by eapply db_exec_wf.
Qed.

Lemma db_run_wf d sql d' i : db_wf d -> db_run d sql = Ok (d', i) -> db_wf d'.
Proof.
  unfold db_run. destruct (db_exec d sql) as [[[d1 rows] info]|] eqn:E; [|done].
  intros Hwf [= <- _]. by eapply db_exec_wf.
Qed.

Lemma db_wfb_sound d : db_wfb d = true -> db_wf d.
Proof.
  unfold db_wfb, db_wf. intros H. apply Forall_forall. intros x Hx.
  apply table_wfb_sound, (proj1 (forallb_forall _ _) H). by apply list_elem_of_In.
Qed.

(** An [INSERT] whose new row breaks a [UNIQUE] constraint is rejected. *)
Lemma exec_insert_lits_violation d tn t cs vs c :
  find_table (db_tables d) tn = Some t -> tbl_key t = None -> length cs = length vs ->
  missing_col t cs = None ->
  unique_violation t (tbl_rows t ++ [(next_rowid t, insert_values t cs vs)]) = Some c ->
  exec d (SInsert tn cs (map ELit vs)) = Err (ErrConstraint c).
Proof.
  intros Ht Hkey Hlen Hmiss Huniq. unfold exec. rewrite Ht. simpl.
  unfold insert_row. rewrite length_map, Hlen, Nat.eqb_refl, Hmiss. simpl.
  rewrite eval_all_lits. simpl. unfold new_rowid. rewrite Hkey. simpl.
  unfold is_key. rewrite Hkey.
  rewrite insert_rowid_last by apply next_rowid_fresh.
  match goal with |- context [unique_violation ?t ?l] =>
    replace (unique_violation t l) with (Some c) by (symmetry; exact Huniq) end.
  done.
Qed.

(** Two rows sharing a non-NULL value in the first [UNIQUE] column violate it. *)
Lemma unique_violation_dup t c cs rs x y v :
  tbl_unique t = c :: cs -> y ∈ rs -> col_val y.2 c = v -> col_val x.2 c = v -> v <> SNull ->
  unique_violation t (rs ++ [x]) = Some c.
Proof.
  intros Hu Hy Hyv Hxv Hv. unfold unique_violation. rewrite Hu. simpl.
  rewrite bool_decide_eq_false_2; [done|].
  rewrite map_app, filter_app. intros (_ & Hdis & _)%NoDup_app.
  apply (Hdis v); apply list_elem_of_filter; split; try done.
  - apply list_elem_of_In, in_map_iff. exists y. split; [done|]. by apply list_elem_of_In.
  - simpl. by apply list_elem_of_singleton.
Qed.
