(* ===== verification/Http.v ===== *)
(** * Requests, responses and the await points of a handler

    A route handler of the server is an [async] function: it runs until
    it awaits the database ([db.get], [db.all], [db.run]) or bcrypt
    ([bcrypt.hash], [bcrypt.compare]), resumes with the result, and ends
    by calling [response.send]. [prog] is that shape: a tree whose nodes
    are the awaited calls and whose leaves are the responses sent. [step]
    resumes a handler for one await; [run] executes it from start to end
    on the world: the database, the random salts bcrypt draws, and the
    clock [jwt.sign] reads. [run] is structural on the tree, so every
    handler ends. A rejected promise that the handler does not catch ends
    the handler with [Rejected]: no handler has a [try]/[catch], so every
    failure of an awaited call ends the request that way. [run_steps] is
    the event loop resuming a handler at most [fuel] times;
    [prog_bound n p] says that [p] ends within [n] resumptions, and then
    [run_steps] agrees with [run] ([run_steps_run]). [step_wf] and
    [run_wf]: a handler changes the tables only through statements, so it
    keeps them well formed. *)

From S2P Require Import Prelude Js Crypto Sql Db.

(** ** Requests and responses *)

Record request : Type := mk_request {
  req_method : string;                     (** "GET", "POST", "PUT", "DELETE" *)
  req_path : string;                       (** the path, without the query string *)
  req_headers : list (string * string);    (** names in lower case, as Node delivers them *)
  req_body : js_object;                    (** [request.body], parsed by [express.json()] *)
  req_query : list (string * string);      (** [request.query] *)
  req_params : list (string * string);     (** [request.params], set by the router *)
  req_username : jsval;                    (** [request.username], set by [authenticateToken] *)
}.

Fixpoint assoc_get (l : list (string * string)) (k : string) : option string :=
  match l with
  | [] => None
  | (k', v) :: l' => if String.eqb k k' then Some v else assoc_get l' k
  end.

(** [request.headers[name]] *)
Definition header_get (req : request) (name : string) : option string :=
  assoc_get (req_headers req) name.

(** [request.params[name]]: a route parameter, always present once matched. *)
Definition param_get (req : request) (name : string) : string :=
  default "undefined" (assoc_get (req_params req) name).

(** What [response.send(x)] sends: a text, a JSON object, a row (or
    nothing, for [undefined]), an array of rows. *)
Inductive body : Type :=
| BText (s : string)
| BObj (o : js_object)
| BRow (r : option row)
| BRows (rs : list row).

Record response : Type := mk_response {
  res_status : Z;      (** [response.status(...)], 200 when not called *)
  res_body : body;
}.

Definition send (b : body) : response := mk_response 200 b.
Definition send_status (status : Z) (s : string) : response := mk_response status (BText s).

(** A column of a row as the JavaScript value [row.col]. *)
Definition row_get (r : row) (c : string) : jsval :=
  match row_lookup r c with
  | None => JUndefined
  | Some SNull => JNull
  | Some (SInt n) => JNum n
  | Some (SText s) => JStr s
  end.

(** ** Handlers *)

Inductive prog : Type :=
| PSend (r : response)                                     (** [response.send(...)] *)
| PGet (sql : string) (k : option row -> prog)             (** [await db.get(sql)] *)
| PAll (sql : string) (k : list row -> prog)               (** [await db.all(sql)] *)
| PRun (sql : string) (k : run_info -> prog)               (** [await db.run(sql)] *)
| PHash (data : jsval) (rounds : Z) (k : string -> prog)   (** [await bcrypt.hash(data, rounds)] *)
| PCompare (data hash : jsval) (k : bool -> prog)          (** [await bcrypt.compare(data, hash)] *)
| PNow (k : Z -> prog).                                    (** [Date.now()], read by [jwt.sign] *)

(** Why a handler's promise rejected. bcrypt rejects arguments that are
    not strings ("data and salt arguments required", "data and hash
    must be strings"). *)
Inductive rejection : Type :=
| RejSql (e : sql_error)
| RejBcrypt.

Inductive outcome : Type :=
| Sent (r : response)
| Rejected (e : rejection).

Record world : Type := mk_world {
  w_db : db;
  w_salt : nat;     (** how many salts bcrypt has drawn *)
  w_clock : Z;      (** [Date.now()], in milliseconds *)
}.

Definition with_db (w : world) (d : db) : world := mk_world d (w_salt w) (w_clock w).
Definition next_salt (w : world) : world := mk_world (w_db w) (S (w_salt w)) (w_clock w).

(** [prog_bound n p]: however its awaits resolve, [p] ends within [n]
    resumptions, the last one the [response.send] or the rejection. *)
Fixpoint prog_bound (n : nat) (p : prog) : Prop :=
  match n with
  | 0 => False
  | S m =>
      match p with
      | PSend _ => True
      | PGet _ k => forall r, prog_bound m (k r)
      | PAll _ k => forall rs, prog_bound m (k rs)
      | PRun _ k => forall i, prog_bound m (k i)
      | PHash _ _ k => forall h, prog_bound m (k h)
      | PCompare _ _ k => forall b, prog_bound m (k b)
      | PNow k => forall t, prog_bound m (k t)
      end
  end.

Section Run.
Context `{Bcrypt}.
(** The salts bcrypt's random generator yields, in order. *)
Variable salt_gen : nat -> string.

(** One awaited call: the world after it and what the handler continues
    with, or how it ended. *)
Definition step (w : world) (p : prog) : world * (prog + outcome) :=
  match p with
  | PSend r => (w, inr (Sent r))
  | PGet q k =>
      match db_get (w_db w) q with
      | Ok (d, r) => (with_db w d, inl (k r))
      | Err e => (w, inr (Rejected (RejSql e)))
      end
  | PAll q k =>
      match db_all (w_db w) q with
      | Ok (d, rs) => (with_db w d, inl (k rs))
      | Err e => (w, inr (Rejected (RejSql e)))
      end
  | PRun q k =>
      match db_run (w_db w) q with
      | Ok (d, i) => (with_db w d, inl (k i))
      | Err e => (w, inr (Rejected (RejSql e)))
      end
  | PHash (JStr pw) rounds k => (next_salt w, inl (k (bcrypt_hash rounds (salt_gen (w_salt w)) pw)))
  | PHash _ _ _ => (w, inr (Rejected RejBcrypt))
  | PCompare (JStr pw) (JStr h) k => (w, inl (k (bcrypt_compare pw h)))
  | PCompare _ _ _ => (w, inr (Rejected RejBcrypt))
  | PNow k => (w, inl (k (w_clock w)))
  end.

(** A handler run from start to end, with no other request in between. *)
Fixpoint run (w : world) (p : prog) : world * outcome :=
  match p with
  | PSend r => (w, Sent r)
  | PGet q k =>
      match db_get (w_db w) q with
      | Ok (d, r) => run (with_db w d) (k r)
      | Err e => (w, Rejected (RejSql e))
      end
  | PAll q k =>
      match db_all (w_db w) q with
      | Ok (d, rs) => run (with_db w d) (k rs)
      | Err e => (w, Rejected (RejSql e))
      end
  | PRun q k =>
      match db_run (w_db w) q with
      | Ok (d, i) => run (with_db w d) (k i)
      | Err e => (w, Rejected (RejSql e))
      end
  | PHash (JStr pw) rounds k => run (next_salt w) (k (bcrypt_hash rounds (salt_gen (w_salt w)) pw))
  | PHash _ _ _ => (w, Rejected RejBcrypt)
  | PCompare (JStr pw) (JStr h) k => run w (k (bcrypt_compare pw h))
  | PCompare _ _ _ => (w, Rejected RejBcrypt)
  | PNow k => run w (k (w_clock w))
  end.

(** The event loop resuming one handler at most [fuel] times, each
    resumption one [step]; [None] when the handler has not ended. *)
Fixpoint run_steps (fuel : nat) (w : world) (p : prog) : option (world * outcome) :=
  match fuel with
  | 0 => None
  | S f =>
      match step w p with
      | (w', inl p') => run_steps f w' p'
      | (w', inr o) => Some (w', o)
      end
  end.

(** [run] is [step] iterated until the handler ends. *)
Lemma run_step w p :
  run w p = match step w p with
            | (w', inl p') => run w' p'
            | (w', inr o) => (w', o)
            end.
Proof.
  destruct p as [| | | |[| | | |] | [| | | |] [| | | |] |]; simpl; try done;
    repeat case_match; done.
Qed.
(** A resumption that does not end the handler uses up one unit of its bound. *)
Lemma step_bound n w p w' p' :
  prog_bound (S n) p -> step w p = (w', inl p') -> prog_bound n p'.
Proof. destruct p; simpl; intros Hp E; repeat case_match; simplify_eq; auto. Qed.

Lemma prog_bound_mono m n p : prog_bound m p -> m <= n -> prog_bound n p.
Proof.
  revert n p. induction m as [|m IH]; intros [|n] p Hp Hle; simpl in *; try done; [lia|].
  destruct p; auto; intros; apply IH; auto with lia.
Qed.

(** With fuel at least its bound, the small-step loop ends and agrees with [run]. *)
Lemma run_steps_run n w p : prog_bound n p -> run_steps n w p = Some (run w p).
Proof.
  revert w p. induction n as [|n IH]; intros w p Hp; [done|].
  rewrite run_step. simpl. destruct (step w p) as [w' [p'|o]] eqn:E; [|done].
  apply IH. by eapply step_bound.
Qed.
End Run.

Lemma with_db_id w : with_db w (w_db w) = w.
Proof. by destruct w. Qed.

(** A handler changes the database only through statements, so it keeps
    every table well formed, whatever it does and however it ends. *)
Lemma run_wf `{Bcrypt} salt_gen p w : db_wf (w_db w) -> db_wf (w_db (run salt_gen w p).1).
Proof.
  revert w. induction p as [r|q k IH|q k IH|q k IH|data rounds k IH|data h k IH|k IH]; intros w Hwf;
    simpl; repeat case_match; simplify_eq/=; try done; apply IH; simpl; try done.
  - by eapply db_get_wf.
  - by eapply db_all_wf.
  - by eapply db_run_wf.
Qed.

(** One await step keeps every table well formed. *)
Lemma step_wf `{Bcrypt} salt_gen p w : db_wf (w_db w) -> db_wf (w_db (step salt_gen w p).1).
Proof.
  intros Hwf. destruct p; simpl; repeat case_match; simplify_eq/=; try done.
  - by eapply db_get_wf.
  - by eapply db_all_wf.
  - by eapply db_run_wf.
Qed.
