(* ===== verification/Auth.v ===== *)
(** * The authentication middleware [authenticateToken] (src/index.js, lines 34-56)

    [authenticateToken] reads the [authorization] header, takes the second
    field of its split on spaces as the token, verifies it with the
    process-wide secret ["MY_SECRET_TOKEN"] and either answers 401
    "Invalid JWT Token" itself or passes the request, with
    [request.username] set from the token's payload, to the next
    handler. Express middleware either sends a response or calls [next]:
    [mw_result] has those two outcomes. The file also states the
    specification's [authorize] (spec, section 4.1) and proves that the
    middleware implements it. *)

From S2P Require Import Prelude Js Crypto CryptoModel Http.

Inductive mw_result : Type :=
| MwSend (r : response)     (** the middleware answered *)
| MwNext (req : request).   (** the middleware called [next()] with this request *)

(** The secret literal of lines 46 and 102. *)
Definition jwt_secret : string := "MY_SECRET_TOKEN".

Definition invalid_jwt : response := send_status 401 "Invalid JWT Token".

Definition set_username (req : request) (u : jsval) : request :=
  mk_request (req_method req) (req_path req) (req_headers req) (req_body req)
             (req_query req) (req_params req) u.

Section Middleware.
Context `{Jwt}.

(** [jwtToken = authHeader.split(" ")[1]] when the header is present. *)
Definition bearer_token (req : request) : option string :=
  match header_get req "authorization" with
  | Some authHeader => split_on chr_space authHeader !! 1
  | None => None
  end.

Definition authenticateToken (req : request) : mw_result :=
  match bearer_token req with
  | None => MwSend invalid_jwt
  | Some jwtToken =>
      match jwt_verify jwtToken jwt_secret with
      | Err _ => MwSend invalid_jwt
      | Ok payload => MwNext (set_username req (claim_username payload))
      end
  end.
End Middleware.

(** ** The specification's [authorize] (spec, section 4.1) *)

Inductive auth_error : Type :=
| MissingToken    (** no header, or no second field *)
| InvalidToken.   (** the token does not verify *)

Section Spec.
Context `{Jwt}.

(** [authorize(rawAuthorizationHeaderValue)]: the second field of
    [<scheme> <token>] is the token; it must verify under the secret; the
    result is the [username] claim, with no check against the store. *)
Definition authorize (hdr : option string) : result jsval auth_error :=
  match hdr with
  | None => Err MissingToken
  | Some h =>
      match split_on chr_space h with
      | _ :: t :: _ =>
          match jwt_verify t jwt_secret with
          | Ok c => Ok (claim_username c)
          | Err _ => Err InvalidToken
          end
      | _ => Err MissingToken
      end
  end.
End Spec.

(** A request carrying the given [authorization] header. *)
Definition with_authorization (h : string) : request :=
  mk_request "GET" "/profile/" [("authorization", h)] [] [] [] JUndefined.

Definition no_authorization : request := mk_request "GET" "/profile/" [] [] [] [] JUndefined.

Definition alice_claims : claims := {| claim_username := JStr "alice"; claim_iat := 1700000000 |}.

(** A token the model library signs for [alice_claims] with the secret. *)
Definition alice_token : string := @jwt_sign jwt_model alice_claims jwt_secret.

(** ** Lemmas *)

Section Lemmas.
Context `{Jwt}.

(** [<scheme> <token>] with no space in either field splits into both. *)
Lemma split_scheme_token scheme tok :
  has_char chr_space scheme = false -> has_char chr_space tok = false ->
  split_on chr_space (scheme +:+ String chr_space tok) = [scheme; tok].
Proof. intros Hs Ht. rewrite split_on_app_sep by done. by rewrite split_on_no_sep. Qed.

Lemma bearer_token_scheme req scheme tok :
  header_get req "authorization" = Some (scheme +:+ String chr_space tok) ->
  has_char chr_space scheme = false -> has_char chr_space tok = false ->
  bearer_token req = Some tok.
Proof. intros Hh Hs Ht. unfold bearer_token. by rewrite Hh, split_scheme_token. Qed.

(** C3: The refinement: the middleware answers 401 exactly when [authorize]
    fails, and otherwise forwards the request with [request.username] set
    to the username [authorize] returns. *)
Theorem authenticateToken_refines req :
  authenticateToken req =
  match authorize (header_get req "authorization") with
  | Ok u => MwNext (set_username req u)
  | Err _ => MwSend invalid_jwt
  end.
Proof.
  unfold authenticateToken, bearer_token, authorize.
  destruct (header_get req "authorization") as [h|]; [|done].
  destruct (split_on chr_space h) as [|f [|t rest]]; simpl; [done|done|].
  by destruct (jwt_verify t jwt_secret).
Qed.

(** A request whose authorization [authorize] rejects gets 401. *)
Lemma authenticateToken_rejects req e :
  authorize (header_get req "authorization") = Err e -> authenticateToken req = MwSend invalid_jwt.
Proof.
  unfold authenticateToken, bearer_token, authorize.
  destruct (header_get req "authorization") as [h|]; [|done].
  destruct (split_on chr_space h) as [|f [|t rest]]; simpl; [done|done|].
  by destruct (jwt_verify t jwt_secret).
Qed.

(** A bearer token that verifies lets the request through under its claim. *)
Lemma authenticateToken_verified req tok c :
  bearer_token req = Some tok -> jwt_verify tok jwt_secret = Ok c ->
  authenticateToken req = MwNext (set_username req (claim_username c)).
Proof. intros Ht Hv. unfold authenticateToken. by rewrite Ht, Hv. Qed.

(** C36: A token signed with the secret, presented as [<scheme> <token>],
    lets the request through under the token's username, whatever that
    username is: the store is not consulted. *)
Theorem authenticateToken_signed req scheme c :
  header_get req "authorization" = Some (scheme +:+ String chr_space (jwt_sign c jwt_secret)) ->
  has_char chr_space scheme = false ->
  authenticateToken req = MwNext (set_username req (claim_username c)).
Proof.
  intros Hh Hs. apply (authenticateToken_verified req (jwt_sign c jwt_secret));
    [apply (bearer_token_scheme req scheme); auto using jwt_sign_no_space | apply jwt_verify_sign].
Qed.

(** No header, or a header with no space: 401. *)
Theorem authenticateToken_missing req :
  (forall h, header_get req "authorization" = Some h -> has_char chr_space h = false) ->
  authenticateToken req = MwSend invalid_jwt.
Proof.
  intros Hh. unfold authenticateToken, bearer_token.
  destruct (header_get req "authorization") as [h|] eqn:E; [|done].
  by rewrite split_on_no_sep by auto.
Qed.

(** A token that does not verify under the secret: 401. *)
Theorem authenticateToken_invalid req scheme tok e :
  header_get req "authorization" = Some (scheme +:+ String chr_space tok) ->
  has_char chr_space scheme = false -> has_char chr_space tok = false ->
  jwt_verify tok jwt_secret = Err e ->
  authenticateToken req = MwSend invalid_jwt.
Proof.
  intros Hh Hs Ht He. unfold authenticateToken.
  by rewrite (bearer_token_scheme req scheme tok), He.
Qed.

(** C37: A token signed with another secret: 401. *)
Theorem authenticateToken_other_secret req scheme c k :
  k <> jwt_secret ->
  header_get req "authorization" = Some (scheme +:+ String chr_space (jwt_sign c k)) ->
  has_char chr_space scheme = false ->
  authenticateToken req = MwSend invalid_jwt.
Proof.
  intros Hk Hh Hs. unfold authenticateToken.
  rewrite (bearer_token_scheme req scheme (jwt_sign c k)) by auto using jwt_sign_no_space.
  by rewrite jwt_verify_other_key.
Qed.

(** C38: Whatever the outcome, the middleware changes nothing but
    [request.username], and forwards only a request whose token verifies. *)
Theorem authenticateToken_forwards_verified req req' :
  authenticateToken req = MwNext req' ->
  exists tok c, bearer_token req = Some tok /\ jwt_verify tok jwt_secret = Ok c /\
                req' = set_username req (claim_username c).
Proof.
  unfold authenticateToken. destruct (bearer_token req) as [tok|]; [|done].
  destruct (jwt_verify tok jwt_secret) as [c|] eqn:E; [|done].
  intros [= <-]. eauto.
Qed.
End Lemmas.

(** ** Witnesses *)

#[local] Existing Instance jwt_model.

Lemma authenticateToken_signed_witness :
  header_get (with_authorization ("Bearer " +:+ alice_token)) "authorization"
  = Some ("Bearer" +:+ String chr_space (jwt_sign alice_claims jwt_secret)) /\
  authenticateToken (with_authorization ("Bearer " +:+ alice_token))
  = MwNext (set_username (with_authorization ("Bearer " +:+ alice_token)) (claim_username alice_claims)).
Proof.
  split; [reflexivity|].
  apply (authenticateToken_signed _ "Bearer" alice_claims); reflexivity.
Defined.

Lemma authenticateToken_missing_witness :
  authenticateToken no_authorization = MwSend invalid_jwt /\
  authenticateToken (with_authorization alice_token) = MwSend invalid_jwt.
Proof.
  split; apply authenticateToken_missing; intros h Hh.
  - discriminate Hh.
  - injection Hh as <-. vm_compute. reflexivity.
Defined.

Lemma authenticateToken_invalid_witness :
  jwt_verify "garbage" jwt_secret = Err JwtMalformed /\
  authenticateToken (with_authorization "Bearer garbage") = MwSend invalid_jwt.
Proof.
  split; [vm_compute; reflexivity|].
  apply (authenticateToken_invalid _ "Bearer" "garbage" JwtMalformed); vm_compute; reflexivity.
Defined.

Lemma authenticateToken_other_secret_witness :
  authenticateToken (with_authorization ("Bearer " +:+ jwt_sign alice_claims "another secret"))
  = MwSend invalid_jwt.
Proof.
  apply (authenticateToken_other_secret _ "Bearer" alice_claims "another secret");
    [discriminate | reflexivity | reflexivity].
Defined.

Lemma authenticateToken_forwards_verified_witness :
  exists tok c, bearer_token (with_authorization ("Bearer " +:+ alice_token)) = Some tok /\
    jwt_verify tok jwt_secret = Ok c /\
    set_username (with_authorization ("Bearer " +:+ alice_token)) (JStr "alice")
    = set_username (with_authorization ("Bearer " +:+ alice_token)) (claim_username c).
Proof.
  apply (authenticateToken_forwards_verified (with_authorization ("Bearer " +:+ alice_token))).
  vm_compute. reflexivity.
Defined.
