(* ===== verification/Books.v ===== *)
(** * The book endpoints (src/index.js, lines 120-276)

    Seven handlers, each behind [authenticateToken]: list the books, list
    them filtered and paginated, get one, add one, update one, delete one,
    list an author's books. Each builds one SQL statement with a template
    literal, awaits it and sends the result. Numbers and route parameters
    are interpolated without quotes, strings inside ['...'].

    [book_table_ok] is the [book] table the handlers imply: the columns
    of [addBookQuery] and [book_id], an [INTEGER PRIMARY KEY] whose value
    is the rowid. For numeric ids the statements parse back to the
    intended ones (the lexer reads [String(n)] as the number [n],
    [Sql.lex_run_number]), and the theorems give the list ordered by
    [book_id], the book, the deletion and the author's books by id, the
    insertion under the next rowid with [lastID] sent back, and the
    insert-then-get round trip while rowids stay below [2^53]; past it
    the [bookId] sent back is the driver's rounded number, not the new
    rowid ([addBookAPI_bookId_rounded]). The parameter [1 OR 1=1]
    deletes every book ([deleteBookAPI_injection]). The dead filtered
    list is modelled but has no theorem of its own. *)

From S2P Require Import Prelude Js Crypto CryptoModel Sql Db Http.

(** The fields the add and update handlers destructure from [request.body]. *)
Record bookDetails : Type := {
  title : jsval; authorId : jsval; rating : jsval; ratingCount : jsval;
  reviewCount : jsval; description : jsval; pages : jsval;
  dateOfPublication : jsval; editionLanguage : jsval; price : jsval;
  onlineStores : jsval;
}.

Definition book_details (body : js_object) : bookDetails := {|
  title := js_get body "title"; authorId := js_get body "authorId";
  rating := js_get body "rating"; ratingCount := js_get body "ratingCount";
  reviewCount := js_get body "reviewCount"; description := js_get body "description";
  pages := js_get body "pages"; dateOfPublication := js_get body "dateOfPublication";
  editionLanguage := js_get body "editionLanguage"; price := js_get body "price";
  onlineStores := js_get body "onlineStores" |}.

(** ** The statements *)

(** Line 122. *)
Definition getBooksQuery : string :=
  nl +:+ "   SELECT" +:+ nl +:+ "    *" +:+ nl +:+ "   FROM" +:+ nl +:+ "    book" +:+ nl +:+
  "   ORDER BY" +:+ nl +:+ "    book_id;".

(** Line 143 (the second [getBooksQuery] of the source). *)
Definition getBooksFilterQuery (offset limit order order_by search_q : string) : string :=
  nl +:+ "    SELECT" +:+ nl +:+ "      *" +:+ nl +:+ "    FROM" +:+ nl +:+ "     book" +:+ nl +:+
  "    WHERE" +:+ nl +:+ "     title LIKE '%" +:+ search_q +:+ "%'" +:+ nl +:+
  "    ORDER BY " +:+ order_by +:+ " " +:+ order +:+ nl +:+
  "    LIMIT " +:+ limit +:+ " OFFSET " +:+ offset +:+ ";".

(** Line 159. *)
Definition getBookQuery (bookId : string) : string :=
  nl +:+ "      SELECT" +:+ nl +:+ "       *" +:+ nl +:+ "      FROM" +:+ nl +:+ "       book " +:+ nl +:+
  "      WHERE" +:+ nl +:+ "       book_id = " +:+ bookId +:+ ";" +:+ nl +:+ "    ".

(** Line 187. *)
Definition addBookQuery (b : bookDetails) : string :=
  nl +:+ "    INSERT INTO" +:+ nl +:+
  "      book (title,author_id,rating,rating_count,review_count,description,pages,date_of_publication,edition_language,price,online_stores)" +:+ nl +:+
  "    VALUES" +:+ nl +:+ "      (" +:+ nl +:+
  "        '" +:+ js_to_string (title b) +:+ "'," +:+ nl +:+
  "         " +:+ js_to_string (authorId b) +:+ "," +:+ nl +:+
  "         " +:+ js_to_string (rating b) +:+ "," +:+ nl +:+
  "         " +:+ js_to_string (ratingCount b) +:+ "," +:+ nl +:+
  "         " +:+ js_to_string (reviewCount b) +:+ "," +:+ nl +:+
  "        '" +:+ js_to_string (description b) +:+ "'," +:+ nl +:+
  "         " +:+ js_to_string (pages b) +:+ "," +:+ nl +:+
  "        '" +:+ js_to_string (dateOfPublication b) +:+ "'," +:+ nl +:+
  "        '" +:+ js_to_string (editionLanguage b) +:+ "'," +:+ nl +:+
  "         " +:+ js_to_string (price b) +:+ "," +:+ nl +:+
  "        '" +:+ js_to_string (onlineStores b) +:+ "'" +:+ nl +:+
  "      );".

(** Line 227. *)
Definition updateBookQuery (bookId : string) (b : bookDetails) : string :=
  nl +:+ "    UPDATE" +:+ nl +:+ "      book" +:+ nl +:+ "    SET" +:+ nl +:+
  "      title='" +:+ js_to_string (title b) +:+ "'," +:+ nl +:+
  "      author_id=" +:+ js_to_string (authorId b) +:+ "," +:+ nl +:+
  "      rating=" +:+ js_to_string (rating b) +:+ "," +:+ nl +:+
  "      rating_count=" +:+ js_to_string (ratingCount b) +:+ "," +:+ nl +:+
  "      review_count=" +:+ js_to_string (reviewCount b) +:+ "," +:+ nl +:+
  "      description='" +:+ js_to_string (description b) +:+ "'," +:+ nl +:+
  "      pages=" +:+ js_to_string (pages b) +:+ "," +:+ nl +:+
  "      date_of_publication='" +:+ js_to_string (dateOfPublication b) +:+ "'," +:+ nl +:+
  "      edition_language='" +:+ js_to_string (editionLanguage b) +:+ "'," +:+ nl +:+
  "      price=" +:+ js_to_string (price b) +:+ "," +:+ nl +:+
  "      online_stores='" +:+ js_to_string (onlineStores b) +:+ "'" +:+ nl +:+
  "    WHERE" +:+ nl +:+ "      book_id = " +:+ bookId +:+ ";".

(** Line 251. *)
Definition deleteBookQuery (bookId : string) : string :=
  nl +:+ "    DELETE FROM" +:+ nl +:+ "      book" +:+ nl +:+ "    WHERE" +:+ nl +:+
  "      book_id = " +:+ bookId +:+ ";".

(** Line 266. *)
Definition getAuthorBooksQuery (authorId : string) : string :=
  nl +:+ "    SELECT" +:+ nl +:+ "     *" +:+ nl +:+ "    FROM" +:+ nl +:+ "     book" +:+ nl +:+
  "    WHERE" +:+ nl +:+ "      author_id = " +:+ authorId +:+ ";".

(** ** The handlers *)

(** [app.get("/books/", authenticateToken, ...)], line 121. *)
Definition getBooksAPI (request : request) : prog :=
  PAll getBooksQuery (fun booksArray => PSend (send (BRows booksArray))).

(** [const { offset = 2, ... } = request.query]: the default applies when
    the parameter is absent. *)
Definition query_or (request : request) (k default : string) : string :=
  match assoc_get (req_query request) k with Some v => v | None => default end.

(** [app.get("/books/", authenticateToken, ...)], line 134. *)
Definition getBooksWithFiltersAPI (request : request) : prog :=
  let offset := query_or request "offset" "2" in
  let limit := query_or request "limit" "5" in
  let order := query_or request "order" "ASC" in
  let order_by := query_or request "order_by" "book_id" in
  let search_q := query_or request "search_q" "" in
  PAll (getBooksFilterQuery offset limit order order_by search_q) (fun booksArray =>
  PSend (send (BRows booksArray))).

(** [app.get("/books/:bookId/", authenticateToken, ...)], line 157. *)
Definition getBookAPI (request : request) : prog :=
  let bookId := param_get request "bookId" in
  PGet (getBookQuery bookId) (fun book => PSend (send (BRow book))).

(** [app.post("/books/", authenticateToken, ...)], line 172: the new
    book's id is the statement's [lastID]. *)
Definition addBookAPI (request : request) : prog :=
  let bookDetails := book_details (req_body request) in
  PRun (addBookQuery bookDetails) (fun dbResponse =>
  let bookId := last_id dbResponse in
  PSend (send (BObj [("bookId", JNum bookId)]))).

(** [app.put("/books/:bookId/", authenticateToken, ...)], line 211. *)
Definition updateBookAPI (request : request) : prog :=
  let bookId := param_get request "bookId" in
  let bookDetails := book_details (req_body request) in
  PRun (updateBookQuery bookId bookDetails) (fun _ =>
  PSend (send (BText "Book Updated Successfully"))).

(** [app.delete("/books/:bookId/", authenticateToken, ...)], line 249. *)
Definition deleteBookAPI (request : request) : prog :=
  let bookId := param_get request "bookId" in
  PRun (deleteBookQuery bookId) (fun _ => PSend (send (BText "Book Deleted Successfully"))).

(** [app.get("/authors/:authorId/books/", authenticateToken, ...)], line 261. *)
Definition getAuthorBooksAPI (request : request) : prog :=
  let authorId := param_get request "authorId" in
  PAll (getAuthorBooksQuery authorId) (fun booksArray => PSend (send (BRows booksArray))).

(** ** What the statements mean *)

Definition book_cols : list string :=
  ["book_id"; "title"; "author_id"; "rating"; "rating_count"; "review_count"; "description";
   "pages"; "date_of_publication"; "edition_language"; "price"; "online_stores"].

(** The [book] table as the handlers use it: the columns of
    [addBookQuery] and [book_id], an [INTEGER PRIMARY KEY] (an alias of
    the rowid: [lastID] is the new [bookId]), no [UNIQUE] constraint. The
    schema is not in the repository; this is the one the handlers imply. *)
Definition book_table_ok (d : db) (t : table) : Prop :=
  find_table (db_tables d) "book" = Some t /\ tbl_cols t = book_cols /\
  tbl_key t = Some "book_id" /\ tbl_unique t = [] /\ table_wf t /\
  Forall (fun x => row_lookup x.2 "book_id" = Some (SInt x.1)) (tbl_rows t).

Definition empty_book_table : table := mk_table book_cols (Some "book_id") [] [].

(** The rows whose column [c] holds the integer [n], in table order. *)
Definition rows_with (t : table) (c : string) (n : Z) : list (Z * row) :=
  filter (fun x => row_lookup x.2 c = Some (SInt n)) (tbl_rows t).

(** The database with the rows of the [book] table replaced. *)
Definition set_book_rows (d : db) (t : table) (rs : list (Z * row)) : db :=
  mk_db (set_table (db_tables d) "book" (with_rows t rs)) (db_last_rowid d).

(** A route parameter that is not a number: Express passes it through. *)
Definition injection_id : string := "1 OR 1=1".

(** The columns [addBookQuery] names, in its order. *)
Definition add_cols : list string :=
  ["title"; "author_id"; "rating"; "rating_count"; "review_count"; "description"; "pages";
   "date_of_publication"; "edition_language"; "price"; "online_stores"].

(** A field sent as a JSON number that is a non-negative integer. *)
Definition nat_num (v : jsval) : Prop :=
  match v with JNum n => (0 <= n)%Z | _ => False end.

Definition num_of (v : jsval) : Z := match v with JNum n => n | _ => 0%Z end.

(** The fields as [addBookQuery] writes them: text in quotes, numbers bare. *)
Definition book_fields_ok (b : bookDetails) : Prop :=
  sql_safe (title b) /\ nat_num (authorId b) /\ nat_num (rating b) /\ nat_num (ratingCount b) /\
  nat_num (reviewCount b) /\ sql_safe (description b) /\ nat_num (pages b) /\
  sql_safe (dateOfPublication b) /\ sql_safe (editionLanguage b) /\ nat_num (price b) /\
  sql_safe (onlineStores b).

Definition book_values (b : bookDetails) : list sql_value :=
  [SText (js_to_string (title b)); SInt (num_of (authorId b)); SInt (num_of (rating b));
   SInt (num_of (ratingCount b)); SInt (num_of (reviewCount b));
   SText (js_to_string (description b)); SInt (num_of (pages b));
   SText (js_to_string (dateOfPublication b)); SText (js_to_string (editionLanguage b));
   SInt (num_of (price b)); SText (js_to_string (onlineStores b))].

(** The row [INSERT INTO book] stores under the rowid [rid]. *)
Definition book_row (rid : Z) (b : bookDetails) : row :=
  ("book_id", SInt rid) :: zip add_cols (book_values b).

(** The database after [INSERT INTO book]: the row appended under the next rowid. *)
Definition add_book (d : db) (t : table) (b : bookDetails) : db :=
  mk_db (set_table (db_tables d) "book"
           (with_rows t (tbl_rows t ++ [(next_rowid t, book_row (next_rowid t) b)])))
        (next_rowid t).

(** The [SET] list of [updateBookQuery]: each column with its new value. *)
Definition book_sets (b : bookDetails) : list (string * expr) :=
  zip add_cols (map ELit (book_values b)).

(** The rows after [UPDATE book SET ... WHERE book_id = n]: the row with
    that id gets the new values, the others stay. *)
Definition updated_rows (t : table) (n : Z) (b : bookDetails) : list (Z * row) :=
  map (fun x => if bool_decide (x.1 = n) then (x.1, book_row x.1 b) else x) (tbl_rows t).

(** [book_table_ok] as a test, for concrete databases. *)
Definition book_table_okb (d : db) (t : table) : bool :=
  bool_decide (find_table (db_tables d) "book" = Some t) && bool_decide (tbl_cols t = book_cols) &&
  bool_decide (tbl_key t = Some "book_id") && bool_decide (tbl_unique t = []) && table_wfb t &&
  forallb (fun x => bool_decide (row_lookup x.2 "book_id" = Some (SInt x.1))) (tbl_rows t).

(** ** Concrete books, for the witnesses *)

Definition dune_body : js_object :=
  [("title", JStr "Dune"); ("authorId", JNum 1); ("rating", JNum 4); ("ratingCount", JNum 120);
   ("reviewCount", JNum 15); ("description", JStr "Spice"); ("pages", JNum 412);
   ("dateOfPublication", JStr "1965-08-01"); ("editionLanguage", JStr "English");
   ("price", JNum 9); ("onlineStores", JStr "Amazon")].

Definition emma_body : js_object :=
  [("title", JStr "Emma"); ("authorId", JNum 2); ("rating", JNum 5); ("ratingCount", JNum 80);
   ("reviewCount", JNum 7); ("description", JStr "Highbury"); ("pages", JNum 474);
   ("dateOfPublication", JStr "1815-12-23"); ("editionLanguage", JStr "English");
   ("price", JNum 6); ("onlineStores", JStr "Flipkart")].

Definition two_books : table :=
  mk_table book_cols (Some "book_id") []
    [(1%Z, book_row 1 (book_details dune_body)); (2%Z, book_row 2 (book_details emma_body))].

Definition books_db : db := mk_db [("book", two_books)] 2.

Definition books_world : world := mk_world books_db 0 0.

(** A catalogue whose last book has the rowid [2^53]. *)
Definition big_books : table :=
  mk_table book_cols (Some "book_id") [] [(2 ^ 53, book_row (2 ^ 53) (book_details dune_body))]%Z.

Definition big_world : world := mk_world (mk_db [("book", big_books)] (2 ^ 53)) 0 0.

(** A request that passed [authenticateToken] as ["alice"]. *)
Definition book_request (method path : string) (params : list (string * string))
    (body : js_object) : request :=
  mk_request method path [] body [] params (JStr "alice").

Definition no_salts (_ : nat) : string := "".

(** ** The statements, parsed *)

Lemma book_table_okb_sound d t : book_table_okb d t = true -> book_table_ok d t.
Proof.
  unfold book_table_okb. intros H. repeat apply andb_prop in H as [H ?].
  repeat match goal with Hb : bool_decide _ = true |- _ => apply bool_decide_eq_true in Hb end.
  split_and!; auto using table_wfb_sound.
  apply Forall_forall. intros x Hx.
  apply (bool_decide_eq_true (row_lookup x.2 "book_id" = Some (SInt x.1))).
  match goal with Hf : forallb _ _ = true |- _ => apply (proj1 (forallb_forall _ _) Hf) end.
  by apply list_elem_of_In.
Qed.

Lemma compile_getBooksQuery :
  compile getBooksQuery = Some (SSelect "book" None (Some ("book_id", false)) None).
Proof. vm_compute. reflexivity. Qed.

Lemma compile_getBookQuery n :
  (0 <= n)%Z ->
  compile (getBookQuery (js_number_to_string n)) =
  Some (SSelect "book" (Some (EBin OpEq (ECol "book_id") (ELit (SInt n)))) None None).
Proof. intros Hn. unfold compile, lex, getBookQuery. lex_pieces. reflexivity. Qed.

Lemma compile_deleteBookQuery n :
  (0 <= n)%Z ->
  compile (deleteBookQuery (js_number_to_string n)) =
  Some (SDelete "book" (Some (EBin OpEq (ECol "book_id") (ELit (SInt n))))).
Proof. intros Hn. unfold compile, lex, deleteBookQuery. lex_pieces. reflexivity. Qed.

Lemma compile_getAuthorBooksQuery n :
  (0 <= n)%Z ->
  compile (getAuthorBooksQuery (js_number_to_string n)) =
  Some (SSelect "book" (Some (EBin OpEq (ECol "author_id") (ELit (SInt n)))) None None).
Proof. intros Hn. unfold compile, lex, getAuthorBooksQuery. lex_pieces. reflexivity. Qed.

(** The parameter [1 OR 1=1] turns the condition into a disjunction
    that every row satisfies. *)
Lemma compile_deleteBookQuery_injection :
  compile (deleteBookQuery injection_id) =
  Some (SDelete "book" (Some (EBin OpOr (EBin OpEq (ECol "book_id") (ELit (SInt 1)))
                                        (EBin OpEq (ELit (SInt 1)) (ELit (SInt 1)))))).
Proof. vm_compute. reflexivity. Qed.

Lemma book_has_col d t c : book_table_ok d t -> c ∈ book_cols -> has_col t c = true.
Proof.
  intros (_ & Hcols & _) Hc. unfold has_col. rewrite Hcols.
  apply existsb_exists. exists c. split; [by apply list_elem_of_In|]. apply String.eqb_refl.
Qed.

Lemma book_rows_have d t c :
  book_table_ok d t -> c ∈ book_cols -> Forall (fun x => is_Some (row_lookup x.2 c)) (tbl_rows t).
Proof. intros Hok Hc. apply rows_have_col; [apply Hok|]. by eapply book_has_col. Qed.

Lemma book_missing_col d t c : book_table_ok d t -> c ∈ book_cols -> missing_col t [c] = None.
Proof. intros Hok Hc. unfold missing_col. simpl. by rewrite (book_has_col d t c). Qed.

(** [SELECT * FROM book WHERE c = n]: the rows whose [c] is [n]. *)
Lemma exec_book_select d t c n :
  book_table_ok d t -> c ∈ book_cols ->
  exec d (SSelect "book" (Some (EBin OpEq (ECol c) (ELit (SInt n)))) None None) =
  Ok (d, map snd (rows_with t c n), {| last_id := db_last_rowid d; changes := 0 |}).
Proof.
  intros Hok Hc. apply exec_select_eq; [apply Hok|apply Hok|by eapply book_has_col|done].
Qed.

(** Each field sent as a number becomes [JNum n] with its bound. *)
Ltac nat_nums :=
  repeat match goal with
  | H : nat_num ?v |- _ => destruct v; simpl in H; try contradiction; cbn [js_to_string num_of]
  end.

Lemma compile_addBookQuery b :
  book_fields_ok b ->
  compile (addBookQuery b) = Some (SInsert "book" add_cols (map ELit (book_values b))).
Proof.
  destruct b as [ti ai ra rc rv de pa da ed pr on].
  unfold book_fields_ok, sql_safe, book_values, compile, lex, addBookQuery. simpl.
  intros (Hti & Hai & Hra & Hrc & Hrv & Hde & Hpa & Hda & Hed & Hpr & Hon).
  nat_nums. lex_pieces. reflexivity.
Qed.

Lemma key_values_book t rid b :
  tbl_cols t = book_cols -> tbl_key t = Some "book_id" ->
  key_values t rid add_cols (book_values b) = book_row rid b.
Proof. intros Hcols Hkey. unfold key_values, is_key. by rewrite Hcols, Hkey. Qed.

Lemma next_rowid_pos t : (0 < next_rowid t)%Z.
Proof.
  unfold next_rowid. enough (0 <= foldr Z.max 0 (map fst (tbl_rows t)))%Z by lia.
  induction (map fst (tbl_rows t)); simpl; lia.
Qed.

(** Adding a book keeps the table as the handlers need it. *)
Lemma book_table_ok_add d t b :
  book_table_ok d t ->
  book_table_ok (add_book d t b) (with_rows t (tbl_rows t ++ [(next_rowid t, book_row (next_rowid t) b)])).
Proof.
  intros (Ht & Hcols & Hkey & Huniq & Hwf & Hkeyed).
  split_and!; [by eapply find_set_table_eq|done|done|done| |].
  - apply table_wf_snoc; [done|by rewrite Hcols|]. unfold unique_violation. by rewrite Huniq.
  - simpl. apply Forall_app. split; [done|]. by repeat constructor.
Qed.

(** In a keyed table, the rows with the next rowid are the appended row only. *)
Lemma rows_with_fresh d t b :
  book_table_ok d t ->
  rows_with (with_rows t (tbl_rows t ++ [(next_rowid t, book_row (next_rowid t) b)]))
            "book_id" (next_rowid t)
  = [(next_rowid t, book_row (next_rowid t) b)].
Proof.
  intros (_ & _ & _ & _ & _ & Hkeyed). unfold rows_with. simpl. rewrite filter_app.
  rewrite (filter_Forall_not _ (tbl_rows t)). { by rewrite filter_cons_True. }
  pose proof (proj2 (Forall_and _ _) (conj Hkeyed (next_rowid_fresh t))) as Hall.
  eapply Forall_impl; [exact Hall|]. intros x [Hx Hlt]. rewrite Hx. intros [= Heq]. lia.
Qed.

(** [await db.get(getBookQuery)] with a numeric id. *)
Lemma db_get_getBookQuery d t n :
  book_table_ok d t -> (0 <= n)%Z ->
  db_get d (getBookQuery (js_number_to_string n)) = Ok (d, head (map snd (rows_with t "book_id" n))).
Proof.
  intros Hok Hn. unfold db_get, db_exec.
  by rewrite compile_getBookQuery, (exec_book_select _ t) by (done || by repeat constructor).
Qed.

(** [await db.run(deleteBookQuery)] with a numeric id. *)
Lemma db_run_deleteBookQuery d t n :
  book_table_ok d t -> (0 <= n)%Z ->
  db_run d (deleteBookQuery (js_number_to_string n)) =
  Ok (set_book_rows d t (filter (fun x => row_lookup x.2 "book_id" <> Some (SInt n)) (tbl_rows t)),
      {| last_id := js_number_of_int (db_last_rowid d);
         changes := length (filter (fun x => row_lookup x.2 "book_id" = Some (SInt n)) (tbl_rows t)) |}).
Proof.
  intros Hok Hn. unfold db_run, db_exec. rewrite compile_deleteBookQuery by done.
  assert (Hc : "book_id" ∈ book_cols) by repeat constructor.
  pose proof (delete_rows_eq "book_id" (SInt n) (tbl_rows t) ltac:(done)
                (book_rows_have _ t _ Hok Hc)) as Hdel.
  by rewrite (exec_delete _ "book" t _ _ (proj1 Hok) Hdel (book_missing_col _ t _ Hok Hc)).
Qed.

(** [await db.run(deleteBookQuery "1 OR 1=1")]: every row goes. *)
Lemma db_run_deleteBookQuery_injection d t :
  book_table_ok d t ->
  db_run d (deleteBookQuery injection_id) =
  Ok (set_book_rows d t [], {| last_id := js_number_of_int (db_last_rowid d); changes := length (tbl_rows t) |}).
Proof.
  intros Hok. unfold db_run, db_exec. rewrite compile_deleteBookQuery_injection.
  assert (Hc : "book_id" ∈ book_cols) by repeat constructor.
  assert (Hdel : delete_rows (Some (EBin OpOr (EBin OpEq (ECol "book_id") (ELit (SInt 1)))
                                               (EBin OpEq (ELit (SInt 1)) (ELit (SInt 1)))))
                             (tbl_rows t) = Ok ([], length (tbl_rows t))).
  { apply delete_rows_all. eapply Forall_impl; [exact (book_rows_have _ t _ Hok Hc)|].
    intros x [v Hv]. eapply row_matches_or_true; [simpl; by rewrite Hv|reflexivity|reflexivity]. }
  by rewrite (exec_delete _ "book" t _ _ (proj1 Hok) Hdel (book_missing_col _ t _ Hok Hc)).
Qed.

(** [await db.run(addBookQuery)]: the book is appended under the next rowid. *)
Lemma db_run_addBookQuery d t b :
  book_table_ok d t -> book_fields_ok b ->
  db_run d (addBookQuery b) = Ok (add_book d t b, {| last_id := js_number_of_int (next_rowid t); changes := 1 |}).
Proof.
  intros Hok Hb. pose proof Hok as (Ht & Hcols & Hkey & Huniq & _).
  unfold db_run, db_exec. rewrite compile_addBookQuery by done.
  rewrite (exec_insert_key_lits _ "book" t "book_id"); try done.
  - cbn. by rewrite key_values_book.
  - unfold missing_col, has_col. by rewrite Hcols.
  - unfold unique_violation. by rewrite Huniq.
Qed.

Lemma compile_updateBookQuery n b :
  (0 <= n)%Z -> book_fields_ok b ->
  compile (updateBookQuery (js_number_to_string n) b) =
  Some (SUpdate "book" (book_sets b) (Some (EBin OpEq (ECol "book_id") (ELit (SInt n))))).
Proof.
  intros Hn. destruct b as [ti ai ra rc rv de pa da ed pr on].
  unfold book_fields_ok, sql_safe, book_values, compile, lex, updateBookQuery. simpl.
  intros (Hti & Hai & Hra & Hrc & Hrv & Hde & Hpa & Hda & Hed & Hpr & Hon).
  nat_nums. lex_pieces. reflexivity.
Qed.

(** The [SET] list rewrites every column of a book row but [book_id]. *)
Lemma apply_sets_book r id b :
  map fst r = book_cols -> row_lookup r "book_id" = Some (SInt id) ->
  apply_sets (book_sets b) r = Ok (book_row id b).
Proof.
  intros Hcols Hid.
  rewrite <- (zip_map_fst_snd r), Hcols in Hid |- *.
  assert (Hlen : length (map snd r) = 12) by (rewrite length_map, <- (length_map fst r), Hcols; done).
  destruct (map snd r) as [|v0 [|v1 [|v2 [|v3 [|v4 [|v5 [|v6 [|v7 [|v8 [|v9 [|v10 [|v11 [|]]]]]]]]]]]]];
    simpl in Hlen; try lia.
  simpl in Hid. injection Hid as ->. reflexivity.
Qed.

Lemma update_rows_book n b rs :
  Forall (fun x => map fst x.2 = book_cols /\ row_lookup x.2 "book_id" = Some (SInt x.1)) rs ->
  update_rows (book_sets b) (Some (EBin OpEq (ECol "book_id") (ELit (SInt n)))) rs =
  Ok (map (fun x => if bool_decide (x.1 = n) then (x.1, book_row x.1 b) else x) rs,
      length (filter (fun x => x.1 = n) rs)).
Proof.
  induction rs as [|[id r] rs IH]; intros Hall; [done|].
  apply Forall_cons in Hall as [[Hcols Hid] Hrs]. simpl in Hcols, Hid. cbn [update_rows].
  rewrite (row_matches_eq r "book_id" (SInt n) (SInt id)) by done. cbn [res_bind].
  rewrite filter_cons. simpl. rewrite IH by done. cbn [res_bind].
  destruct (decide (id = n)) as [->|Hne].
  - rewrite !bool_decide_eq_true_2 by done. by rewrite (apply_sets_book r n b).
  - by rewrite !bool_decide_eq_false_2 by congruence.
Qed.

(** [await db.run(updateBookQuery)] with a numeric id. *)
Lemma db_run_updateBookQuery d t n b :
  book_table_ok d t -> (0 <= n)%Z -> book_fields_ok b ->
  db_run d (updateBookQuery (js_number_to_string n) b) =
  Ok (set_book_rows d t (updated_rows t n b),
      {| last_id := js_number_of_int (db_last_rowid d); changes := length (filter (fun x => x.1 = n) (tbl_rows t)) |}).
Proof.
  intros (Ht & Hcols & Hkey & Huniq & (Hrows & _ & _) & Hkeyed) Hn Hb. rewrite Hcols in Hrows.
  unfold db_run, db_exec. rewrite compile_updateBookQuery by done. unfold exec. rewrite Ht. simpl.
  unfold check_cols, missing_col, has_col, is_key. rewrite Hcols, Hkey. simpl.
  rewrite update_rows_book by (apply Forall_and; split; [exact Hrows|exact Hkeyed]). simpl.
  unfold unique_violation. by rewrite Huniq.
Qed.

(** ** The handlers, run *)

Section Endpoints.
Context `{Bcrypt}.
Variable salt_gen : nat -> string.

(** [GET /books/:bookId/] with a numeric id: the first row with that
    [book_id], or an empty body. *)
Lemma getBookAPI_id w t req n :
  book_table_ok (w_db w) t -> (0 <= n)%Z -> param_get req "bookId" = js_number_to_string n ->
  run salt_gen w (getBookAPI req) =
  (w, Sent (send (BRow (head (map snd (rows_with t "book_id" n)))))).
Proof.
  intros Hok Hn Hp. unfold getBookAPI. rewrite Hp. cbn [run].
  by rewrite (db_get_getBookQuery _ t), with_db_id.
Qed.

(** [DELETE /books/:bookId/] with a numeric id: the rows with that
    [book_id] are gone, the others stay in order. *)
Lemma deleteBookAPI_id w t req n :
  book_table_ok (w_db w) t -> (0 <= n)%Z -> param_get req "bookId" = js_number_to_string n ->
  run salt_gen w (deleteBookAPI req) =
  (with_db w (set_book_rows (w_db w) t
                (filter (fun x => row_lookup x.2 "book_id" <> Some (SInt n)) (tbl_rows t))),
   Sent (send (BText "Book Deleted Successfully"))).
Proof.
  intros Hok Hn Hp. unfold deleteBookAPI. rewrite Hp. cbn [run].
  by rewrite (db_run_deleteBookQuery _ t).
Qed.

(** C12: The injection: [DELETE /books/1 OR 1=1/] deletes every book. *)
Lemma deleteBookAPI_injection w t req :
  book_table_ok (w_db w) t -> param_get req "bookId" = injection_id ->
  run salt_gen w (deleteBookAPI req) =
  (with_db w (set_book_rows (w_db w) t []), Sent (send (BText "Book Deleted Successfully"))).
Proof.
  intros Hok Hp. unfold deleteBookAPI. rewrite Hp. cbn [run].
  by rewrite (db_run_deleteBookQuery_injection _ t).
Qed.

(** [GET /authors/:authorId/books/] with a numeric id: that author's
    books in table order. *)
Lemma getAuthorBooksAPI_id w t req n :
  book_table_ok (w_db w) t -> (0 <= n)%Z -> param_get req "authorId" = js_number_to_string n ->
  run salt_gen w (getAuthorBooksAPI req) =
  (w, Sent (send (BRows (map snd (rows_with t "author_id" n))))).
Proof.
  intros Hok Hn Hp. unfold getAuthorBooksAPI. rewrite Hp. cbn [run]. unfold db_all, db_exec.
  rewrite compile_getAuthorBooksQuery, (exec_book_select _ t) by (done || by repeat constructor).
  by rewrite with_db_id.
Qed.

(** [GET /books/]: every book, ordered by [book_id]. *)
Lemma getBooksAPI_all w t req :
  book_table_ok (w_db w) t ->
  run salt_gen w (getBooksAPI req) =
  (w, Sent (send (BRows (sort_rows "book_id" false (map snd (tbl_rows t)))))).
Proof.
  intros Hok. unfold getBooksAPI. cbn [run]. unfold db_all, db_exec.
  rewrite compile_getBooksQuery. unfold exec. rewrite (proj1 Hok). simpl.
  unfold check_cols. rewrite (book_missing_col (w_db w) t "book_id") by (done || by repeat constructor).
  simpl. rewrite filter_rows_none. simpl. by rewrite with_db_id.
Qed.
(** [PUT /books/:bookId/] with a numeric id and a complete body: the
    row with that id gets every new value, the others stay. *)
Lemma updateBookAPI_id w t req n :
  book_table_ok (w_db w) t -> (0 <= n)%Z -> param_get req "bookId" = js_number_to_string n ->
  book_fields_ok (book_details (req_body req)) ->
  run salt_gen w (updateBookAPI req) =
  (with_db w (set_book_rows (w_db w) t (updated_rows t n (book_details (req_body req)))),
   Sent (send (BText "Book Updated Successfully"))).
Proof.
  intros Hok Hn Hp Hb. unfold updateBookAPI. rewrite Hp. cbn [run].
  by rewrite (db_run_updateBookQuery _ t).
Qed.

(** [POST /books/]: the book is appended under the next rowid; the
    driver's number for that rowid is sent back as [bookId]. *)
Lemma run_addBookAPI w t req :
  book_table_ok (w_db w) t -> book_fields_ok (book_details (req_body req)) ->
  run salt_gen w (addBookAPI req) =
  (with_db w (add_book (w_db w) t (book_details (req_body req))),
   Sent (send (BObj [("bookId", JNum (js_number_of_int (next_rowid t)))]))).
Proof.
  intros Hok Hb. unfold addBookAPI. cbn [run]. by rewrite (db_run_addBookQuery _ t).
Qed.

(** [POST /books/] with quote-free text fields and non-negative integer
    numbers, in a table whose next rowid is below [2^53]: the book is
    appended under the next rowid, which is sent back as [bookId]. *)
Lemma addBookAPI_ok w t req :
  book_table_ok (w_db w) t -> book_fields_ok (book_details (req_body req)) ->
  (next_rowid t < 2 ^ 53)%Z ->
  run salt_gen w (addBookAPI req) =
  (with_db w (add_book (w_db w) t (book_details (req_body req))),
   Sent (send (BObj [("bookId", JNum (next_rowid t))]))).
Proof.
  intros Hok Hb Hn. rewrite (run_addBookAPI w t) by done.
  rewrite js_number_of_int_safe; [done|]. pose proof (next_rowid_pos t). lia.
Qed.

(** C35: Past [2^53] the [bookId] is not the new book's id: when the next
    rowid is [2^53 + 1], the book is stored under it but the client is
    told [2^53], the id of the book before it. *)
Lemma addBookAPI_bookId_rounded w t req :
  book_table_ok (w_db w) t -> book_fields_ok (book_details (req_body req)) ->
  next_rowid t = (2 ^ 53 + 1)%Z ->
  run salt_gen w (addBookAPI req) =
  (with_db w (add_book (w_db w) t (book_details (req_body req))),
   Sent (send (BObj [("bookId", JNum (2 ^ 53))]))).
Proof.
  intros Hok Hb Hn. rewrite (run_addBookAPI w t), Hn by done. by vm_compute (js_number_of_int _).
Qed.

(** C19: Insert then lookup: after [POST /books/], [GET /books/<bookId>/]
    with the [bookId] sent back returns the book just added, as long as
    the new rowid is below [2^53]. *)
Lemma addBookAPI_getBookAPI w t req req' :
  book_table_ok (w_db w) t -> book_fields_ok (book_details (req_body req)) ->
  (next_rowid t < 2 ^ 53)%Z ->
  param_get req' "bookId" = js_number_to_string (js_number_of_int (next_rowid t)) ->
  run salt_gen (fst (run salt_gen w (addBookAPI req))) (getBookAPI req') =
  (with_db w (add_book (w_db w) t (book_details (req_body req))),
   Sent (send (BRow (Some (book_row (next_rowid t) (book_details (req_body req))))))).
Proof.
  intros Hok Hb Hn Hp. pose proof (next_rowid_pos t) as Hpos.
  rewrite js_number_of_int_safe in Hp by lia.
  unfold addBookAPI, getBookAPI. cbn [run].
  rewrite (db_run_addBookQuery _ t) by done. cbn [run fst last_id w_db with_db]. rewrite Hp. cbn [run].
  rewrite (db_get_getBookQuery _ _ (next_rowid t) (book_table_ok_add _ _ _ Hok)) by lia.
  by rewrite (rows_with_fresh (w_db w)).
Qed.
End Endpoints.

(** ** Witnesses *)

#[local] Existing Instance bcrypt_model.

Lemma getBookAPI_id_witness :
  run no_salts books_world (getBookAPI (book_request "GET" "/books/2/" [("bookId", "2")] [])) =
  (books_world, Sent (send (BRow (head (map snd (rows_with two_books "book_id" 2)))))).
Proof.
  apply (getBookAPI_id no_salts books_world two_books _ 2);
    [apply book_table_okb_sound; vm_compute; reflexivity | lia | reflexivity].
Defined.

Lemma deleteBookAPI_id_witness :
  run no_salts books_world (deleteBookAPI (book_request "DELETE" "/books/1/" [("bookId", "1")] [])) =
  (with_db books_world (set_book_rows books_db two_books
     (filter (fun x => row_lookup x.2 "book_id" <> Some (SInt 1)) (tbl_rows two_books))),
   Sent (send (BText "Book Deleted Successfully"))).
Proof.
  apply (deleteBookAPI_id no_salts books_world two_books _ 1);
    [apply book_table_okb_sound; vm_compute; reflexivity | lia | reflexivity].
Defined.

Lemma deleteBookAPI_injection_witness :
  run no_salts books_world
      (deleteBookAPI (book_request "DELETE" "/books/1 OR 1=1/" [("bookId", injection_id)] [])) =
  (with_db books_world (set_book_rows books_db two_books []),
   Sent (send (BText "Book Deleted Successfully"))).
Proof.
  apply (deleteBookAPI_injection no_salts books_world two_books);
    [apply book_table_okb_sound; vm_compute; reflexivity | reflexivity].
Defined.

Lemma getAuthorBooksAPI_id_witness :
  run no_salts books_world
      (getAuthorBooksAPI (book_request "GET" "/authors/2/books/" [("authorId", "2")] [])) =
  (books_world, Sent (send (BRows (map snd (rows_with two_books "author_id" 2))))).
Proof.
  apply (getAuthorBooksAPI_id no_salts books_world two_books _ 2);
    [apply book_table_okb_sound; vm_compute; reflexivity | lia | reflexivity].
Defined.

Lemma getBooksAPI_all_witness :
  run no_salts books_world (getBooksAPI (book_request "GET" "/books/" [] [])) =
  (books_world, Sent (send (BRows (sort_rows "book_id" false (map snd (tbl_rows two_books)))))).
Proof.
  apply (getBooksAPI_all no_salts books_world two_books).
  apply book_table_okb_sound; vm_compute; reflexivity.
Defined.

Lemma addBookAPI_ok_witness :
  run no_salts (mk_world (mk_db [("book", empty_book_table)] 0) 0 0)
      (addBookAPI (book_request "POST" "/books/" [] dune_body)) =
  (with_db (mk_world (mk_db [("book", empty_book_table)] 0) 0 0)
     (add_book (mk_db [("book", empty_book_table)] 0) empty_book_table
               (book_details (req_body (book_request "POST" "/books/" [] dune_body)))),
   Sent (send (BObj [("bookId", JNum (next_rowid empty_book_table))]))).
Proof.
  apply (addBookAPI_ok no_salts (mk_world (mk_db [("book", empty_book_table)] 0) 0 0)
           empty_book_table).
  - apply book_table_okb_sound; vm_compute; reflexivity.
  - unfold book_fields_ok, sql_safe, nat_num. simpl. split_and!; done || lia.
  - vm_compute. reflexivity.
Defined.

Lemma addBookAPI_bookId_rounded_witness :
  run no_salts big_world (addBookAPI (book_request "POST" "/books/" [] emma_body)) =
  (with_db big_world (add_book (w_db big_world) big_books
                        (book_details (req_body (book_request "POST" "/books/" [] emma_body)))),
   Sent (send (BObj [("bookId", JNum (2 ^ 53))]))).
Proof.
  apply (addBookAPI_bookId_rounded no_salts big_world big_books).
  - apply book_table_okb_sound; vm_compute; reflexivity.
  - unfold book_fields_ok, sql_safe, nat_num. simpl. split_and!; done || lia.
  - vm_compute. reflexivity.
Defined.

Lemma addBookAPI_getBookAPI_witness :
  run no_salts (fst (run no_salts books_world (addBookAPI (book_request "POST" "/books/" [] dune_body))))
      (getBookAPI (book_request "GET" "/books/3/" [("bookId", "3")] [])) =
  (with_db books_world (add_book books_db two_books
     (book_details (req_body (book_request "POST" "/books/" [] dune_body)))),
   Sent (send (BRow (Some (book_row (next_rowid two_books)
     (book_details (req_body (book_request "POST" "/books/" [] dune_body)))))))).
Proof.
  apply (addBookAPI_getBookAPI no_salts books_world two_books).
  - apply book_table_okb_sound; vm_compute; reflexivity.
  - unfold book_fields_ok, sql_safe, nat_num. simpl. split_and!; done || lia.
  - vm_compute. reflexivity.
  - reflexivity.
Defined.

Lemma updateBookAPI_id_witness :
  run no_salts books_world
      (updateBookAPI (book_request "PUT" "/books/2/" [("bookId", "2")] dune_body)) =
  (with_db books_world (set_book_rows books_db two_books
     (updated_rows two_books 2
        (book_details (req_body (book_request "PUT" "/books/2/" [("bookId", "2")] dune_body))))),
   Sent (send (BText "Book Updated Successfully"))).
Proof.
  apply (updateBookAPI_id no_salts books_world two_books _ 2).
  - apply book_table_okb_sound; vm_compute; reflexivity.
  - lia.
  - reflexivity.
  - unfold book_fields_ok, sql_safe, nat_num. simpl. split_and!; done || lia.
Defined.
