(* ===== verification/Users.v ===== *)
(** * The user endpoints: register, login and profile (src/index.js, lines 58-118)

    [userRegisterAPI] hashes the password, looks the username up and
    inserts the new user when it is free; [userLoginAPI] looks the user
    up, compares the password with the stored hash and signs a token;
    [getProfile] returns the row of the user the token names. Each is a
    [prog]: the awaited calls in the order the source makes them. The
    SQL text is built exactly as the template literals build it; its
    meaning comes from [Sql.v] and [Db.v].

    [user_table_ok] is what the handlers need of the [user] table (its
    columns, no rowid alias, at most a [UNIQUE] on [username], well
    formed). On such a table, for quote-free input, the statements parse
    back to the intended SELECT and INSERT ([compile_selectUserQuery],
    [compile_createUserQuery]) and the [Section Endpoints] theorems give
    every branch of the three handlers, for every bcrypt and jsonwebtoken
    instance: registration of a free or taken username, the rejection
    when the password is not a string, login of an unknown user, a wrong
    password, a password equal on its first 72 bytes, and the profile.
    The injected username [x' OR '1'='1] rewrites the SELECT into one
    every row satisfies ([db_get_injection]). *)

From S2P Require Import Prelude Js Crypto CryptoModel Sql Db Http Auth Books.

(** ** The statements (template literals of lines 64, 67-77, 90, 115) *)

Definition selectUserQuery (username : jsval) : string :=
  "SELECT * FROM user WHERE username = '" +:+ js_to_string username +:+ "'".

Definition createUserQuery (username name : jsval) (hashedPassword : string)
    (gender location : jsval) : string :=
  nl +:+ "      INSERT INTO " +:+ nl +:+
  "        user (username, name, password, gender, location) " +:+ nl +:+
  "      VALUES " +:+ nl +:+
  "        (" +:+ nl +:+
  "          '" +:+ js_to_string username +:+ "', " +:+ nl +:+
  "          '" +:+ js_to_string name +:+ "'," +:+ nl +:+
  "          '" +:+ hashedPassword +:+ "', " +:+ nl +:+
  "          '" +:+ js_to_string gender +:+ "'," +:+ nl +:+
  "          '" +:+ js_to_string location +:+ "'" +:+ nl +:+
  "        )".

Section Handlers.
Context `{Jwt}.

(** [app.post("/users/", ...)] *)
Definition userRegisterAPI (request : request) : prog :=
  let body := req_body request in
  let username := js_get body "username" in
  let name := js_get body "name" in
  let gender := js_get body "gender" in
  let location := js_get body "location" in
  PHash (js_get body "password") 10 (fun hashedPassword =>
  PGet (selectUserQuery username) (fun dbUser =>
  match dbUser with
  | None =>
      PRun (createUserQuery username name hashedPassword gender location) (fun _ =>
      PSend (send (BText "User created successfully")))
  | Some _ => PSend (send_status 400 "User already exists")
  end)).

(** The payload [{ username: username }]; [jwt.sign] adds [iat], the
    current time in seconds. *)
Definition login_claims (username : jsval) (now : Z) : claims :=
  {| claim_username := username; claim_iat := (now / 1000)%Z |}.

(** [app.post("/login/", ...)] *)
Definition userLoginAPI (request : request) : prog :=
  let body := req_body request in
  let username := js_get body "username" in
  let password := js_get body "password" in
  PGet (selectUserQuery username) (fun dbUser =>
  match dbUser with
  | None => PSend (send_status 400 "Invalid User")
  | Some dbUser =>
      PCompare password (row_get dbUser "password") (fun isPasswordMatched =>
      if isPasswordMatched then
        PNow (fun now =>
        let jwtToken := jwt_sign (login_claims username now) jwt_secret in
        PSend (send (BObj [("jwtToken", JStr jwtToken)])))
      else PSend (send_status 400 "Invalid Password"))
  end).

(** [app.get("/profile/", authenticateToken, ...)]: [request.username] was
    set by the middleware. *)
Definition getProfile (request : request) : prog :=
  PGet (selectUserQuery (req_username request)) (fun userDetails =>
  PSend (send (BRow userDetails))).
End Handlers.

(** ** What the statements mean *)

Definition user_cols : list string := ["username"; "name"; "password"; "gender"; "location"].

(** The [user] table of [goodreads.db] as the handlers use it: these
    columns, no rowid alias, no [UNIQUE] constraint except possibly on
    [username]. The schema is not in the repository; both choices for
    [username] are covered. *)
Definition user_table_ok (d : db) (t : table) : Prop :=
  find_table (db_tables d) "user" = Some t /\ tbl_cols t = user_cols /\
  tbl_key t = None /\ tbl_unique t ⊆ ["username"] /\ table_wf t.

(** The rows of user [u], in table order. *)
Definition user_rows (t : table) (u : string) : list row :=
  map snd (filter (fun x => row_lookup x.2 "username" = Some (SText u)) (tbl_rows t)).


Definition user_row (u n h g l : string) : row :=
  [("username", SText u); ("name", SText n); ("password", SText h);
   ("gender", SText g); ("location", SText l)].

(** The database after [INSERT INTO user]: the row appended under the next rowid. *)
Definition add_user (d : db) (t : table) (r : row) : db :=
  mk_db (set_table (db_tables d) "user" (with_rows t (tbl_rows t ++ [(next_rowid t, r)])))
        (next_rowid t).

(** [user_table_ok] as a test, for concrete databases. *)
Definition user_table_okb (d : db) (t : table) : bool :=
  bool_decide (find_table (db_tables d) "user" = Some t) && bool_decide (tbl_cols t = user_cols) &&
  bool_decide (tbl_key t = None) && bool_decide (tbl_unique t ⊆ ["username"]) && table_wfb t.

(** A database with an empty [user] table and an empty [book] table. *)
Definition empty_user_table : table := mk_table user_cols None [] [].

Definition demo_db : db := mk_db [("user", empty_user_table); ("book", empty_book_table)] 0.

(** The same database once ["alice"] has registered with password
    ["pw123"], under the model bcrypt and the salt ["salt0"]. *)
Definition alice_row : row :=
  user_row "alice" "Alice" (bcrypt_model_hash 10 "salt0" "pw123") "f" "NYC".

Definition alice_table : table := mk_table user_cols None [] [(1%Z, alice_row)].

Definition alice_db : db := mk_db [("user", alice_table); ("book", empty_book_table)] 1.

(** Salts for concrete runs: ["salt0"], ["salt1"], ... *)
Definition demo_salts (n : nat) : string := "salt" +:+ js_number_to_string (Z.of_nat n).

Definition demo_request (method path : string) (body : js_object) : request :=
  mk_request method path [] body [] [] JUndefined.

Definition alice_registration : request :=
  demo_request "POST" "/users/"
    [("username", JStr "alice"); ("name", JStr "Alice"); ("password", JStr "pw123");
     ("gender", JStr "f"); ("location", JStr "NYC")].

Definition alice_world : world := mk_world alice_db 1 0.

Definition login_with (u pw : string) : request :=
  demo_request "POST" "/login/" [("username", JStr u); ("password", JStr pw)].

(** A 73-character password: 72 times ["a"], then [c]. *)
Definition long_password (c : string) : string := String.concat "" (replicate 72 "a") +:+ c.

Definition long_row : row :=
  user_row "carol" "Carol" (bcrypt_model_hash 10 "salt0" (long_password "1")) "f" "LA".

Definition long_table : table := mk_table user_cols None [] [(1%Z, long_row)].

Definition long_world : world := mk_world (mk_db [("user", long_table)] 1) 1 0.

(** A username that closes the literal and adds a condition every row meets. *)
Definition injection_username : jsval := JStr "x' OR '1'='1".

(** For a quote-free username, the text [selectUserQuery] builds is
    parsed back to the SELECT of that username. *)
Lemma compile_selectUserQuery u :
  sql_safe u ->
  compile (selectUserQuery u) =
  Some (SSelect "user" (Some (EBin OpEq (ECol "username") (ELit (SText (js_to_string u))))) None None).
Proof.
  unfold sql_safe. intros Hu. unfold compile, lex, selectUserQuery. lex_pieces. reflexivity.
Qed.

(** For quote-free values, the text [createUserQuery] builds is parsed
    back to the INSERT of exactly those five values. *)
Lemma compile_createUserQuery u n h g l :
  sql_safe u -> sql_safe n -> has_char chr_quote h = false -> sql_safe g -> sql_safe l ->
  compile (createUserQuery u n h g l) =
  Some (SInsert "user" user_cols
          (map ELit [SText (js_to_string u); SText (js_to_string n); SText h;
                     SText (js_to_string g); SText (js_to_string l)])).
Proof.
  unfold sql_safe. intros Hu Hn Hh Hg Hl. unfold compile, lex, createUserQuery.
  lex_pieces. reflexivity.
Qed.

Lemma db_get_selectUserQuery d t u :
  user_table_ok d t -> sql_safe u ->
  db_get d (selectUserQuery u) = Ok (d, head (user_rows t (js_to_string u))).
Proof.
  intros (Ht & Hcols & _ & _ & Hwf) Hu. unfold db_get, db_exec.
  rewrite compile_selectUserQuery by done.
  rewrite (exec_select_eq d "user" t) by (done || by unfold has_col; rewrite Hcols).
  done.
Qed.

Lemma insert_values_user t a b c d e :
  tbl_cols t = user_cols ->
  insert_values t user_cols [a; b; c; d; e] =
  [("username", a); ("name", b); ("password", c); ("gender", d); ("location", e)].
Proof. intros Hc. unfold insert_values. by rewrite Hc. Qed.

(** A user row under a fresh username keeps the [UNIQUE] constraints. *)
Lemma user_unique_fresh t u r :
  table_wf t -> tbl_unique t ⊆ ["username"] -> user_rows t u = [] ->
  col_val r "username" = SText u ->
  unique_violation t (tbl_rows t ++ [(next_rowid t, r)]) = None.
Proof.
  intros (_ & _ & Hu) Hsub Hnone Hr. apply unique_violation_snoc; [done|].
  apply Forall_forall. intros c Hc.
  apply Hsub, list_elem_of_singleton in Hc. subst c.
  right. simpl. rewrite Hr. intros (y & Hy & Hin)%list_elem_of_fmap_1.
  unfold col_val in Hy. destruct (row_lookup y.2 "username") eqn:E; simplify_eq/=.
  assert (y.2 ∈ user_rows t u) as Hin'; [|by rewrite Hnone in Hin'; apply not_elem_of_nil in Hin'].
  apply list_elem_of_fmap_2, list_elem_of_filter. by rewrite E.
Qed.

(** [await db.run(createUserQuery)] when the new row keeps the [UNIQUE]
    constraints. *)
Lemma db_run_createUserQuery_ok d t u n h g l :
  user_table_ok d t -> sql_safe u -> sql_safe n -> has_char chr_quote h = false ->
  sql_safe g -> sql_safe l ->
  unique_violation t (tbl_rows t ++ [(next_rowid t, user_row (js_to_string u) (js_to_string n) h
                                                     (js_to_string g) (js_to_string l))]) = None ->
  db_run d (createUserQuery u n h g l) =
  Ok (add_user d t (user_row (js_to_string u) (js_to_string n) h (js_to_string g) (js_to_string l)),
      {| last_id := js_number_of_int (next_rowid t); changes := 1 |}).
Proof.
  intros (Ht & Hcols & Hkey & Huniq & Hwf) Hu Hn Hh Hg Hl Hnew.
  unfold db_run, db_exec. rewrite compile_createUserQuery by done.
  rewrite (exec_insert_lits d "user" t); [|done|done|done|by unfold missing_col, has_col; rewrite Hcols|].
  - by rewrite insert_values_user.
  - by rewrite insert_values_user.
Qed.

Lemma db_run_createUserQuery d t u n h g l :
  user_table_ok d t -> sql_safe u -> sql_safe n -> has_char chr_quote h = false ->
  sql_safe g -> sql_safe l -> user_rows t (js_to_string u) = [] ->
  db_run d (createUserQuery u n h g l) =
  Ok (add_user d t (user_row (js_to_string u) (js_to_string n) h (js_to_string g) (js_to_string l)),
      {| last_id := js_number_of_int (next_rowid t); changes := 1 |}).
Proof.
  intros Hok Hu Hn Hh Hg Hl Hfresh. apply db_run_createUserQuery_ok; try done.
  destruct Hok as (_ & _ & _ & Hsub & Hwf).
  by apply user_unique_fresh with (u := js_to_string u).
Qed.

(** Without a [UNIQUE] constraint the row is inserted even when the
    username is taken. *)
Lemma db_run_createUserQuery_nounique d t u n h g l :
  user_table_ok d t -> tbl_unique t = [] -> sql_safe u -> sql_safe n -> has_char chr_quote h = false ->
  sql_safe g -> sql_safe l ->
  db_run d (createUserQuery u n h g l) =
  Ok (add_user d t (user_row (js_to_string u) (js_to_string n) h (js_to_string g) (js_to_string l)),
      {| last_id := js_number_of_int (next_rowid t); changes := 1 |}).
Proof.
  intros Hok Hnone Hu Hn Hh Hg Hl. apply db_run_createUserQuery_ok; try done.
  unfold unique_violation. by rewrite Hnone.
Qed.

(** With [UNIQUE] on [username] the insert of a taken username is rejected. *)
Lemma db_run_createUserQuery_taken d t u n h g l r rs :
  user_table_ok d t -> tbl_unique t = ["username"] -> sql_safe u -> sql_safe n ->
  has_char chr_quote h = false -> sql_safe g -> sql_safe l ->
  user_rows t (js_to_string u) = r :: rs ->
  db_run d (createUserQuery u n h g l) = Err (ErrConstraint "username").
Proof.
  intros (Ht & Hcols & Hkey & _ & Hwf) Huniq Hu Hn Hh Hg Hl Hrows.
  unfold db_run, db_exec. rewrite compile_createUserQuery by done.
  rewrite (exec_insert_lits_violation d "user" t _ _ "username");
    [done|done|done|done|by unfold missing_col, has_col; rewrite Hcols|].
  assert (Hr : r ∈ user_rows t (js_to_string u)) by (rewrite Hrows; apply list_elem_of_here).
  apply list_elem_of_fmap_1 in Hr as (y & -> & Hy%list_elem_of_filter).
  rewrite insert_values_user by done.
  apply (unique_violation_dup t "username" [] _ _ y (SText (js_to_string u))); try done.
  - by apply Hy.
  - unfold col_val. by rewrite (proj1 Hy).
Qed.

Lemma user_table_okb_sound d t : user_table_okb d t = true -> user_table_ok d t.
Proof.
  unfold user_table_okb. intros H. repeat apply andb_prop in H as [H ?].
  repeat match goal with Hb : bool_decide _ = true |- _ => apply bool_decide_eq_true in Hb end.
  split_and!; auto using table_wfb_sound.
Qed.

Lemma user_rows_snoc t x u :
  user_rows (with_rows t (tbl_rows t ++ [x])) u =
  user_rows t u ++ (if bool_decide (row_lookup x.2 "username" = Some (SText u)) then [x.2] else []).
Proof.
  unfold user_rows. simpl. rewrite filter_app, map_app. f_equal.
  rewrite filter_cons, filter_nil. by case_decide; case_bool_decide.
Qed.

(** Adding a row for one username leaves the rows of the others. *)
Lemma user_rows_add_other t u n h g l u' :
  u <> u' ->
  user_rows (with_rows t (tbl_rows t ++ [(next_rowid t, user_row u n h g l)])) u' = user_rows t u'.
Proof.
  intros Hne. rewrite user_rows_snoc. simpl.
  rewrite bool_decide_eq_false_2; [apply app_nil_r|congruence].
Qed.

(** After registering a fresh username the table is still as the
    handlers need it, and the new row is that user's only row. *)
Lemma user_table_ok_add d t u n h g l :
  user_table_ok d t -> user_rows t u = [] ->
  user_table_ok (add_user d t (user_row u n h g l))
                (with_rows t (tbl_rows t ++ [(next_rowid t, user_row u n h g l)])) /\
  user_rows (with_rows t (tbl_rows t ++ [(next_rowid t, user_row u n h g l)])) u
  = [user_row u n h g l].
Proof.
  intros (Ht & Hcols & Hkey & Hsub & Hwf) Hnone. split.
  - split_and!; [by eapply find_set_table_eq|done|done|done|].
    apply table_wf_snoc; [done|by rewrite Hcols|].
    by apply user_unique_fresh with (u := u).
  - rewrite user_rows_snoc, Hnone. simpl. by rewrite bool_decide_eq_true_2.
Qed.

(** ** The handlers, run *)

(** The username closes the quote: the condition becomes
    [username = 'x' OR '1' = '1']. *)
Lemma compile_selectUserQuery_injection :
  compile (selectUserQuery injection_username) =
  Some (SSelect "user" (Some (EBin OpOr (EBin OpEq (ECol "username") (ELit (SText "x")))
                                        (EBin OpEq (ELit (SText "1")) (ELit (SText "1")))))
                None None).
Proof. vm_compute. reflexivity. Qed.

Lemma db_get_injection d t :
  user_table_ok d t -> db_get d (selectUserQuery injection_username) = Ok (d, head (map snd (tbl_rows t))).
Proof.
  intros (Ht & Hcols & _ & _ & Hwf). unfold db_get, db_exec.
  rewrite compile_selectUserQuery_injection. unfold exec. rewrite Ht. simpl.
  unfold check_cols, missing_col, has_col. rewrite Hcols. simpl.
  rewrite filter_rows_all; [done|].
  eapply Forall_impl; [apply (rows_have_col t "username" Hwf); unfold has_col; by rewrite Hcols|].
  intros x [v Hv]. eapply row_matches_or_true; [simpl; by rewrite Hv|reflexivity|reflexivity].
Qed.

Section Endpoints.
Context `{Bcrypt} `{Jwt}.
Variable salt_gen : nat -> string.

(** A registration of a free username, with the body's fields given:
    the hash of the password under the next salt is stored with the
    fields as the template literal writes them. *)
Lemma run_register_fresh w t req u n pw g l :
  user_table_ok (w_db w) t ->
  js_get (req_body req) "username" = u -> js_get (req_body req) "name" = n ->
  js_get (req_body req) "password" = JStr pw -> js_get (req_body req) "gender" = g ->
  js_get (req_body req) "location" = l ->
  sql_safe u -> sql_safe n -> sql_safe g -> sql_safe l -> user_rows t (js_to_string u) = [] ->
  run salt_gen w (userRegisterAPI req) =
  (mk_world (add_user (w_db w) t
               (user_row (js_to_string u) (js_to_string n) (bcrypt_hash 10 (salt_gen (w_salt w)) pw)
                         (js_to_string g) (js_to_string l)))
            (S (w_salt w)) (w_clock w),
   Sent (send (BText "User created successfully"))).
Proof.
  intros Hok Hu Hn Hpw Hg Hl Hsu Hsn Hsg Hsl Hfresh.
  unfold userRegisterAPI. rewrite Hu, Hn, Hpw, Hg, Hl. cbn [run].
  rewrite (db_get_selectUserQuery _ t), Hfresh by done. cbn [head run].
  by rewrite (db_run_createUserQuery _ t) by first [done | apply bcrypt_hash_no_quote].
Qed.

(** C8: Registering a free username: the password is hashed with the next
    salt, the row is appended, the client gets 200. *)
Lemma userRegisterAPI_fresh w t req pw :
  user_table_ok (w_db w) t ->
  js_get (req_body req) "password" = JStr pw ->
  sql_safe (js_get (req_body req) "username") -> sql_safe (js_get (req_body req) "name") ->
  sql_safe (js_get (req_body req) "gender") -> sql_safe (js_get (req_body req) "location") ->
  user_rows t (js_to_string (js_get (req_body req) "username")) = [] ->
  run salt_gen w (userRegisterAPI req) =
  (mk_world (add_user (w_db w) t
               (user_row (js_to_string (js_get (req_body req) "username"))
                         (js_to_string (js_get (req_body req) "name"))
                         (bcrypt_hash 10 (salt_gen (w_salt w)) pw)
                         (js_to_string (js_get (req_body req) "gender"))
                         (js_to_string (js_get (req_body req) "location"))))
            (S (w_salt w)) (w_clock w),
   Sent (send (BText "User created successfully"))).
Proof. intros Hok Hpw Hu Hn Hg Hl Hfresh. by apply run_register_fresh. Qed.

(** C5: Registering a taken username: 400, and the table is unchanged (the
    hash was computed first, so a salt was drawn). *)
Lemma userRegisterAPI_taken w t req pw r rs :
  user_table_ok (w_db w) t ->
  js_get (req_body req) "password" = JStr pw ->
  sql_safe (js_get (req_body req) "username") ->
  user_rows t (js_to_string (js_get (req_body req) "username")) = r :: rs ->
  run salt_gen w (userRegisterAPI req) = (next_salt w, Sent (send_status 400 "User already exists")).
Proof.
  intros Hok Hpw Hu Htaken. unfold userRegisterAPI. rewrite Hpw. cbn [run].
  rewrite (db_get_selectUserQuery _ t), Htaken by done. cbn [head run].
  by rewrite with_db_id.
Qed.

(** A username with no row: 400 "Invalid User", nothing changes. *)
Lemma userLoginAPI_unknown w t req :
  user_table_ok (w_db w) t -> sql_safe (js_get (req_body req) "username") ->
  user_rows t (js_to_string (js_get (req_body req) "username")) = [] ->
  run salt_gen w (userLoginAPI req) = (w, Sent (send_status 400 "Invalid User")).
Proof.
  intros Hok Hu Hnone. unfold userLoginAPI. cbn [run].
  rewrite (db_get_selectUserQuery _ t), Hnone by done. cbn [head run].
  by rewrite with_db_id.
Qed.

(** A known user: the outcome is decided by [bcrypt.compare] against the
    first row's hash. *)
Lemma userLoginAPI_known w t req r rs pw h :
  user_table_ok (w_db w) t -> sql_safe (js_get (req_body req) "username") ->
  user_rows t (js_to_string (js_get (req_body req) "username")) = r :: rs ->
  js_get (req_body req) "password" = JStr pw -> row_get r "password" = JStr h ->
  run salt_gen w (userLoginAPI req) =
  (w, Sent (if bcrypt_compare pw h
            then send (BObj [("jwtToken", JStr (jwt_sign (login_claims (js_get (req_body req) "username")
                                                                       (w_clock w)) jwt_secret))])
            else send_status 400 "Invalid Password")).
Proof.
  intros Hok Hu Hrows Hpw Hh. unfold userLoginAPI. cbn [run].
  rewrite (db_get_selectUserQuery _ t), Hrows by done. cbn [head run].
  rewrite Hpw, Hh. cbn [run]. rewrite with_db_id. by destruct (bcrypt_compare pw h).
Qed.
(** C4: A known user and a password whose 72-byte key differs from the
    registered one: 400 "Invalid Password", never "Invalid User". *)
Lemma userLoginAPI_wrong_password w t req r rs salt pw pw' :
  user_table_ok (w_db w) t -> sql_safe (js_get (req_body req) "username") ->
  user_rows t (js_to_string (js_get (req_body req) "username")) = r :: rs ->
  row_get r "password" = JStr (bcrypt_hash 10 salt pw) ->
  js_get (req_body req) "password" = JStr pw' -> bcrypt_key pw' <> bcrypt_key pw ->
  run salt_gen w (userLoginAPI req) = (w, Sent (send_status 400 "Invalid Password")).
Proof.
  intros Hok Hu Hrows Hh Hpw Hkey.
  rewrite (userLoginAPI_known w t req r rs pw' _ Hok Hu Hrows Hpw Hh), bcrypt_compare_hash.
  by rewrite (proj2 (String.eqb_neq _ _) Hkey).
Qed.

(** C39: bcrypt reads only the first 72 bytes: a password that agrees with
    the registered one on them logs in, whatever follows. *)
Lemma userLoginAPI_same_key w t req r rs salt pw pw' :
  user_table_ok (w_db w) t -> sql_safe (js_get (req_body req) "username") ->
  user_rows t (js_to_string (js_get (req_body req) "username")) = r :: rs ->
  row_get r "password" = JStr (bcrypt_hash 10 salt pw) ->
  js_get (req_body req) "password" = JStr pw' -> bcrypt_key pw' = bcrypt_key pw ->
  run salt_gen w (userLoginAPI req) =
  (w, Sent (send (BObj [("jwtToken", JStr (jwt_sign (login_claims (js_get (req_body req) "username")
                                                                  (w_clock w)) jwt_secret))]))).
Proof.
  intros Hok Hu Hrows Hh Hpw Hkey.
  rewrite (userLoginAPI_known w t req r rs pw' _ Hok Hu Hrows Hpw Hh), bcrypt_compare_hash.
  by rewrite Hkey, String.eqb_refl.
Qed.

(** The profile is the first row of the user the token names. *)
Lemma getProfile_row w t req :
  user_table_ok (w_db w) t -> sql_safe (req_username req) ->
  run salt_gen w (getProfile req) =
  (w, Sent (send (BRow (head (user_rows t (js_to_string (req_username req))))))).
Proof.
  intros Hok Hu. unfold getProfile. cbn [run].
  rewrite (db_get_selectUserQuery _ t) by done. cbn [run]. by rewrite with_db_id.
Qed.
(** C40: A registration without [name], [gender] or [location] is not
    refused: the template literal turns each absent field into the text
    ["undefined"], which is stored as the user's profile. *)
Lemma userRegisterAPI_missing_fields w t req pw :
  user_table_ok (w_db w) t -> js_get (req_body req) "password" = JStr pw ->
  sql_safe (js_get (req_body req) "username") ->
  user_rows t (js_to_string (js_get (req_body req) "username")) = [] ->
  js_get (req_body req) "name" = JUndefined -> js_get (req_body req) "gender" = JUndefined ->
  js_get (req_body req) "location" = JUndefined ->
  run salt_gen w (userRegisterAPI req) =
  (mk_world (add_user (w_db w) t
               (user_row (js_to_string (js_get (req_body req) "username")) "undefined"
                         (bcrypt_hash 10 (salt_gen (w_salt w)) pw) "undefined" "undefined"))
            (S (w_salt w)) (w_clock w),
   Sent (send (BText "User created successfully"))).
Proof.
  intros Hok Hpw Hu Hfresh Hn Hg Hl.
  by rewrite (run_register_fresh w t req (js_get (req_body req) "username") JUndefined pw
                JUndefined JUndefined).
Qed.

(** A registration whose [password] is not a string: [bcrypt.hash]
    rejects before the username is looked at, the rejection is not
    caught, and no response is sent, even when the username is taken. *)
Lemma userRegisterAPI_no_password w req :
  (forall pw, js_get (req_body req) "password" <> JStr pw) ->
  run salt_gen w (userRegisterAPI req) = (w, Rejected RejBcrypt).
Proof.
  intros Hpw. unfold userRegisterAPI. cbn [run].
  destruct (js_get (req_body req) "password"); [done..|]. by destruct (Hpw s).
Qed.

(** The injected username logs in as the first user of the table, with
    that user's password, and the token names the injected text. *)
Lemma userLoginAPI_injection w t req i r rs salt pw :
  user_table_ok (w_db w) t -> tbl_rows t = (i, r) :: rs ->
  row_get r "password" = JStr (bcrypt_hash 10 salt pw) ->
  js_get (req_body req) "username" = injection_username -> js_get (req_body req) "password" = JStr pw ->
  run salt_gen w (userLoginAPI req) =
  (w, Sent (send (BObj [("jwtToken", JStr (jwt_sign (login_claims injection_username (w_clock w))
                                                    jwt_secret))]))).
Proof.
  intros Hok Hrows Hh Hu Hpw. unfold userLoginAPI. cbn [run]. rewrite Hu.
  rewrite (db_get_injection _ t), Hrows by done. cbn [head run map snd]. rewrite Hpw, Hh. cbn [run].
  by rewrite with_db_id, bcrypt_compare_hash, String.eqb_refl.
Qed.

(** A token for the injected username shows the first user's profile. *)
Lemma getProfile_injection w t req i r rs :
  user_table_ok (w_db w) t -> tbl_rows t = (i, r) :: rs -> req_username req = injection_username ->
  run salt_gen w (getProfile req) = (w, Sent (send (BRow (Some r)))).
Proof.
  intros Hok Hrows Hu. unfold getProfile. rewrite Hu. cbn [run].
  rewrite (db_get_injection _ t), Hrows by done. cbn [head run map snd]. by rewrite with_db_id.
Qed.
End Endpoints.

(** ** Witnesses *)

#[local] Existing Instance bcrypt_model.
#[local] Existing Instance jwt_model.

Lemma userRegisterAPI_fresh_witness :
  user_table_ok demo_db empty_user_table /\
  run demo_salts (mk_world demo_db 0 0) (userRegisterAPI alice_registration)
  = (mk_world (add_user demo_db empty_user_table
                 (user_row (js_to_string (js_get (req_body alice_registration) "username"))
                           (js_to_string (js_get (req_body alice_registration) "name"))
                           (bcrypt_hash 10 (demo_salts 0) "pw123")
                           (js_to_string (js_get (req_body alice_registration) "gender"))
                           (js_to_string (js_get (req_body alice_registration) "location"))))
              1 0,
     Sent (send (BText "User created successfully"))).
Proof.
  assert (Hok : user_table_ok demo_db empty_user_table)
    by (apply user_table_okb_sound; vm_compute; reflexivity).
  split; [exact Hok|].
  apply (userRegisterAPI_fresh demo_salts (mk_world demo_db 0 0) empty_user_table
           alice_registration "pw123" Hok); vm_compute; reflexivity.
Defined.

Lemma userRegisterAPI_taken_witness :
  user_rows alice_table "alice" = [alice_row] /\
  run demo_salts alice_world (userRegisterAPI alice_registration)
  = (next_salt alice_world, Sent (send_status 400 "User already exists")).
Proof.
  split; [vm_compute; reflexivity|].
  apply (userRegisterAPI_taken demo_salts alice_world alice_table alice_registration "pw123"
           alice_row []); [apply user_table_okb_sound| | |]; vm_compute; reflexivity.
Defined.

Lemma userLoginAPI_unknown_witness :
  user_rows alice_table "bob" = [] /\
  run demo_salts alice_world (userLoginAPI (login_with "bob" "pw123"))
  = (alice_world, Sent (send_status 400 "Invalid User")).
Proof.
  split; [vm_compute; reflexivity|].
  apply (userLoginAPI_unknown demo_salts alice_world alice_table); [apply user_table_okb_sound| |];
    vm_compute; reflexivity.
Defined.

Lemma userLoginAPI_wrong_password_witness :
  bcrypt_key "wrong" <> bcrypt_key "pw123" /\
  run demo_salts alice_world (userLoginAPI (login_with "alice" "wrong"))
  = (alice_world, Sent (send_status 400 "Invalid Password")).
Proof.
  split; [vm_compute; discriminate|].
  apply (userLoginAPI_wrong_password demo_salts alice_world alice_table _ alice_row [] "salt0" "pw123" "wrong");
    [apply user_table_okb_sound; vm_compute; reflexivity | vm_compute; reflexivity ..| vm_compute; discriminate].
Defined.

Lemma userLoginAPI_same_key_witness :
  long_password "2" <> long_password "1" /\
  run demo_salts long_world (userLoginAPI (login_with "carol" (long_password "2")))
  = (long_world, Sent (send (BObj [("jwtToken", JStr (jwt_sign (login_claims
        (js_get (req_body (login_with "carol" (long_password "2"))) "username") (w_clock long_world))
        jwt_secret))]))).
Proof.
  split; [vm_compute; discriminate|].
  apply (userLoginAPI_same_key demo_salts long_world long_table _ long_row [] "salt0"
           (long_password "1") (long_password "2"));
    [apply user_table_okb_sound|..]; vm_compute; reflexivity.
Defined.

Lemma getProfile_row_witness :
  run demo_salts alice_world
      (getProfile (mk_request "GET" "/profile/" [] [] [] [] (JStr "alice")))
  = (alice_world, Sent (send (BRow (Some alice_row)))).
Proof.
  apply (getProfile_row demo_salts alice_world alice_table
           (mk_request "GET" "/profile/" [] [] [] [] (JStr "alice")));
    [apply user_table_okb_sound|]; vm_compute; reflexivity.
Defined.

Lemma compile_selectUserQuery_witness :
  sql_safe (JStr "alice") /\
  compile (selectUserQuery (JStr "alice"))
  = Some (SSelect "user" (Some (EBin OpEq (ECol "username") (ELit (SText "alice")))) None None).
Proof.
  split; [vm_compute; reflexivity|]. apply compile_selectUserQuery. vm_compute. reflexivity.
Defined.

Lemma compile_createUserQuery_witness :
  compile (createUserQuery (JStr "alice") (JStr "Alice") "h" (JStr "f") (JStr "NYC"))
  = Some (SInsert "user" user_cols (map ELit [SText "alice"; SText "Alice"; SText "h";
                                              SText "f"; SText "NYC"])).
Proof. apply compile_createUserQuery; vm_compute; reflexivity. Defined.

Lemma user_table_ok_add_witness :
  user_table_ok (add_user demo_db empty_user_table (user_row "alice" "Alice" "h" "f" "NYC"))
                (with_rows empty_user_table
                   (tbl_rows empty_user_table ++
                    [(next_rowid empty_user_table, user_row "alice" "Alice" "h" "f" "NYC")])) /\
  user_rows (with_rows empty_user_table
               (tbl_rows empty_user_table ++
                [(next_rowid empty_user_table, user_row "alice" "Alice" "h" "f" "NYC")])) "alice"
  = [user_row "alice" "Alice" "h" "f" "NYC"].
Proof.
  apply user_table_ok_add; [apply user_table_okb_sound|]; vm_compute; reflexivity.
Defined.

Lemma userRegisterAPI_no_password_witness :
  run demo_salts alice_world
      (userRegisterAPI (demo_request "POST" "/users/" [("username", JStr "alice"); ("name", JStr "A")]))
  = (alice_world, Rejected RejBcrypt).
Proof. apply userRegisterAPI_no_password. discriminate. Defined.

Lemma userRegisterAPI_missing_fields_witness :
  run demo_salts (mk_world demo_db 0 0)
      (userRegisterAPI (demo_request "POST" "/users/" [("username", JStr "eve"); ("password", JStr "pw")]))
  = (mk_world (add_user demo_db empty_user_table
                 (user_row (js_to_string (js_get (req_body (demo_request "POST" "/users/"
                              [("username", JStr "eve"); ("password", JStr "pw")])) "username"))
                           "undefined" (bcrypt_hash 10 (demo_salts 0) "pw") "undefined" "undefined"))
              1 0,
     Sent (send (BText "User created successfully"))).
Proof.
  apply (userRegisterAPI_missing_fields demo_salts (mk_world demo_db 0 0) empty_user_table _ "pw");
    [apply user_table_okb_sound|..]; vm_compute; reflexivity.
Defined.
