(* ===== verification/Server.v ===== *)
(** * The Express application: routes, middleware chains, dispatch

    [app_routes] lists the ten routes of src/index.js in the order they are
    registered; Express tries them in that order and the first whose
    method and path match handles the request. A route runs its
    middleware ([authenticateToken] for all but register and login) and
    then its handler. [serve] is one request from arrival to its outcome,
    with no other request interleaved; [serve_all] serves a list of them
    in order. Paths follow Express's default matching (path-to-regexp,
    not strict, not case-sensitive): a trailing slash is optional and
    [:name] matches one non-empty segment. A path is taken as Express
    hands it to the router, already percent-decoded.

    Theorems: the gate ([app_gate], spec section 4.1) on every route
    after register and login; the spec's register-login-authorize
    scenario for every fresh username ([register_login_authenticate]);
    salting ([register_twice_salted]); the dead filtered route
    ([getBooksWithFilters_unreachable]); the login injection end to end
    ([login_injection_profile]); tokens minted with the literal secret
    ([forged_token_delete], [forged_token_wipe]); and the invariant that
    any sequence of requests keeps every table well formed
    ([serve_all_db_wf]). *)

From S2P Require Import Prelude Js Crypto CryptoModel Sql Db Http Auth Users Books.

(** ** Paths *)

Inductive seg : Type :=
| Lit (s : string)       (** a literal segment *)
| Param (name : string). (** [:name] *)

(** The segments of a route path: ["/books/:bookId/"] is [Lit "books"; Param "bookId"]. *)
Definition pattern_of (path : string) : list seg :=
  (fun s => match s with String ":" n => Param n | _ => Lit s end)
    <$> filter (fun s => s <> "") (split_on chr_slash path).

(** The segments of a request path: a leading slash, an optional trailing one. *)
Definition path_segments (path : string) : option (list string) :=
  match split_on chr_slash path with
  | "" :: segs =>
      Some (match last segs with Some "" => removelast segs | _ => segs end)
  | _ => None
  end.

Fixpoint match_segs (pat : list seg) (segs : list string) : option (list (string * string)) :=
  match pat, segs with
  | [], [] => Some []
  | Lit l :: pat', s :: segs' =>
      if String.eqb (string_upper l) (string_upper s) then match_segs pat' segs' else None
  | Param n :: pat', s :: segs' =>
      if String.eqb s "" then None else (fun ps => (n, s) :: ps) <$> match_segs pat' segs'
  | _, _ => None
  end.

Definition match_path (route_path req_path : string) : option (list (string * string)) :=
  path_segments req_path ≫= match_segs (pattern_of route_path).

(** ** Routes *)

Record route : Type := mk_route {
  rt_method : string;
  rt_path : string;
  rt_mws : list (request -> mw_result);
  rt_handler : request -> prog;
}.

Section App.
Context `{Jwt}.

Definition app_routes : list route := [
  mk_route "POST" "/users/" [] userRegisterAPI;
  mk_route "POST" "/login/" [] userLoginAPI;
  mk_route "GET" "/profile/" [authenticateToken] getProfile;
  mk_route "GET" "/books/" [authenticateToken] getBooksAPI;
  mk_route "GET" "/books/" [authenticateToken] getBooksWithFiltersAPI;
  mk_route "GET" "/books/:bookId/" [authenticateToken] getBookAPI;
  mk_route "POST" "/books/" [authenticateToken] addBookAPI;
  mk_route "PUT" "/books/:bookId/" [authenticateToken] updateBookAPI;
  mk_route "DELETE" "/books/:bookId/" [authenticateToken] deleteBookAPI;
  mk_route "GET" "/authors/:authorId/books/" [authenticateToken] getAuthorBooksAPI
].
End App.

Definition route_match (rt : route) (req : request) : option (list (string * string)) :=
  if String.eqb (rt_method rt) (req_method req) then match_path (rt_path rt) (req_path req) else None.

(** The first route that matches, with its position and parameters. *)
Fixpoint select_route (routes : list route) (req : request) : option (nat * route * list (string * string)) :=
  match routes with
  | [] => None
  | rt :: rs =>
      match route_match rt req with
      | Some ps => Some (0, rt, ps)
      | None => (fun '(i, r, ps) => (S i, r, ps)) <$> select_route rs req
      end
  end.

Definition set_params (req : request) (ps : list (string * string)) : request :=
  mk_request (req_method req) (req_path req) (req_headers req) (req_body req)
             (req_query req) ps (req_username req).

(** The middleware in order, then the handler; a middleware that answers
    ends the chain. *)
Fixpoint run_chain (mws : list (request -> mw_result)) (h : request -> prog) (req : request) : prog :=
  match mws with
  | [] => h req
  | m :: ms =>
      match m req with
      | MwSend r => PSend r
      | MwNext req' => run_chain ms h req'
      end
  end.

(** Express's final handler when no route matches. *)
Definition not_found (req : request) : response :=
  mk_response 404 (BText ("Cannot " +:+ req_method req +:+ " " +:+ req_path req)).

(** A request as it arrives: no parameters yet, no username. *)
Definition http_request (method path : string) (headers : list (string * string))
    (body : js_object) : request :=
  mk_request method path headers body [] [] JUndefined.

(** The bodies the spec's scenario sends (spec, section 8). *)
Definition register_request (headers : list (string * string)) (u : string) (name : jsval)
    (pw : string) (gender location : jsval) : request :=
  http_request "POST" "/users/" headers
    [("username", JStr u); ("name", name); ("password", JStr pw);
     ("gender", gender); ("location", location)].

Definition login_request (headers : list (string * string)) (u pw : string) : request :=
  http_request "POST" "/login/" headers [("username", JStr u); ("password", JStr pw)].

(** Claims for a username no user has: anyone can sign them with the
    literal secret. *)
Definition mallory_claims : claims := {| claim_username := JStr "mallory"; claim_iat := 0 |}.

Section Serve.
Context `{Bcrypt} `{Jwt}.
Variable salt_gen : nat -> string.

Definition app (req : request) : prog :=
  match select_route app_routes req with
  | Some (_, rt, ps) => run_chain (rt_mws rt) (rt_handler rt) (set_params req ps)
  | None => PSend (not_found req)
  end.

(** One request, from arrival to outcome. *)
Definition serve (w : world) (req : request) : world * outcome := run salt_gen w (app req).

(** Requests one after the other, each run to its end. *)
Fixpoint serve_all (w : world) (reqs : list request) : world * list outcome :=
  match reqs with
  | [] => (w, [])
  | r :: rs => let '(w1, o) := serve w r in let '(w2, os) := serve_all w1 rs in (w2, o :: os)
  end.
End Serve.

(** ** Routing lemmas *)

(** [/books/<s>/] for a segment [s] without a slash. *)
Lemma path_segments_books s :
  has_char chr_slash s = false -> path_segments ("/books/" +:+ s +:+ "/") = Some ["books"; s].
Proof.
  intros Hs. unfold path_segments.
  change ("/books/" +:+ s +:+ "/") with
    ("" +:+ String chr_slash ("books" +:+ String chr_slash (s +:+ String chr_slash ""))).
  rewrite !split_on_app_sep by done. reflexivity.
Qed.

Lemma select_route_Some routes req i rt ps :
  select_route routes req = Some (i, rt, ps) ->
  routes !! i = Some rt /\ route_match rt req = Some ps /\
  (forall j rt', (j < i)%nat -> routes !! j = Some rt' -> route_match rt' req = None).
Proof.
  revert i. induction routes as [|r rs IH]; intros i H; simpl in H; [done|].
  destruct (route_match r req) eqn:E.
  - injection H as <- <- <-. split_and!; [done|done|lia].
  - destruct (select_route rs req) as [[[i' rt'] ps']|] eqn:E2; simpl in H; [|done].
    injection H as <- <- <-. destruct (IH i' eq_refl) as (Hrt & Hm & Hb).
    split_and!; [done|done|]. intros [|j] r' Hj Hr'; simpl in Hr'; [by simplify_eq|].
    apply (Hb j); [lia|done].
Qed.

(** What holds of every response and of the handler holds of the chain. *)
Lemma run_chain_forall (P : prog -> Prop) mws h req :
  (forall r, P (PSend r)) -> (forall r, P (h r)) -> P (run_chain mws h req).
Proof.
  intros Hs Hh. revert req. induction mws as [|m ms IH]; intros req; simpl; [done|].
  by destruct (m req).
Qed.

(** What holds of every response and of every handler of the route table
    holds of what [app] runs, for every request. *)
Lemma app_forall `{Jwt} (P : prog -> Prop) req :
  (forall r, P (PSend r)) -> Forall (fun rt => forall r, P (rt_handler rt r)) app_routes ->
  P (app req).
Proof.
  intros Hs Hr. unfold app. destruct (select_route app_routes req) as [[[i rt] ps]|] eqn:E; [|done].
  apply select_route_Some in E as (Hi & _ & _). apply run_chain_forall; [done|].
  by apply (Forall_lookup_1 _ _ _ _ Hr Hi).
Qed.

Section Gate.
Context `{Bcrypt} `{Jwt}.
Variable salt_gen : nat -> string.

(** Every route after register and login runs [authenticateToken] first. *)
Lemma app_routes_protected i rt :
  (2 <= i)%nat -> app_routes !! i = Some rt -> rt_mws rt = [authenticateToken].
Proof.
  intros Hi Hrt.
  do 10 (destruct i as [|i]; [simpl in Hrt; first [lia | by injection Hrt as <-]|]).
  done.
Qed.

Lemma authenticateToken_params req ps r :
  authenticateToken req = MwSend r -> authenticateToken (set_params req ps) = MwSend r.
Proof.
  unfold authenticateToken, bearer_token, header_get. simpl.
  destruct (assoc_get (req_headers req) "authorization"); [|done].
  destruct (split_on chr_space s !! 1); [|done].
  by destruct (jwt_verify s0 jwt_secret).
Qed.

Lemma app_register headers body :
  app (http_request "POST" "/users/" headers body)
  = userRegisterAPI (set_params (http_request "POST" "/users/" headers body) []).
Proof. reflexivity. Qed.

Lemma app_login headers body :
  app (http_request "POST" "/login/" headers body)
  = userLoginAPI (set_params (http_request "POST" "/login/" headers body) []).
Proof. reflexivity. Qed.

(** Logging in with the password a user's first row was hashed from
    answers a token for that username. *)
Lemma serve_login_hashed w t hs u pw r rs salt :
  user_table_ok (w_db w) t -> has_char chr_quote u = false -> user_rows t u = r :: rs ->
  row_get r "password" = JStr (bcrypt_hash 10 salt pw) ->
  serve salt_gen w (login_request hs u pw) =
  (w, Sent (send (BObj [("jwtToken", JStr (jwt_sign (login_claims (JStr u) (w_clock w)) jwt_secret))]))).
Proof.
  intros Hok Hu Hr Hh. unfold serve, login_request. rewrite app_login.
  rewrite (userLoginAPI_known salt_gen w t _ r rs pw (bcrypt_hash 10 salt pw)); [|done..].
  by rewrite bcrypt_compare_hash, String.eqb_refl.
Qed.

Lemma app_profile headers :
  app (http_request "GET" "/profile/" headers [])
  = run_chain [authenticateToken] getProfile (set_params (http_request "GET" "/profile/" headers []) []).
Proof. reflexivity. Qed.

(** [DELETE /books/<s>/] reaches [deleteBookAPI] behind the middleware,
    with [s] as [bookId]: no earlier route has the method [DELETE]. *)
Lemma app_deleteBook s headers :
  has_char chr_slash s = false -> s <> "" ->
  app (http_request "DELETE" ("/books/" +:+ s +:+ "/") headers []) =
  run_chain [authenticateToken] deleteBookAPI
    (set_params (http_request "DELETE" ("/books/" +:+ s +:+ "/") headers []) [("bookId", s)]).
Proof.
  intros Hs Hne. unfold app, select_route, app_routes, route_match, match_path, http_request.
  cbn [req_path req_method rt_path rt_method]. rewrite path_segments_books by done. simpl.
  rewrite (proj2 (String.eqb_neq s "") Hne). reflexivity.
Qed.

(** [GET /books/<s>/] and [PUT /books/<s>/] reach [getBookAPI] and
    [updateBookAPI] behind the middleware, with [s] as [bookId]: the
    earlier [GET /books/] routes have one path segment. *)
Lemma app_getBook s headers :
  has_char chr_slash s = false -> s <> "" ->
  app (http_request "GET" ("/books/" +:+ s +:+ "/") headers []) =
  run_chain [authenticateToken] getBookAPI
    (set_params (http_request "GET" ("/books/" +:+ s +:+ "/") headers []) [("bookId", s)]).
Proof.
  intros Hs Hne. unfold app, select_route, app_routes, route_match, match_path, http_request.
  cbn [req_path req_method rt_path rt_method]. rewrite path_segments_books by done. simpl.
  rewrite (proj2 (String.eqb_neq s "") Hne). reflexivity.
Qed.

Lemma app_updateBook s headers body :
  has_char chr_slash s = false -> s <> "" ->
  app (http_request "PUT" ("/books/" +:+ s +:+ "/") headers body) =
  run_chain [authenticateToken] updateBookAPI
    (set_params (http_request "PUT" ("/books/" +:+ s +:+ "/") headers body) [("bookId", s)]).
Proof.
  intros Hs Hne. unfold app, select_route, app_routes, route_match, match_path, http_request.
  cbn [req_path req_method rt_path rt_method]. rewrite path_segments_books by done. simpl.
  rewrite (proj2 (String.eqb_neq s "") Hne). reflexivity.
Qed.

Lemma app_addBook headers body :
  app (http_request "POST" "/books/" headers body)
  = run_chain [authenticateToken] addBookAPI (set_params (http_request "POST" "/books/" headers body) []).
Proof. reflexivity. Qed.

(** A request carrying [Bearer <jwt_sign c secret>], for any claims [c],
    passes the middleware under [c]'s username. *)
Lemma run_chain_forged c h req ps :
  header_get req "authorization" = Some ("Bearer " +:+ jwt_sign c jwt_secret) ->
  run_chain [authenticateToken] h (set_params req ps) =
  h (set_username (set_params req ps) (claim_username c)).
Proof.
  intros Hh. cbn [run_chain].
  rewrite (authenticateToken_verified _ (jwt_sign c jwt_secret) c);
    [done| |apply jwt_verify_sign].
  apply (bearer_token_scheme _ "Bearer"); [exact Hh|done|apply jwt_sign_no_space].
Qed.

(** C1: The gate contract (spec, section 4.1): on every protected route, a
    request that [authorize] rejects gets 401 "Invalid JWT Token" and the
    world is left as it was: no statement runs, no salt is drawn. *)
Theorem app_gate w req i rt ps e :
  select_route app_routes req = Some (i, rt, ps) -> (2 <= i)%nat ->
  authorize (header_get req "authorization") = Err e ->
  serve salt_gen w req = (w, Sent invalid_jwt).
Proof.
  intros Hsel Hi He. pose proof (authenticateToken_rejects req e He) as Hauth.
  unfold serve, app. rewrite Hsel.
  apply select_route_Some in Hsel as (Hrt & _ & _).
  rewrite (app_routes_protected i rt Hi Hrt). simpl.
  by rewrite (authenticateToken_params req ps invalid_jwt Hauth).
Qed.

(** C9: The filtered, paginated book list is never served: the route of
    line 134 has the same method and path as the route of line 121,
    which Express tries first and which always answers. *)
Theorem getBooksWithFilters_unreachable req rt ps :
  select_route app_routes req <> Some (4%nat, rt, ps).
Proof.
  intros (Hrt & Hm & Hb)%select_route_Some. simpl in Hrt. injection Hrt as <-.
  specialize (Hb 3%nat _ ltac:(lia) eq_refl). unfold route_match in *. simpl in *.
  congruence.
Qed.

(** C2: The spec's central scenario, for every fresh username: registering
    succeeds, logging in with the same password returns a token, and the
    token, presented as [Bearer <token>], authenticates as that user. *)
Theorem register_login_authenticate w t headers1 headers2 u pw name gender location :
  user_table_ok (w_db w) t -> user_rows t u = [] ->
  has_char chr_quote u = false -> sql_safe name -> sql_safe gender -> sql_safe location ->
  let tok := jwt_sign (login_claims (JStr u) (w_clock w)) jwt_secret in
  exists w1,
    serve salt_gen w (register_request headers1 u name pw gender location)
    = (w1, Sent (send (BText "User created successfully"))) /\
    serve salt_gen w1 (login_request headers2 u pw) = (w1, Sent (send (BObj [("jwtToken", JStr tok)]))) /\
    (forall req, header_get req "authorization" = Some ("Bearer " +:+ tok) ->
                 authenticateToken req = MwNext (set_username req (JStr u))).
Proof.
  intros Hok Hnone Hu Hn Hg Hl tok.
  set (h := bcrypt_hash 10 (salt_gen (w_salt w)) pw).
  destruct (user_table_ok_add (w_db w) t u (js_to_string name) h (js_to_string gender)
              (js_to_string location) Hok Hnone) as [Hok1 Hrows1].
  set (w1 := mk_world (add_user (w_db w) t (user_row u (js_to_string name) h (js_to_string gender)
                                               (js_to_string location)))
                      (S (w_salt w)) (w_clock w)).
  exists w1. split_and!.
  - unfold serve, register_request. rewrite app_register.
    by rewrite (run_register_fresh salt_gen w t _ (JStr u) name pw gender location).
  - by eapply serve_login_hashed; [exact Hok1|done|exact Hrows1|].
  - intros req Hh. apply (authenticateToken_verified req tok (login_claims (JStr u) (w_clock w)));
      [apply (bearer_token_scheme req "Bearer"); [exact Hh|done|apply jwt_sign_no_space]
      | apply jwt_verify_sign].
Qed.
(** C10: The injection, end to end: with the username [x' OR '1'='1] and the
    first user's password, anyone logs in, and the token they get shows
    the first user's profile. *)
Theorem login_injection_profile w t i r rs salt pw headers :
  user_table_ok (w_db w) t -> tbl_rows t = (i, r) :: rs ->
  row_get r "password" = JStr (bcrypt_hash 10 salt pw) ->
  let tok := jwt_sign (login_claims injection_username (w_clock w)) jwt_secret in
  serve salt_gen w (http_request "POST" "/login/" headers
                      [("username", injection_username); ("password", JStr pw)])
  = (w, Sent (send (BObj [("jwtToken", JStr tok)]))) /\
  serve salt_gen w (http_request "GET" "/profile/" [("authorization", "Bearer " +:+ tok)] [])
  = (w, Sent (send (BRow (Some r)))).
Proof.
  intros Hok Hrows Hh tok. split.
  - unfold serve. rewrite app_login.
    by apply (userLoginAPI_injection salt_gen w t _ i r rs salt pw).
  - unfold serve. rewrite app_profile. cbn [run_chain].
    rewrite (authenticateToken_verified _ tok (login_claims injection_username (w_clock w)));
      [|apply (bearer_token_scheme _ "Bearer"); [reflexivity|done|apply jwt_sign_no_space]
       |apply jwt_verify_sign].
    by apply (getProfile_injection salt_gen w t _ i r rs).
Qed.
(** C27: The literal secret lets anyone mint a token for any username, an
    existing user's or not, and such a token deletes any book by id. *)
Theorem forged_token_delete w t c n :
  book_table_ok (w_db w) t -> (0 <= n)%Z ->
  serve salt_gen w (http_request "DELETE" ("/books/" +:+ js_number_to_string n +:+ "/")
                      [("authorization", "Bearer " +:+ jwt_sign c jwt_secret)] [])
  = (with_db w (set_book_rows (w_db w) t
                  (filter (fun x => row_lookup x.2 "book_id" <> Some (SInt n)) (tbl_rows t))),
     Sent (send (BText "Book Deleted Successfully"))).
Proof.
  intros Hok Hn. unfold serve.
  rewrite app_deleteBook by (apply js_number_no_char || apply js_number_nonempty; simpl; lia).
  rewrite (run_chain_forged c) by reflexivity. unfold deleteBookAPI. cbn [run].
  replace (param_get _ "bookId") with (js_number_to_string n) by reflexivity.
  by rewrite (db_run_deleteBookQuery _ t).
Qed.

(** C13: One request, with a minted token and the id [1 OR 1=1], empties the
    book table. *)
Theorem forged_token_wipe w t c :
  book_table_ok (w_db w) t ->
  serve salt_gen w (http_request "DELETE" ("/books/" +:+ injection_id +:+ "/")
                      [("authorization", "Bearer " +:+ jwt_sign c jwt_secret)] [])
  = (with_db w (set_book_rows (w_db w) t []), Sent (send (BText "Book Deleted Successfully"))).
Proof.
  intros Hok. unfold serve. rewrite app_deleteBook by done.
  rewrite (run_chain_forged c) by reflexivity. unfold deleteBookAPI. cbn [run].
  replace (param_get _ "bookId") with injection_id by reflexivity.
  by rewrite (db_run_deleteBookQuery_injection _ t).
Qed.
(** C18: The spec's salting property (section 8): two users registering the
    same password store different hashes, provided bcrypt draws two
    different salts, and both log in with it. *)
Theorem register_twice_salted w t u1 u2 pw name gender location :
  user_table_ok (w_db w) t -> user_rows t u1 = [] -> user_rows t u2 = [] -> u1 <> u2 ->
  has_char chr_quote u1 = false -> has_char chr_quote u2 = false ->
  sql_safe name -> sql_safe gender -> sql_safe location ->
  salt_gen (w_salt w) <> salt_gen (S (w_salt w)) ->
  let w2 := (serve salt_gen (serve salt_gen w (register_request [] u1 name pw gender location)).1
                   (register_request [] u2 name pw gender location)).1 in
  exists t2 r1 r2,
    find_table (db_tables (w_db w2)) "user" = Some t2 /\
    user_rows t2 u1 = [r1] /\ user_rows t2 u2 = [r2] /\
    row_get r1 "password" <> row_get r2 "password" /\
    serve salt_gen w2 (login_request [] u1 pw)
    = (w2, Sent (send (BObj [("jwtToken", JStr (jwt_sign (login_claims (JStr u1) (w_clock w))
                                                         jwt_secret))]))) /\
    serve salt_gen w2 (login_request [] u2 pw)
    = (w2, Sent (send (BObj [("jwtToken", JStr (jwt_sign (login_claims (JStr u2) (w_clock w))
                                                         jwt_secret))]))).
Proof.
  intros Hok Hn1 Hn2 Hne Hu1 Hu2 Hn Hg Hl Hsalt w2.
  set (h1 := bcrypt_hash 10 (salt_gen (w_salt w)) pw).
  set (h2 := bcrypt_hash 10 (salt_gen (S (w_salt w))) pw).
  set (r1 := user_row u1 (js_to_string name) h1 (js_to_string gender) (js_to_string location)).
  set (r2 := user_row u2 (js_to_string name) h2 (js_to_string gender) (js_to_string location)).
  set (t1 := with_rows t (tbl_rows t ++ [(next_rowid t, r1)])).
  set (t2 := with_rows t1 (tbl_rows t1 ++ [(next_rowid t1, r2)])).
  destruct (user_table_ok_add (w_db w) t u1 (js_to_string name) h1 (js_to_string gender)
              (js_to_string location) Hok Hn1) as [Hok1 Hr1].
  assert (Hn2' : user_rows t1 u2 = []) by (unfold t1, r1; by rewrite user_rows_add_other).
  destruct (user_table_ok_add _ t1 u2 (js_to_string name) h2 (js_to_string gender)
              (js_to_string location) Hok1 Hn2') as [Hok2 Hr2].
  assert (Hw2 : w2 = mk_world (add_user (add_user (w_db w) t r1) t1 r2) (S (S (w_salt w))) (w_clock w)).
  { unfold w2, serve, register_request. rewrite !app_register.
    rewrite (run_register_fresh salt_gen w t _ (JStr u1) name pw gender location) by done.
    by rewrite (run_register_fresh salt_gen _ t1 _ (JStr u2) name pw gender location) by done. }
  exists t2, r1, r2. rewrite Hw2. split_and!.
  - eapply find_set_table_eq, Hok1.
  - unfold t2, r2. by rewrite user_rows_add_other.
  - done.
  - intros [= Hh]. by apply Hsalt, (bcrypt_hash_salted 10 _ _ pw).
  - erewrite (serve_login_hashed _ t2 _ _ _ r1 []); [done|exact Hok2|done| |done].
    unfold t2, r2. by rewrite user_rows_add_other.
  - by erewrite (serve_login_hashed _ t2 _ _ _ r2 []); [|exact Hok2|done|exact Hr2|].
Qed.
End Gate.

(** ** Witnesses *)

#[local] Existing Instance bcrypt_model.
#[local] Existing Instance jwt_model.

Lemma app_gate_witness :
  authorize (header_get (http_request "GET" "/profile/" [] []) "authorization") = Err MissingToken /\
  serve demo_salts alice_world (http_request "GET" "/profile/" [] []) = (alice_world, Sent invalid_jwt).
Proof.
  split; [reflexivity|].
  apply (app_gate demo_salts alice_world _ 2 (mk_route "GET" "/profile/" [authenticateToken] getProfile)
           [] MissingToken); [reflexivity | lia | reflexivity].
Defined.

Lemma register_login_authenticate_witness :
  let tok := jwt_sign (login_claims (JStr "alice") (w_clock (mk_world demo_db 0 0))) jwt_secret in
  exists w1,
    serve demo_salts (mk_world demo_db 0 0)
          (register_request [] "alice" (JStr "Alice") "pw123" (JStr "f") (JStr "NYC"))
    = (w1, Sent (send (BText "User created successfully"))) /\
    serve demo_salts w1 (login_request [] "alice" "pw123")
    = (w1, Sent (send (BObj [("jwtToken", JStr tok)]))) /\
    (forall req, header_get req "authorization" = Some ("Bearer " +:+ tok) ->
                 authenticateToken req = MwNext (set_username req (JStr "alice"))).
Proof.
  apply (register_login_authenticate demo_salts (mk_world demo_db 0 0) empty_user_table [] []
           "alice" "pw123" (JStr "Alice") (JStr "f") (JStr "NYC"));
    [apply user_table_okb_sound|..]; vm_compute; reflexivity.
Defined.

Lemma login_injection_profile_witness :
  let tok := jwt_sign (login_claims injection_username (w_clock alice_world)) jwt_secret in
  serve demo_salts alice_world (http_request "POST" "/login/" []
                                  [("username", injection_username); ("password", JStr "pw123")])
  = (alice_world, Sent (send (BObj [("jwtToken", JStr tok)]))) /\
  serve demo_salts alice_world (http_request "GET" "/profile/" [("authorization", "Bearer " +:+ tok)] [])
  = (alice_world, Sent (send (BRow (Some alice_row)))).
Proof.
  apply (login_injection_profile demo_salts alice_world alice_table 1 alice_row [] "salt0" "pw123" []);
    [apply user_table_okb_sound; vm_compute | |]; reflexivity.
Defined.


Lemma forged_token_delete_witness :
  serve demo_salts books_world
        (http_request "DELETE" ("/books/" +:+ js_number_to_string 1 +:+ "/")
                      [("authorization", "Bearer " +:+ jwt_sign mallory_claims jwt_secret)] [])
  = (with_db books_world (set_book_rows books_db two_books
       (filter (fun x => row_lookup x.2 "book_id" <> Some (SInt 1)) (tbl_rows two_books))),
     Sent (send (BText "Book Deleted Successfully"))).
Proof.
  apply (forged_token_delete demo_salts books_world two_books mallory_claims 1);
    [apply book_table_okb_sound; vm_compute; reflexivity | lia].
Defined.

Lemma forged_token_wipe_witness :
  serve demo_salts books_world
        (http_request "DELETE" ("/books/" +:+ injection_id +:+ "/")
                      [("authorization", "Bearer " +:+ jwt_sign mallory_claims jwt_secret)] [])
  = (with_db books_world (set_book_rows books_db two_books []),
     Sent (send (BText "Book Deleted Successfully"))).
Proof.
  apply (forged_token_wipe demo_salts books_world two_books mallory_claims).
  apply book_table_okb_sound; vm_compute; reflexivity.
Defined.

Lemma register_twice_salted_witness :
  let w2 := (serve demo_salts
               (serve demo_salts (mk_world demo_db 0 0)
                  (register_request [] "alice" (JStr "A") "pw123" (JStr "f") (JStr "NYC"))).1
               (register_request [] "bob" (JStr "A") "pw123" (JStr "f") (JStr "NYC"))).1 in
  exists t2 r1 r2,
    find_table (db_tables (w_db w2)) "user" = Some t2 /\
    user_rows t2 "alice" = [r1] /\ user_rows t2 "bob" = [r2] /\
    row_get r1 "password" <> row_get r2 "password" /\
    serve demo_salts w2 (login_request [] "alice" "pw123")
    = (w2, Sent (send (BObj [("jwtToken", JStr (jwt_sign (login_claims (JStr "alice")
                                                           (w_clock (mk_world demo_db 0 0)))
                                                         jwt_secret))]))) /\
    serve demo_salts w2 (login_request [] "bob" "pw123")
    = (w2, Sent (send (BObj [("jwtToken", JStr (jwt_sign (login_claims (JStr "bob")
                                                           (w_clock (mk_world demo_db 0 0)))
                                                         jwt_secret))]))).
Proof.
  apply (register_twice_salted demo_salts (mk_world demo_db 0 0) empty_user_table "alice" "bob" "pw123"
           (JStr "A") (JStr "f") (JStr "NYC"));
    [apply user_table_okb_sound|..]; vm_compute; first [reflexivity | discriminate].
Defined.
