(* ===== verification/Startup.v ===== *)
(** * Startup: opening the database, listening, exiting (lines 16-31)

    [let db = null] (line 16) is the handle every handler uses.
    [initializeDBAndServer()] (line 31) runs until [await open(...)]
    (line 21), so the process starts with the open pending
    ([initial_process]). Node then delivers events ([event]): the open
    promise settles ([EvOpen]), the server finishes binding its port
    ([EvListening], the callback of [app.listen], lines 23-25) or fails to
    ([EvListenError]), or a request arrives ([EvRequest]). [handle] is
    one event: [initializeDBAndServer_settle] is the rest of the
    [async] function after its await (the [try] of lines 21-25 or the
    [catch] of lines 26-29); a request is served by [Server.serve] on the
    world made of the handle and the process's salt counter and clock,
    each request run to its end (the interleavings are [Race]).
    [run_events] runs a sequence of events.

    - [startup_db_ready]: in every run, the process listens only after
      [db] holds the opened connection, and every request it accepts is
      served by the handlers on it: no handler ever reads [db.get] of
      [null].
    - [startup_rejection]: what a handler whose promise rejects does to
      the process depends on the runtime ([rejection_policy], applied by
      [after_request]): no response (Express 4, Node before 15), the end
      of the process (Express 4, Node 15 and later: one registration
      without a password stops the server), or 500 (Express 5).
    - [startup_failures]: when [open] rejects, the process logs
      ["DB Error: <message>"], exits with code 1 and handles no further
      event; when binding the port fails, the [catch] does not run (the
      error is an [error] event of the server, after the [try] ended):
      the process exits with code 1 and logs nothing. *)

From S2P Require Import Prelude Js Crypto CryptoModel Sql Db Http Auth Books Users Server.

(** The port of [app.listen(3000, ...)] and the line its callback logs. *)
Definition port : Z := 3000.
Definition listening_message : string := "Server Running at http://localhost:3000/".

Record process : Type := mk_process {
  proc_db : option db;        (** [db]: [null] until [open] resolves *)
  proc_listen : option Z;     (** the port [app.listen] was called with *)
  proc_listening : bool;      (** the port is bound: the callback ran *)
  proc_exit : option Z;       (** the code of [process.exit] or of the crash *)
  proc_log : list string;     (** what [console.log] printed, in order *)
  proc_salt : nat;            (** the salts bcrypt has drawn *)
  proc_clock : Z;             (** [Date.now()] *)
}.

Inductive event : Type :=
| EvOpen (r : result db string)   (** [open] resolves with the connection, or rejects with [e.message] *)
| EvListening                     (** the server is bound: the [app.listen] callback runs *)
| EvListenError                   (** binding fails ([EADDRINUSE]): an unhandled [error] event *)
| EvRequest (now : Z) (req : request).

(** Line 31 has run: [db] is [null] and the function waits on [open]. *)
Definition initial_process : process := mk_process None None false None [] 0 0.

(** Lines 21-29 after the await: store the connection and call
    [app.listen], or log the error and exit with code 1. *)
Definition initializeDBAndServer_settle (r : result db string) (p : process) : process :=
  match r with
  | Ok d => mk_process (Some d) (Some port) false None (proc_log p) (proc_salt p) (proc_clock p)
  | Err msg =>
      mk_process (proc_db p) (proc_listen p) (proc_listening p) (Some 1%Z)
                 (proc_log p ++ ["DB Error: " +:+ msg]) (proc_salt p) (proc_clock p)
  end.

(** Lines 23-25: the callback of [app.listen]. *)
Definition listening_callback (p : process) : process :=
  mk_process (proc_db p) (proc_listen p) true (proc_exit p) (proc_log p ++ [listening_message])
             (proc_salt p) (proc_clock p).

(** What becomes of a handler whose promise rejects. Express 4 ignores
    the promise an [async] handler returns: the rejection is unhandled,
    the request gets no response, and from Node 15 on an unhandled
    rejection ends the process with code 1. Express 5 passes it to its
    default error handler, which answers 500. The repository pins no
    version of either. *)
Inductive rejection_policy : Type :=
| PolicyHang       (** Express 4, Node before 15: no response *)
| PolicyCrash      (** Express 4, Node 15 and later: the process exits *)
| PolicyError500.  (** Express 5: 500 Internal Server Error *)

Definition internal_error : response := mk_response 500 (BText "Internal Server Error").

(** The process after a request was handled in the world [w'] with
    outcome [o], and what the client gets. *)
Definition after_request (policy : rejection_policy) (p : process) (w' : world) (now : Z) (o : outcome)
    : process * outcome :=
  let p' := mk_process (Some (w_db w')) (proc_listen p) true None (proc_log p) (w_salt w') now in
  match o, policy with
  | Rejected _, PolicyCrash =>
      (mk_process (Some (w_db w')) (proc_listen p) true (Some 1%Z) (proc_log p) (w_salt w') now, o)
  | Rejected _, PolicyError500 => (p', Sent internal_error)
  | _, _ => (p', o)
  end.

Section Process.
Context `{Bcrypt} `{Jwt}.
Variable salt_gen : nat -> string.
Variable policy : rejection_policy.

(** One event: the new process and the outcome of the request it served,
    [None] when the event cannot happen in that state (the process has
    exited, the open has already settled, the port is not bound). A
    request when [db] is [null] would make every handler that queries
    throw a [TypeError]; it is recorded with no outcome. *)
Definition handle (p : process) (e : event) : option (process * option outcome) :=
  match proc_exit p with
  | Some _ => None
  | None =>
      match e with
      | EvOpen r =>
          match proc_listen p, proc_db p with
          | None, None => Some (initializeDBAndServer_settle r p, None)
          | _, _ => None
          end
      | EvListening =>
          match proc_listen p with
          | Some _ => if proc_listening p then None else Some (listening_callback p, None)
          | None => None
          end
      | EvListenError =>
          match proc_listen p with
          | Some _ =>
              if proc_listening p then None
              else Some (mk_process (proc_db p) (proc_listen p) false (Some 1%Z) (proc_log p)
                                    (proc_salt p) (proc_clock p), None)
          | None => None
          end
      | EvRequest now req =>
          if proc_listening p then
            match proc_db p with
            | Some d =>
                let '(w', o) := serve salt_gen (mk_world d (proc_salt p) now) req in
                let '(p', o') := after_request policy p w' now o in
                Some (p', Some o')
            | None => Some (p, None)
            end
          else None
      end
  end.

(** A run: the process after the events and the outcomes of the requests
    served, in order; [None] when an event cannot happen. *)
Fixpoint run_events (p : process) (es : list event) : option (process * list outcome) :=
  match es with
  | [] => Some (p, [])
  | e :: es' =>
      match handle p e with
      | Some (p', o) =>
          match run_events p' es' with
          | Some (p'', os) => Some (p'', option_list o ++ os)
          | None => None
          end
      | None => None
      end
  end.
End Process.

(** The state invariant: the process listens only once [app.listen] was
    called, and calls it only once [db] holds a connection. *)
Definition proc_ok (p : process) : Prop :=
  (proc_listening p = true -> is_Some (proc_listen p)) /\ (is_Some (proc_listen p) -> is_Some (proc_db p)).

(** The requests among the events. *)
Fixpoint requests_of (es : list event) : nat :=
  match es with
  | [] => 0
  | EvRequest _ _ :: es' => S (requests_of es')
  | _ :: es' => requests_of es'
  end.

(** The spec's scenario on a process that boots: the database opens, the
    port is bound, alice logs in. *)
Definition boot_events : list event :=
  [EvOpen (Ok alice_db); EvListening; EvRequest 1000 (login_request [] "alice" "pw123")].

Section Theorems.
Context `{Bcrypt} `{Jwt}.
Variable salt_gen : nat -> string.
Variable policy : rejection_policy.

(** One event keeps the invariant, and a request the process accepts is
    served and has an outcome. *)
Lemma handle_ok p e p' o :
  proc_ok p -> handle salt_gen policy p e = Some (p', o) ->
  proc_ok p' /\ length (option_list o) = requests_of [e].
Proof.
  destruct p as [db l ls ex lg sa cl]. intros [Hl Hd] E. unfold handle, after_request in E. simpl in *.
  destruct ex; [done|].
  destruct e as [[d|m]| | |now req]; repeat case_match; simplify_eq/=;
    unfold proc_ok; simpl; try by auto.
  (* a request while listening with [db] null contradicts the invariant *)
  destruct Hd as [d' Hd']; [by apply Hl|done].
Qed.

Lemma run_events_ok p es p' os :
  proc_ok p -> run_events salt_gen policy p es = Some (p', os) -> proc_ok p' /\ length os = requests_of es.
Proof.
  revert p os. induction es as [|e es IH]; intros p os Hp E; simpl in E; [by simplify_eq|].
  destruct (handle salt_gen policy p e) as [[p1 o]|] eqn:E1; [|done].
  destruct (run_events salt_gen policy p1 es) as [[p2 os2]|] eqn:E2; simplify_eq.
  destruct (handle_ok _ _ _ _ Hp E1) as [Hp1 Ho]. destruct (IH _ _ Hp1 E2) as [Hp2 Hos].
  split; [done|]. rewrite length_app, Ho, Hos. by destruct e.
Qed.

(** C29: In every run of the process, it listens only once [db] holds the
    opened connection, and every request it accepts is served by the
    handlers on that connection, with an outcome: no handler reads a
    method of [db] while it is [null]. *)
Theorem startup_db_ready es p os :
  run_events salt_gen policy initial_process es = Some (p, os) ->
  (proc_listening p = true -> exists d, proc_db p = Some d) /\ length os = requests_of es.
Proof.
  intros E. assert (Hi : proc_ok initial_process) by (split; simpl; done).
  destruct (run_events_ok _ _ _ _ Hi E) as [[Hl Hd] Hos]. split; [|done].
  intros Hls. destruct Hd as [d Hd]; [by apply Hl|by exists d].
Qed.

(** C33: When [open] rejects, the process logs ["DB Error: <message>"],
    exits with code 1, and handles no further event. When the database
    opens but the port cannot be bound, the [catch] does not run: the
    process exits with code 1 without logging, its connection open. *)
Theorem startup_failures m d es :
  run_events salt_gen policy initial_process (EvOpen (Err m) :: es) =
    match es with
    | [] => Some (mk_process None None false (Some 1%Z) ["DB Error: " +:+ m] 0 0, [])
    | _ => None
    end /\
  run_events salt_gen policy initial_process (EvOpen (Ok d) :: EvListenError :: es) =
    match es with
    | [] => Some (mk_process (Some d) (Some port) false (Some 1%Z) [] 0 0, [])
    | _ => None
    end.
Proof. by destruct es. Qed.
(** C34: A handler whose promise rejects, on a server that has booted: a
    registration without a password makes [bcrypt.hash] reject (line 61).
    With Express 4 on Node 15 or later the unhandled rejection ends the
    process with code 1 and no later event is handled: one request stops
    the server. With Express 5 the client gets 500 and the server goes
    on; with Express 4 on an older Node the client gets no response and
    the server goes on. *)
Theorem startup_rejection p d now u es :
  proc_exit p = None -> proc_listening p = true -> proc_db p = Some d ->
  run_events salt_gen PolicyCrash p (EvRequest now (http_request "POST" "/users/" [] [("username", JStr u)]) :: es) =
    match es with
    | [] => Some (mk_process (Some d) (proc_listen p) true (Some 1%Z) (proc_log p) (proc_salt p) now,
                  [Rejected RejBcrypt])
    | _ :: _ => None
    end /\
  handle salt_gen PolicyError500 p (EvRequest now (http_request "POST" "/users/" [] [("username", JStr u)])) =
    Some (mk_process (Some d) (proc_listen p) true None (proc_log p) (proc_salt p) now, Some (Sent internal_error)) /\
  handle salt_gen PolicyHang p (EvRequest now (http_request "POST" "/users/" [] [("username", JStr u)])) =
    Some (mk_process (Some d) (proc_listen p) true None (proc_log p) (proc_salt p) now, Some (Rejected RejBcrypt)).
Proof.
  destruct p as [db l ls ex lg sa cl]; simpl. intros -> -> ->.
  split_and!; [destruct es|..]; reflexivity.
Qed.
End Theorems.

(** ** Witnesses *)

#[local] Existing Instance bcrypt_model.
#[local] Existing Instance jwt_model.

Lemma startup_rejection_witness :
  exists p, run_events demo_salts PolicyHang initial_process (take 2 boot_events) = Some (p, []) /\
  run_events demo_salts PolicyCrash p
    [EvRequest 2000 (http_request "POST" "/users/" [] [("username", JStr "eve")])] =
    Some (mk_process (Some alice_db) (Some port) true (Some 1%Z) [listening_message] 0 2000, [Rejected RejBcrypt]).
Proof.
  eexists. split; [vm_compute; reflexivity|].
  refine (proj1 (startup_rejection demo_salts _ alice_db 2000 "eve" [] _ _ _)); reflexivity.
Defined.

Lemma startup_db_ready_witness :
  exists p os, run_events demo_salts PolicyHang initial_process boot_events = Some (p, os) /\
    (proc_listening p = true -> exists d, proc_db p = Some d) /\ length os = requests_of boot_events.
Proof.
  destruct (run_events demo_salts PolicyHang initial_process boot_events) as [[p os]|] eqn:E;
    [|vm_compute in E; discriminate].
  exists p, os. split; [done|]. exact (startup_db_ready demo_salts PolicyHang boot_events p os E).
Defined.
