(* ===== verification/Core.v ===== *)
(** * The specification's authorization core, and the handlers refining it

    The spec (sections 3, 4.1, 6 and 7) describes the server as an
    authorization core over a credential store: [registerUser] fails with
    [UserAlreadyExists] or stores a salted hash, [login] fails with
    [UnknownUser] or [WrongPassword] or issues a token for the username,
    and a protected operation runs after [authorize]; the HTTP layer maps
    each outcome to a status and a body (the table of section 6).

    [store] is the abstract credential store: a finite map from username
    to the account [findUserByUsername] returns. [core_step] is one
    operation of the specification on [core_state] (the store, the salts
    drawn so far, the clock): [registerUser], [login], and the profile
    ([GET /profile/]), which is [authorize] followed by the lookup. As in
    the source (line 61), a registration draws a salt before it checks
    the username.

    [store_of] reads the store off the [user] table: for each username,
    the first row that has it, as [db.get] returns it ([user_rows_store]).
    [represents w s] relates a world of the server to an abstract state.
    [core_request] is the HTTP request for an operation.

    - [core_refines]: one request served by the server ([Server.serve],
      through the router and, for the profile, the middleware) answers
      as the specification does, and leaves a world that represents the
      specification's new state.
    - [serve_all_refines]: the same for any sequence of operations served
      one after the other ([Server.serve_all]): the responses are the
      specification's, in order.

    The operations are those whose text fields contain no quote
    ([op_safe]); with a quote the statements mean something else
    ([Users.userLoginAPI_injection]). *)

From stdpp Require Import gmap.
From S2P Require Import Prelude Js Crypto CryptoModel Sql Db Http Auth Books Users Server.

(** ** The abstract credential store *)

Record account : Type := mk_account {
  acc_name : string;
  acc_hash : string;        (** the only credential stored *)
  acc_gender : string;
  acc_location : string;
}.

Abbreviation store := (gmap string account).

Inductive register_error : Type := UserAlreadyExists.
Inductive login_error : Type := UnknownUser | WrongPassword.

Record core_state : Type := mk_core {
  cs_store : store;
  cs_salt : nat;    (** salts drawn so far *)
  cs_clock : Z;
}.

Inductive core_op : Type :=
| OpRegister (u name pw gender location : string)
| OpLogin (u pw : string)
| OpProfile (authorization : option string).

(** ** Rows and accounts *)

(** The account a row of the [user] table holds, with its username. *)
Definition account_of_row (r : row) : option (string * account) :=
  match row_lookup r "username", row_lookup r "name", row_lookup r "password",
        row_lookup r "gender", row_lookup r "location" with
  | Some (SText u), Some (SText n), Some (SText h), Some (SText g), Some (SText l) =>
      Some (u, mk_account n h g l)
  | _, _, _, _, _ => None
  end.

Definition account_row (u : string) (a : account) : row :=
  user_row u (acc_name a) (acc_hash a) (acc_gender a) (acc_location a).

(** The first row of a username wins: it is the one [db.get] returns. *)
Definition store_of_rows (rs : list (Z * row)) : store :=
  foldr (fun x st => match account_of_row x.2 with Some (u, a) => <[u := a]> st | None => st end) ∅ rs.

Definition store_of (t : table) : store := store_of_rows (tbl_rows t).

(** Every row of the table holds an account: its five columns are text. *)
Definition users_text (t : table) : Prop := Forall (fun x => is_Some (account_of_row x.2)) (tbl_rows t).

(** The world [w] represents the abstract state [s]. *)
Definition represents (w : world) (s : core_state) : Prop :=
  exists t, user_table_ok (w_db w) t /\ users_text t /\ store_of t = cs_store s /\
            w_salt w = cs_salt s /\ w_clock w = cs_clock s.

(** The text fields are quote-free; a profile token's username too. *)
Definition op_safe `{Jwt} (op : core_op) : Prop :=
  match op with
  | OpRegister u n _ g l =>
      has_char chr_quote u = false /\ has_char chr_quote n = false /\
      has_char chr_quote g = false /\ has_char chr_quote l = false
  | OpLogin u _ => has_char chr_quote u = false
  | OpProfile hdr => forall v, authorize hdr = Ok v -> sql_safe v
  end.

(** The request a client sends for an operation. *)
Definition core_request (op : core_op) : request :=
  match op with
  | OpRegister u n pw g l => register_request [] u (JStr n) pw (JStr g) (JStr l)
  | OpLogin u pw => login_request [] u pw
  | OpProfile hdr =>
      http_request "GET" "/profile/" (match hdr with Some h => [("authorization", h)] | None => [] end) []
  end.

Section Spec.
Context `{Bcrypt} `{Jwt}.
Variable salt_gen : nat -> string.

(** [registerUser]: the salted hash of the password is stored under a
    free username. *)
Definition registerUser (st : store) (salt u n pw g l : string) : store * result unit register_error :=
  match st !! u with
  | Some _ => (st, Err UserAlreadyExists)
  | None => (<[u := mk_account n (bcrypt_hash 10 salt pw) g l]> st, Ok tt)
  end.

(** [login]: the password is compared with the stored hash. *)
Definition login (st : store) (u pw : string) : result string login_error :=
  match st !! u with
  | None => Err UnknownUser
  | Some a => if bcrypt_compare pw (acc_hash a) then Ok u else Err WrongPassword
  end.

(** The profile: [authorize], then the account of the username. *)
Definition profile (st : store) (hdr : option string) : result (string * option account) auth_error :=
  match authorize hdr with
  | Ok v => Ok (js_to_string v, st !! js_to_string v)
  | Err e => Err e
  end.

(** The table of section 6. *)
Definition register_response (r : result unit register_error) : response :=
  match r with
  | Ok _ => send (BText "User created successfully")
  | Err UserAlreadyExists => send_status 400 "User already exists"
  end.

Definition login_response (now : Z) (r : result string login_error) : response :=
  match r with
  | Ok u => send (BObj [("jwtToken", JStr (jwt_sign (login_claims (JStr u) now) jwt_secret))])
  | Err UnknownUser => send_status 400 "Invalid User"
  | Err WrongPassword => send_status 400 "Invalid Password"
  end.

Definition profile_response (r : result (string * option account) auth_error) : response :=
  match r with
  | Ok (u, a) => send (BRow (account_row u <$> a))
  | Err _ => invalid_jwt
  end.

(** One operation of the specification. *)
Definition core_step (s : core_state) (op : core_op) : core_state * response :=
  match op with
  | OpRegister u n pw g l =>
      let '(st', r) := registerUser (cs_store s) (salt_gen (cs_salt s)) u n pw g l in
      (mk_core st' (S (cs_salt s)) (cs_clock s), register_response r)
  | OpLogin u pw => (s, login_response (cs_clock s) (login (cs_store s) u pw))
  | OpProfile hdr => (s, profile_response (profile (cs_store s) hdr))
  end.

Fixpoint core_run (s : core_state) (ops : list core_op) : core_state * list response :=
  match ops with
  | [] => (s, [])
  | op :: ops' =>
      let '(s1, r) := core_step s op in
      let '(s2, rs) := core_run s1 ops' in (s2, r :: rs)
  end.
End Spec.

(** ** The store read off the table *)

Lemma account_of_row_username r u a :
  account_of_row r = Some (u, a) -> row_lookup r "username" = Some (SText u).
Proof. unfold account_of_row. repeat case_match; congruence. Qed.

(** A row with the table's columns that holds an account is that account's row. *)
Lemma account_of_row_shape r u a :
  account_of_row r = Some (u, a) -> map fst r = user_cols -> r = account_row u a.
Proof.
  intros Ha Hr.
  destruct r as [|[c1 v1] [|[c2 v2] [|[c3 v3] [|[c4 v4] [|[c5 v5] [|]]]]]]; try discriminate.
  injection Hr as -> -> -> -> ->. unfold account_of_row in Ha. simpl in Ha.
  repeat case_match; simplify_eq. reflexivity.
Qed.

Lemma account_of_user_row u n h g l :
  account_of_row (user_row u n h g l) = Some (u, mk_account n h g l).
Proof. reflexivity. Qed.

(** The first row of [u], as [db.get] returns it, is the store's account of [u]. *)
Lemma user_rows_store t u :
  users_text t -> Forall (fun x => map fst x.2 = user_cols) (tbl_rows t) ->
  head (user_rows t u) = account_row u <$> store_of t !! u.
Proof.
  unfold users_text, user_rows, store_of. induction (tbl_rows t) as [|[rid r] rs IH]; intros Ht Hs; [done|].
  apply Forall_cons in Ht as [[[u' a] Ha] Ht]. apply Forall_cons in Hs as [Hr Hs]. cbn [snd] in *.
  assert (Hst : store_of_rows ((rid, r) :: rs) = <[u' := a]> (store_of_rows rs)) by (simpl; by rewrite Ha).
  rewrite Hst, filter_cons. cbn [snd]. rewrite (account_of_row_username _ _ _ Ha).
  destruct (decide (u' = u)) as [<-|Hne].
  - rewrite decide_True by done. simpl. rewrite lookup_insert_eq. simpl. f_equal. by apply account_of_row_shape.
  - rewrite decide_False by congruence. rewrite lookup_insert_ne by done. by apply IH.
Qed.

(** Appending the account of a username the store lacks inserts it. *)
Lemma store_of_rows_snoc rs x u a :
  account_of_row x.2 = Some (u, a) -> store_of_rows rs !! u = None ->
  store_of_rows (rs ++ [x]) = <[u := a]> (store_of_rows rs).
Proof.
  intros Hx. induction rs as [|[rid r] rs IH]; simpl; intros Hu.
  - by rewrite Hx.
  - destruct (account_of_row r) as [[u' a']|]; [|by apply IH].
    rewrite lookup_insert_None in Hu. destruct Hu as [Hu Hne].
    rewrite IH by done. by apply insert_insert_ne.
Qed.

Lemma row_get_account_password u a : row_get (account_row u a) "password" = JStr (acc_hash a).
Proof. reflexivity. Qed.

Lemma user_table_ok_shape d t :
  user_table_ok d t -> Forall (fun x => map fst x.2 = user_cols) (tbl_rows t).
Proof. intros (_ & Hcols & _ & _ & Hwf & _ & _). by rewrite <- Hcols. Qed.

(** [db.get] of a username's row is the store's account of it. *)
Lemma db_get_selectUserQuery_store d t u :
  user_table_ok d t -> users_text t -> has_char chr_quote u = false ->
  db_get d (selectUserQuery (JStr u)) = Ok (d, account_row u <$> store_of t !! u).
Proof.
  intros Hok Ht Hu. rewrite (db_get_selectUserQuery _ t) by done. cbn [js_to_string].
  by rewrite (user_rows_store t u Ht (user_table_ok_shape _ _ Hok)).
Qed.

Lemma store_none_rows d t u :
  user_table_ok d t -> users_text t -> store_of t !! u = None -> user_rows t u = [].
Proof.
  intros Hok Ht Hu. pose proof (user_rows_store t u Ht (user_table_ok_shape _ _ Hok)) as Hh.
  rewrite Hu in Hh. by destruct (user_rows t u).
Qed.

(** A new account keeps the table as the handlers need it and the store
    gets the account. *)
Lemma represents_add d t u n h g l :
  user_table_ok d t -> users_text t -> store_of t !! u = None ->
  user_table_ok (add_user d t (user_row u n h g l))
                (with_rows t (tbl_rows t ++ [(next_rowid t, user_row u n h g l)])) /\
  users_text (with_rows t (tbl_rows t ++ [(next_rowid t, user_row u n h g l)])) /\
  store_of (with_rows t (tbl_rows t ++ [(next_rowid t, user_row u n h g l)])) =
    <[u := mk_account n h g l]> (store_of t).
Proof.
  intros Hok Ht Hu. pose proof (store_none_rows _ _ u Hok Ht Hu) as Hnone. split_and!.
  - by apply user_table_ok_add.
  - apply Forall_app. split; [done|]. constructor; [|done]. by eexists.
  - by apply store_of_rows_snoc.
Qed.

(** ** The handlers refine the specification *)

Section Refinement.
Context `{Bcrypt} `{Jwt}.
Variable salt_gen : nat -> string.

(** The middleware lets through a request [authorize] accepts, under its username. *)
Lemma authenticateToken_authorized req v :
  authorize (header_get req "authorization") = Ok v -> authenticateToken req = MwNext (set_username req v).
Proof.
  unfold authenticateToken, bearer_token, authorize.
  destruct (header_get req "authorization") as [h|]; [|done].
  destruct (split_on chr_space h) as [|f [|t rest]]; simpl; [done|done|].
  destruct (jwt_verify t jwt_secret); by intros [= <-].
Qed.

(** [POST /users/]: the answer and the store of [registerUser]. *)
Lemma register_sim w s u n pw g l :
  represents w s -> op_safe (OpRegister u n pw g l) ->
  (serve salt_gen w (core_request (OpRegister u n pw g l))).2 = Sent (core_step salt_gen s (OpRegister u n pw g l)).2 /\
  represents (serve salt_gen w (core_request (OpRegister u n pw g l))).1 (core_step salt_gen s (OpRegister u n pw g l)).1.
Proof.
  intros (t & Hok & Ht & Hst & Hsalt & Hclock) (Hu & Hn & Hg & Hl).
  unfold serve, core_request, register_request. rewrite app_register. unfold userRegisterAPI. cbn [run].
  cbn [js_get req_body set_params http_request String.eqb Ascii.eqb Bool.eqb andb]. cbn [run].
  rewrite (db_get_selectUserQuery_store _ t) by done. rewrite Hst.
  unfold core_step, registerUser. destruct (cs_store s !! u) as [a|] eqn:Hsu; cbn [fmap option_fmap option_map run].
  - split; [done|]. exists t. cbn. rewrite Hsalt. by split_and!.
  - rewrite <- Hst in Hsu. cbn [w_db with_db next_salt].
    rewrite (db_run_createUserQuery _ t);
      [| done | exact Hu | exact Hn | apply bcrypt_hash_no_quote | exact Hg | exact Hl | by apply (store_none_rows (w_db w))].
    split; [done|]. cbn. rewrite <- Hst, Hsalt.
    destruct (represents_add (w_db w) t u n (bcrypt_hash 10 (salt_gen (cs_salt s)) pw) g l Hok Ht Hsu)
      as (Hok' & Ht' & Hst').
    eexists. split_and!; [exact Hok'|exact Ht'|exact Hst'|cbn; congruence..].
Qed.

(** [POST /login/]: the answer of [login]; the world does not change. *)
Lemma login_sim w s u pw :
  represents w s -> op_safe (OpLogin u pw) ->
  (serve salt_gen w (core_request (OpLogin u pw))).2 = Sent (core_step salt_gen s (OpLogin u pw)).2 /\
  represents (serve salt_gen w (core_request (OpLogin u pw))).1 (core_step salt_gen s (OpLogin u pw)).1.
Proof.
  intros Hrep. pose proof Hrep as (t & Hok & Ht & Hst & Hsalt & Hclock). intros Hu.
  unfold serve, core_request, login_request. rewrite app_login. unfold userLoginAPI. cbn [run].
  cbn [js_get req_body set_params http_request String.eqb Ascii.eqb Bool.eqb andb].
  rewrite (db_get_selectUserQuery_store _ t) by done. rewrite Hst, with_db_id.
  unfold core_step, login. destruct (cs_store s !! u) as [a|]; cbn; [|done].
  rewrite row_get_account_password. cbn [run]. rewrite <- Hclock.
  by destruct (bcrypt_compare pw (acc_hash a)).
Qed.

(** [GET /profile/]: [authorize], then the account of the username. *)
Lemma profile_sim w s hdr :
  represents w s -> op_safe (OpProfile hdr) ->
  (serve salt_gen w (core_request (OpProfile hdr))).2 = Sent (core_step salt_gen s (OpProfile hdr)).2 /\
  represents (serve salt_gen w (core_request (OpProfile hdr))).1 (core_step salt_gen s (OpProfile hdr)).1.
Proof.
  intros Hrep. pose proof Hrep as (t & Hok & Ht & Hst & Hsalt & Hclock). intros Hsafe.
  unfold serve, core_request. rewrite app_profile. cbn [run_chain].
  assert (Hh : header_get (set_params (http_request "GET" "/profile/"
                 (match hdr with Some h => [("authorization", h)] | None => [] end) []) [])
                 "authorization" = hdr) by (by destruct hdr).
  unfold core_step, profile. destruct (authorize hdr) as [v|e] eqn:Ha.
  - rewrite (authenticateToken_authorized _ v) by (rewrite Hh; done).
    unfold getProfile. cbn [run_chain run req_username set_username].
    rewrite (db_get_selectUserQuery _ t); [|done|by apply Hsafe]. cbn [run]. rewrite with_db_id.
    rewrite (user_rows_store t _ Ht (user_table_ok_shape _ _ Hok)), Hst. by split.
  - rewrite (authenticateToken_rejects _ e) by (rewrite Hh; done). by split.
Qed.

(** Every operation, served, answers as the specification does. *)
Lemma core_step_sim w s op :
  represents w s -> op_safe op ->
  (serve salt_gen w (core_request op)).2 = Sent (core_step salt_gen s op).2 /\
  represents (serve salt_gen w (core_request op)).1 (core_step salt_gen s op).1.
Proof. destruct op; [apply register_sim|apply login_sim|apply profile_sim]. Qed.

(** C6: The server refines the specification's core: for a world that
    represents an abstract state (its [user] table read as a store), a
    request for [registerUser], [login] or the authorized profile, with
    quote-free text, gets the response the table of section 6 gives the
    specification's outcome, and the new world represents the
    specification's new state. *)
Theorem core_refines w s op :
  represents w s -> op_safe op ->
  let '(w', o) := serve salt_gen w (core_request op) in
  let '(s', r) := core_step salt_gen s op in
  o = Sent r /\ represents w' s'.
Proof.
  intros Hrep Hop. destruct (core_step_sim w s op Hrep Hop) as [Ho Hw].
  destruct (serve salt_gen w (core_request op)), (core_step salt_gen s op). by split.
Qed.

(** C7: Any sequence of such requests, served one after the other, gets
    the specification's responses in order and ends in a world that
    represents the specification's final state. *)
Theorem serve_all_refines w s ops :
  represents w s -> Forall op_safe ops ->
  (serve_all salt_gen w (map core_request ops)).2 = map Sent (core_run salt_gen s ops).2 /\
  represents (serve_all salt_gen w (map core_request ops)).1 (core_run salt_gen s ops).1.
Proof.
  revert w s. induction ops as [|op ops IH]; intros w s Hrep Hops; [done|].
  apply Forall_cons in Hops as [Hop Hops].
  destruct (core_step_sim w s op Hrep Hop) as [Ho Hw]. simpl.
  destruct (serve salt_gen w (core_request op)) as [w1 o] eqn:E1.
  destruct (core_step salt_gen s op) as [s1 r] eqn:E2. simpl in Ho, Hw.
  destruct (IH w1 s1 Hw Hops) as [Hos Hw2].
  destruct (serve_all salt_gen w1 (map core_request ops)) as [w2 os].
  destruct (core_run salt_gen s1 ops) as [s2 rs]. simpl in *. subst. by split.
Qed.
End Refinement.

(** ** Witnesses *)

#[local] Existing Instance bcrypt_model.
#[local] Existing Instance jwt_model.

(** The spec's scenario (section 8): register alice, a wrong password, the right one. *)
Definition scenario_ops : list core_op :=
  [OpRegister "alice" "Alice" "pw123" "f" "NYC"; OpLogin "alice" "wrong"; OpLogin "alice" "pw123"].

Lemma represents_demo : represents (mk_world demo_db 0 0) (mk_core ∅ 0 0).
Proof.
  exists empty_user_table. split_and!; [|by constructor|reflexivity|reflexivity|reflexivity].
  apply user_table_okb_sound. vm_compute. reflexivity.
Qed.

Lemma core_refines_witness :
  let '(w', o) := serve demo_salts (mk_world demo_db 0 0) (core_request (OpRegister "alice" "Alice" "pw123" "f" "NYC")) in
  let '(s', r) := core_step demo_salts (mk_core ∅ 0 0) (OpRegister "alice" "Alice" "pw123" "f" "NYC") in
  o = Sent r /\ represents w' s'.
Proof.
  apply (core_refines demo_salts (mk_world demo_db 0 0) (mk_core ∅ 0 0)); [apply represents_demo|].
  vm_compute. split_and!; reflexivity.
Defined.

Lemma serve_all_refines_witness :
  (serve_all demo_salts (mk_world demo_db 0 0) (map core_request scenario_ops)).2 =
    map Sent (core_run demo_salts (mk_core ∅ 0 0) scenario_ops).2 /\
  represents (serve_all demo_salts (mk_world demo_db 0 0) (map core_request scenario_ops)).1
             (core_run demo_salts (mk_core ∅ 0 0) scenario_ops).1.
Proof.
  apply (serve_all_refines demo_salts (mk_world demo_db 0 0) (mk_core ∅ 0 0)); [apply represents_demo|].
  repeat constructor.
Defined.
