(* ===== verification/BookStore.v ===== *)
(** * The book endpoints refine a catalogue keyed by book id

    [Books.v] runs each book handler on a [book] table. This file reads
    the table as an abstract catalogue, a finite map from [book_id] to
    the book's eleven stored fields ([catalogue]), and shows that the
    keyed endpoints behind the router and the middleware
    ([GET], [PUT], [DELETE] on [/books/:bookId/], [POST /books/]) are
    the operations of that map ([cat_step]): a lookup, an [alter] (an
    UPDATE of an id no book has changes nothing), a [delete], and an
    insert under [next_id], one more than the largest id, which is the
    rowid SQLite gives a table without [AUTOINCREMENT].

    The relation [cat_rows] between the table's rows and the map is
    stated as agreement of lookups: every row is the stored form
    ([stored_row]) of the book the map has under its id, and every book
    of the map is a row.

    - [catalogue_refines]: one request, with a token signed with the
      secret, answers as [cat_step] and leaves a world that represents
      the new catalogue; [catalogue_run_refines]: the same for a
      sequence of requests served one after the other.
    - [catalogue_missing_id]: a [PUT] or [DELETE] of an id no book has
      answers success and changes nothing; a [GET] of it answers an
      empty body with status 200.
    - [catalogue_id_reuse]: after the book with the largest id is
      deleted, the next book added gets that id again.

    Ids are non-negative numbers (the route parameter is [String(n)])
    and the next id stays below [2^53]; past it the [bookId] sent back
    is rounded ([Books.addBookAPI_bookId_rounded]). *)

From stdpp Require Import gmap.
From S2P Require Import Prelude Js Crypto CryptoModel Sql Db Http Auth Books Users Server.

(** The fields a [book] row stores, as SQLite stores them. *)
Record book : Type := mk_book {
  bk_title : string; bk_author : Z; bk_rating : Z; bk_rating_count : Z; bk_review_count : Z;
  bk_description : string; bk_pages : Z; bk_date : string; bk_language : string;
  bk_price : Z; bk_stores : string;
}.

Abbreviation catalogue := (gmap Z book).

(** What [addBookQuery] and [updateBookQuery] store from a request body. *)
Definition book_of_details (b : bookDetails) : book :=
  mk_book (js_to_string (title b)) (num_of (authorId b)) (num_of (rating b)) (num_of (ratingCount b))
          (num_of (reviewCount b)) (js_to_string (description b)) (num_of (pages b))
          (js_to_string (dateOfPublication b)) (js_to_string (editionLanguage b)) (num_of (price b))
          (js_to_string (onlineStores b)).

(** The row of the book [bk] under the id [id]. *)
Definition stored_row (id : Z) (bk : book) : row :=
  ("book_id", SInt id) :: zip add_cols
    [SText (bk_title bk); SInt (bk_author bk); SInt (bk_rating bk); SInt (bk_rating_count bk);
     SInt (bk_review_count bk); SText (bk_description bk); SInt (bk_pages bk); SText (bk_date bk);
     SText (bk_language bk); SInt (bk_price bk); SText (bk_stores bk)].

(** A client's JSON body for a book. *)
Definition book_body (bk : book) : js_object :=
  [("title", JStr (bk_title bk)); ("authorId", JNum (bk_author bk)); ("rating", JNum (bk_rating bk));
   ("ratingCount", JNum (bk_rating_count bk)); ("reviewCount", JNum (bk_review_count bk));
   ("description", JStr (bk_description bk)); ("pages", JNum (bk_pages bk));
   ("dateOfPublication", JStr (bk_date bk)); ("editionLanguage", JStr (bk_language bk));
   ("price", JNum (bk_price bk)); ("onlineStores", JStr (bk_stores bk))].

(** Text without a quote, numbers non-negative: the statements parse as meant. *)
Definition book_ok (bk : book) : Prop :=
  has_char chr_quote (bk_title bk) = false /\ (0 <= bk_author bk)%Z /\ (0 <= bk_rating bk)%Z /\
  (0 <= bk_rating_count bk)%Z /\ (0 <= bk_review_count bk)%Z /\
  has_char chr_quote (bk_description bk) = false /\ (0 <= bk_pages bk)%Z /\
  has_char chr_quote (bk_date bk) = false /\ has_char chr_quote (bk_language bk) = false /\
  (0 <= bk_price bk)%Z /\ has_char chr_quote (bk_stores bk) = false.

(** ** The catalogue *)

(** One more than the largest id, 1 for an empty catalogue. *)
Definition next_id (m : catalogue) : Z := (1 + foldr Z.max 0 (map fst (map_to_list m)))%Z.

Inductive cat_op : Type :=
| CatGet (n : Z)
| CatAdd (bk : book)
| CatUpdate (n : Z) (bk : book)
| CatDelete (n : Z).

Definition cat_step (m : catalogue) (op : cat_op) : catalogue * response :=
  match op with
  | CatGet n => (m, send (BRow (stored_row n <$> m !! n)))
  | CatAdd bk => (<[next_id m := bk]> m, send (BObj [("bookId", JNum (next_id m))]))
  | CatUpdate n bk => (alter (fun _ => bk) n m, send (BText "Book Updated Successfully"))
  | CatDelete n => (delete n m, send (BText "Book Deleted Successfully"))
  end.

Fixpoint cat_run (m : catalogue) (ops : list cat_op) : catalogue * list response :=
  match ops with
  | [] => (m, [])
  | op :: ops' => let '(m1, r) := cat_step m op in let '(m2, rs) := cat_run m1 ops' in (m2, r :: rs)
  end.

(** Ids are numbers, books well formed, the next id below [2^53]. *)
Definition cat_op_ok (m : catalogue) (op : cat_op) : Prop :=
  match op with
  | CatGet n | CatDelete n => (0 <= n)%Z
  | CatAdd bk => book_ok bk /\ (next_id m < 2 ^ 53)%Z
  | CatUpdate n bk => (0 <= n)%Z /\ book_ok bk
  end.

Fixpoint cat_ops_ok (m : catalogue) (ops : list cat_op) : Prop :=
  match ops with
  | [] => True
  | op :: ops' => cat_op_ok m op /\ cat_ops_ok (cat_step m op).1 ops'
  end.

(** The request for an operation, with the authorization header [hdr]. *)
Definition cat_request (hdr : string) (op : cat_op) : request :=
  match op with
  | CatGet n => http_request "GET" ("/books/" +:+ js_number_to_string n +:+ "/") [("authorization", hdr)] []
  | CatAdd bk => http_request "POST" "/books/" [("authorization", hdr)] (book_body bk)
  | CatUpdate n bk =>
      http_request "PUT" ("/books/" +:+ js_number_to_string n +:+ "/") [("authorization", hdr)] (book_body bk)
  | CatDelete n => http_request "DELETE" ("/books/" +:+ js_number_to_string n +:+ "/") [("authorization", hdr)] []
  end.

(** ** The table read as a catalogue *)

(** Agreement of lookups: each row is the stored form of the map's book
    under its id, and each book of the map is a row. *)
Definition cat_rows (rs : list (Z * row)) (m : catalogue) : Prop :=
  Forall (fun x => exists bk, x.2 = stored_row x.1 bk /\ m !! x.1 = Some bk) rs /\
  (forall n bk, m !! n = Some bk -> (n, stored_row n bk) ∈ rs).

Definition cat_represents (w : world) (m : catalogue) : Prop :=
  exists t, book_table_ok (w_db w) t /\ cat_rows (tbl_rows t) m.

(** The books of [Books.books_world]: Dune and Emma. *)
Definition dune : book := book_of_details (book_details dune_body).
Definition emma : book := book_of_details (book_details emma_body).
Definition two_books_cat : catalogue := {[1%Z := dune; 2%Z := emma]}.
Definition odyssey : book := mk_book "Odyssey" 3 5 50 4 "Ithaca" 300 "0800-01-01" "Greek" 7 "Amazon".

(** Add a book, read it, update Dune, delete Emma, read Emma's id. *)
Definition book_ops : list cat_op := [CatAdd odyssey; CatGet 3; CatUpdate 1 odyssey; CatDelete 2; CatGet 2].

(** ** Books, rows and bodies *)

Lemma book_row_details id b : book_row id b = stored_row id (book_of_details b).
Proof. reflexivity. Qed.

Lemma book_of_body bk : book_of_details (book_details (book_body bk)) = bk.
Proof. by destruct bk. Qed.

Lemma book_ok_fields bk : book_ok bk -> book_fields_ok (book_details (book_body bk)).
Proof. destruct bk. unfold book_ok, book_fields_ok, sql_safe, nat_num. simpl. tauto. Qed.

(** ** Maximum of the ids *)

Lemma foldr_max_le (l : list Z) b : (0 <= b)%Z -> (forall y, y ∈ l -> (y <= b)%Z) -> (foldr Z.max 0 l <= b)%Z.
Proof.
  induction l as [|z l IH]; simpl; intros Hb Hl; [done|].
  assert (z <= b)%Z by (apply Hl; set_solver). assert (foldr Z.max 0 l <= b)%Z by (apply IH; set_solver). lia.
Qed.

(** Two lists of ids with the same elements have the same maximum. *)
Lemma foldr_max_same (l1 l2 : list Z) :
  (forall y, y ∈ l1 <-> y ∈ l2) -> foldr Z.max 0%Z l1 = foldr Z.max 0%Z l2.
Proof.
  intros Hl. assert (forall l : list Z, (0 <= foldr Z.max 0 l)%Z) by (intros l; induction l; simpl; lia).
  apply Z.le_antisymm; apply foldr_max_le; auto; intros y Hy; apply foldr_max_ge; by apply Hl.
Qed.

(** ** Rows with distinct ids *)

(** In a keyed table the [book_id] column is the rowid. *)
Lemma filter_keyed_eq (rs : list (Z * row)) n :
  Forall (fun x => row_lookup x.2 "book_id" = Some (SInt x.1)) rs ->
  filter (fun x => row_lookup x.2 "book_id" = Some (SInt n)) rs = filter (fun x => x.1 = n) rs.
Proof.
  induction 1 as [|x rs Hx _ IH]; [done|]. rewrite !filter_cons, IH, Hx.
  destruct (decide (x.1 = n)) as [->|Hne]; [by rewrite decide_True|rewrite decide_False; congruence].
Qed.

Lemma filter_keyed_ne (rs : list (Z * row)) n :
  Forall (fun x => row_lookup x.2 "book_id" = Some (SInt x.1)) rs ->
  filter (fun x => row_lookup x.2 "book_id" <> Some (SInt n)) rs = filter (fun x => x.1 <> n) rs.
Proof.
  induction 1 as [|x rs Hx _ IH]; [done|]. rewrite !filter_cons, IH, Hx.
  destruct (decide (x.1 = n)) as [E|Hne].
  - rewrite !decide_False; [done|tauto|rewrite E; tauto].
  - rewrite !decide_True; [done|done|congruence].
Qed.

Lemma filter_key_none (rs : list (Z * row)) n :
  (forall r, (n, r) ∉ rs) -> filter (fun x => x.1 = n) rs = [].
Proof.
  intros Hn. apply filter_Forall_not, Forall_forall. intros [k r] Hx Hk. simpl in Hk. subst k. by apply (Hn r).
Qed.

Lemma filter_key_unique (rs : list (Z * row)) n r :
  NoDup (map fst rs) -> (n, r) ∈ rs -> filter (fun x => x.1 = n) rs = [(n, r)].
Proof.
  induction rs as [|[k r'] rs IH]; simpl; [by intros _ ?%elem_of_nil|].
  intros (Hk & Hnd)%NoDup_cons [[= -> ->]|Hin]%elem_of_cons; rewrite filter_cons; simpl.
  - rewrite decide_True by done. rewrite filter_key_none; [done|].
    intros r'' Hr. apply Hk. by apply (list_elem_of_fmap_2 fst) in Hr.
  - rewrite decide_False; [by apply IH|]. intros ->. apply Hk. by apply (list_elem_of_fmap_2 fst) in Hin.
Qed.

(** ** The rows agree with the catalogue *)

Lemma cat_rows_keys rs m k : cat_rows rs m -> k ∈ map fst rs <-> is_Some (m !! k).
Proof.
  intros [Hrows Hbooks]. split.
  - intros ([k' r] & -> & Hx)%list_elem_of_fmap.
    destruct (proj1 (Forall_forall _ _) Hrows _ Hx) as (bk & _ & Hk). by eexists.
  - intros [bk Hk]. apply (list_elem_of_fmap_2 fst _ (k, stored_row k bk)). by apply Hbooks.
Qed.

Lemma map_keys_elem (m : catalogue) k : k ∈ map fst (map_to_list m) <-> is_Some (m !! k).
Proof.
  rewrite list_elem_of_fmap. split.
  - intros ([k' bk] & -> & Hk%elem_of_map_to_list). by eexists.
  - intros [bk Hk]. exists (k, bk). split; [done|]. by apply elem_of_map_to_list.
Qed.

(** The next rowid is the catalogue's next id. *)
Lemma cat_next rs m : cat_rows rs m -> (1 + foldr Z.max 0 (map fst rs))%Z = next_id m.
Proof.
  intros Hrel. unfold next_id. f_equal. apply foldr_max_same. intros y.
  by rewrite (cat_rows_keys _ _ _ Hrel), map_keys_elem.
Qed.

(** Deleting the largest id [n], when [n - 1] is an id too (or [n = 1]),
    makes [n] the next id again. *)
Lemma next_id_delete_max (m : catalogue) n :
  (1 <= n)%Z -> (forall k, is_Some (m !! k) -> (k <= n)%Z) -> (n = 1%Z \/ is_Some (m !! (n - 1)%Z)) ->
  next_id (delete n m) = n.
Proof.
  intros Hn Hmax Hprev. unfold next_id.
  assert (Hpos : forall l : list Z, (0 <= foldr Z.max 0 l)%Z) by (intros l; induction l; simpl; lia).
  enough (foldr Z.max 0 (map fst (map_to_list (delete n m))) = n - 1)%Z by lia.
  apply Z.le_antisymm.
  - apply foldr_max_le; [lia|]. intros k (Hne & Hk)%map_keys_elem%lookup_delete_is_Some. specialize (Hmax k Hk). lia.
  - destruct Hprev as [->|Hprev]; [apply Hpos|]. apply foldr_max_ge, map_keys_elem.
    rewrite lookup_delete_ne; [done|lia].
Qed.

(** The row with id [n], as [db.get] returns it, is the catalogue's book. *)
Lemma cat_get rs m n :
  cat_rows rs m -> NoDup (map fst rs) -> head (map snd (filter (fun x => x.1 = n) rs)) = stored_row n <$> m !! n.
Proof.
  intros [Hrows Hbooks] Hnd. destruct (m !! n) as [bk|] eqn:E.
  - by rewrite (filter_key_unique _ n (stored_row n bk)) by auto.
  - rewrite filter_key_none; [done|]. intros r Hr.
    destruct (proj1 (Forall_forall _ _) Hrows _ Hr) as (bk & _ & Hk). simpl in Hk. congruence.
Qed.

Lemma cat_rows_delete rs m n : cat_rows rs m -> cat_rows (filter (fun x => x.1 <> n) rs) (delete n m).
Proof.
  intros [Hrows Hbooks]. split.
  - apply Forall_forall. intros x (Hne & Hx)%list_elem_of_filter.
    destruct (proj1 (Forall_forall _ _) Hrows _ Hx) as (bk & Hr & Hk). exists bk. by rewrite lookup_delete_ne.
  - intros k bk (Hne & Hk)%lookup_delete_Some. apply list_elem_of_filter. split; [done|]. by apply Hbooks.
Qed.

(** [UPDATE] with the body [b]: the book under [n], if any, is replaced. *)
Lemma cat_rows_update rs m n b :
  cat_rows rs m ->
  cat_rows (map (fun x => if bool_decide (x.1 = n) then (x.1, book_row x.1 b) else x) rs)
           (alter (fun _ => book_of_details b) n m).
Proof.
  set (bk := book_of_details b). intros [Hrows Hbooks]. split.
  - apply Forall_fmap. eapply Forall_impl; [exact Hrows|]. intros x (bk' & Hx & Hk). simpl.
    case_bool_decide as Hn; simpl.
    + exists bk. simpl. split; [done|]. rewrite Hn in Hk |- *. rewrite lookup_alter_eq, Hk. reflexivity.
    + exists bk'. by rewrite lookup_alter_ne.
  - intros k bk' Hk. apply list_elem_of_fmap.
    destruct (decide (k = n)) as [->|Hne].
    + rewrite lookup_alter_eq in Hk. destruct (m !! n) as [old|] eqn:E; simplify_eq/=.
      exists (n, stored_row n old). split; [by rewrite bool_decide_eq_true_2|by apply Hbooks].
    + rewrite lookup_alter_ne in Hk by done. exists (k, stored_row k bk').
      split; [by rewrite bool_decide_eq_false_2|by apply Hbooks].
Qed.

(** [INSERT] of the body [b] under a fresh id. *)
Lemma cat_rows_add rs m i b :
  cat_rows rs m -> m !! i = None -> cat_rows (rs ++ [(i, book_row i b)]) (<[i := book_of_details b]> m).
Proof.
  set (bk := book_of_details b). intros [Hrows Hbooks] Hi. split.
  - apply Forall_app. split.
    + eapply Forall_impl; [exact Hrows|]. intros x (bk' & Hx & Hk). exists bk'.
      rewrite lookup_insert_ne; [done|]. intros ->. congruence.
    + constructor; [|done]. exists bk. by rewrite lookup_insert_eq.
  - intros k bk' Hk. apply elem_of_app. destruct (decide (k = i)) as [->|Hne].
    + rewrite lookup_insert_eq in Hk. simplify_eq. right. by constructor.
    + rewrite lookup_insert_ne in Hk by done. left. by apply Hbooks.
Qed.

(** ** Tables whose rows agree with a catalogue *)

Lemma cat_rows_wf rs m :
  cat_rows rs m -> Forall (fun x => map fst x.2 = book_cols /\ row_lookup x.2 "book_id" = Some (SInt x.1)) rs.
Proof. intros [Hrows _]. eapply Forall_impl; [exact Hrows|]. intros [id r] (bk & Hr & _). simpl in *. by subst r. Qed.

(** Replacing the [book] rows by rows that agree with a catalogue keeps
    the table as the handlers need it. *)
Lemma book_table_ok_rows d t rs m :
  book_table_ok d t -> cat_rows rs m -> NoDup (map fst rs) ->
  book_table_ok (set_book_rows d t rs) (with_rows t rs).
Proof.
  intros (Ht & Hcols & Hkey & Huniq & _ & _) Hrel Hnd.
  pose proof (cat_rows_wf _ _ Hrel) as Hwf. apply Forall_and in Hwf as [Hc Hk].
  unfold book_table_ok, set_book_rows, table_wf, unique_violation. simpl. rewrite Hcols, Huniq.
  split_and!; try done. by eapply find_set_table_eq.
Qed.

Lemma book_path_ok n : (0 <= n)%Z ->
  has_char chr_slash (js_number_to_string n) = false /\ js_number_to_string n <> "".
Proof.
  intros Hn. split; [|apply js_number_nonempty].
  apply js_number_no_char; [done|]. change (N_of_ascii chr_slash) with 47%N. lia.
Qed.

(** ** The endpoints refine the catalogue *)

Section Refinement.
Context `{Bcrypt} `{Jwt}.
Variable salt_gen : nat -> string.

(** [GET /books/<n>/]: the catalogue's book under [n]. *)
Lemma cat_get_sim w t m c n :
  book_table_ok (w_db w) t -> cat_rows (tbl_rows t) m -> (0 <= n)%Z ->
  serve salt_gen w (cat_request ("Bearer " +:+ jwt_sign c jwt_secret) (CatGet n)) =
  (w, Sent (cat_step m (CatGet n)).2).
Proof.
  intros Hok Hrel Hn. pose proof Hok as (_ & _ & _ & _ & (_ & Hnd & _) & Hkeyed).
  destruct (book_path_ok n Hn) as [Hs Hne]. unfold serve, cat_request.
  rewrite app_getBook, (run_chain_forged c) by done.
  rewrite (getBookAPI_id salt_gen w t _ n) by done. unfold rows_with.
  by rewrite filter_keyed_eq, (cat_get _ m) by done.
Qed.

(** [POST /books/]: the book is inserted under [next_id]. *)
Lemma cat_add_sim w t m c bk :
  book_table_ok (w_db w) t -> cat_rows (tbl_rows t) m -> book_ok bk -> (next_id m < 2 ^ 53)%Z ->
  let '(w', o) := serve salt_gen w (cat_request ("Bearer " +:+ jwt_sign c jwt_secret) (CatAdd bk)) in
  o = Sent (cat_step m (CatAdd bk)).2 /\ cat_represents w' (cat_step m (CatAdd bk)).1.
Proof.
  intros Hok Hrel Hbk Hlt. pose proof (cat_next _ _ Hrel) as Hnext. fold (next_rowid t) in Hnext.
  unfold serve, cat_request. rewrite app_addBook, (run_chain_forged c) by done.
  rewrite (addBookAPI_ok salt_gen w t); [|done|exact (book_ok_fields bk Hbk)|by rewrite Hnext].
  simpl. rewrite Hnext. split; [done|].
  assert (Hfree : m !! next_rowid t = None).
  { destruct (m !! next_rowid t) eqn:E; [|done]. exfalso.
    assert (Hin : next_rowid t ∈ map fst (tbl_rows t)) by (apply (cat_rows_keys _ m); [done|by rewrite E]).
    apply list_elem_of_fmap in Hin as ([k r] & Hk & Hx). simpl in Hk. subst k.
    pose proof (proj1 (Forall_forall _ _) (next_rowid_fresh t) _ Hx). simpl in *. lia. }
  pose proof (cat_rows_add _ _ _ (book_details (book_body bk)) Hrel Hfree) as Ha.
  rewrite book_of_body, Hnext in Ha. eexists. split; [by apply book_table_ok_add|]. simpl. by rewrite Hnext.
Qed.

(** [PUT /books/<n>/]: the book under [n], if any, is replaced. *)
Lemma cat_update_sim w t m c n bk :
  book_table_ok (w_db w) t -> cat_rows (tbl_rows t) m -> (0 <= n)%Z -> book_ok bk ->
  let '(w', o) := serve salt_gen w (cat_request ("Bearer " +:+ jwt_sign c jwt_secret) (CatUpdate n bk)) in
  o = Sent (cat_step m (CatUpdate n bk)).2 /\ cat_represents w' (cat_step m (CatUpdate n bk)).1.
Proof.
  intros Hok Hrel Hn Hbk. pose proof Hok as (_ & _ & _ & _ & (_ & Hnd & _) & _).
  destruct (book_path_ok n Hn) as [Hs Hne]. unfold serve, cat_request.
  rewrite app_updateBook, (run_chain_forged c) by done.
  rewrite (updateBookAPI_id salt_gen w t _ n); [|done|done|done|exact (book_ok_fields bk Hbk)].
  split; [done|]. pose proof (cat_rows_update _ _ n (book_details (book_body bk)) Hrel) as Hu.
  rewrite book_of_body in Hu. exists (with_rows t (updated_rows t n (book_details (book_body bk)))).
  split; [|exact Hu].
  apply (book_table_ok_rows _ _ _ _ Hok Hu). unfold updated_rows. rewrite <- list_fmap_compose.
  by erewrite list_fmap_ext; [exact Hnd|]; intros ? [? ?] _; simpl; case_bool_decide.
Qed.

(** [DELETE /books/<n>/]: the book under [n], if any, is removed. *)
Lemma cat_delete_sim w t m c n :
  book_table_ok (w_db w) t -> cat_rows (tbl_rows t) m -> (0 <= n)%Z ->
  let '(w', o) := serve salt_gen w (cat_request ("Bearer " +:+ jwt_sign c jwt_secret) (CatDelete n)) in
  o = Sent (cat_step m (CatDelete n)).2 /\ cat_represents w' (cat_step m (CatDelete n)).1.
Proof.
  intros Hok Hrel Hn. pose proof Hok as (_ & _ & _ & _ & (_ & Hnd & _) & Hkeyed).
  destruct (book_path_ok n Hn) as [Hs Hne]. unfold serve, cat_request.
  rewrite app_deleteBook, (run_chain_forged c) by done.
  rewrite (deleteBookAPI_id salt_gen w t _ n) by done. rewrite filter_keyed_ne by done.
  split; [done|]. pose proof (cat_rows_delete _ _ n Hrel) as Hd.
  exists (with_rows t (filter (fun x => x.1 <> n) (tbl_rows t))). split; [|exact Hd].
  apply (book_table_ok_rows _ _ _ _ Hok Hd). eapply sublist_NoDup; [exact Hnd|].
  apply fmap_sublist, sublist_filter.
Qed.
(** Every keyed request answers as [cat_step] and keeps the representation. *)
Lemma cat_step_sim w m c op :
  cat_represents w m -> cat_op_ok m op ->
  (serve salt_gen w (cat_request ("Bearer " +:+ jwt_sign c jwt_secret) op)).2 = Sent (cat_step m op).2 /\
  cat_represents (serve salt_gen w (cat_request ("Bearer " +:+ jwt_sign c jwt_secret) op)).1 (cat_step m op).1.
Proof.
  intros (t & Hok & Hrel) Hop. destruct op as [n|bk|n bk|n]; simpl in Hop.
  - rewrite (cat_get_sim w t m c n) by done. split; [done|]. by exists t.
  - pose proof (cat_add_sim w t m c bk Hok Hrel (proj1 Hop) (proj2 Hop)) as Hs.
    by destruct (serve salt_gen w _).
  - pose proof (cat_update_sim w t m c n bk Hok Hrel (proj1 Hop) (proj2 Hop)) as Hs.
    by destruct (serve salt_gen w _).
  - pose proof (cat_delete_sim w t m c n Hok Hrel Hop) as Hs. by destruct (serve salt_gen w _).
Qed.

(** C20: The keyed book endpoints refine a catalogue keyed by book id: for a
    world whose [book] table agrees with a catalogue, a request with a
    token signed with the secret to get, add, update or delete a book
    (numeric id, quote-free text, non-negative numbers, next id below
    [2^53]) answers as the catalogue operation does (a lookup, an insert
    under one more than the largest id, an [alter], a [delete]) and the
    new world agrees with the new catalogue. *)
Theorem catalogue_refines w m c op :
  cat_represents w m -> cat_op_ok m op ->
  let '(w', o) := serve salt_gen w (cat_request ("Bearer " +:+ jwt_sign c jwt_secret) op) in
  let '(m', r) := cat_step m op in
  o = Sent r /\ cat_represents w' m'.
Proof.
  intros Hrep Hop. destruct (cat_step_sim w m c op Hrep Hop) as [Ho Hw].
  destruct (serve salt_gen w _), (cat_step m op). by split.
Qed.

(** C21: Any sequence of such requests, served one after the other, gets
    the catalogue's answers in order and ends in a world that agrees
    with the catalogue the operations reach. *)
Theorem catalogue_run_refines w m c ops :
  cat_represents w m -> cat_ops_ok m ops ->
  (serve_all salt_gen w (map (cat_request ("Bearer " +:+ jwt_sign c jwt_secret)) ops)).2 =
    map Sent (cat_run m ops).2 /\
  cat_represents (serve_all salt_gen w (map (cat_request ("Bearer " +:+ jwt_sign c jwt_secret)) ops)).1
                 (cat_run m ops).1.
Proof.
  revert w m. induction ops as [|op ops IH]; intros w m Hrep Hops; [done|]. destruct Hops as [Hop Hops].
  destruct (cat_step_sim w m c op Hrep Hop) as [Ho Hw]. simpl.
  destruct (serve salt_gen w _) as [w1 o] eqn:E1. destruct (cat_step m op) as [m1 r] eqn:E2. simpl in *.
  destruct (IH w1 m1 Hw Hops) as [Hos Hw2].
  destruct (serve_all salt_gen w1 _) as [w2 os]. destruct (cat_run m1 ops) as [m2 rs]. simpl in *. subst. by split.
Qed.

(** C22: An id no book has: [GET] answers an empty body with status 200,
    [PUT] answers "Book Updated Successfully" and [DELETE] answers "Book
    Deleted Successfully", and neither changes the catalogue. *)
Theorem catalogue_missing_id w m c n bk :
  cat_represents w m -> m !! n = None -> (0 <= n)%Z -> book_ok bk ->
  (serve salt_gen w (cat_request ("Bearer " +:+ jwt_sign c jwt_secret) (CatGet n))).2 = Sent (send (BRow None)) /\
  (serve salt_gen w (cat_request ("Bearer " +:+ jwt_sign c jwt_secret) (CatUpdate n bk))).2 =
    Sent (send (BText "Book Updated Successfully")) /\
  cat_represents (serve salt_gen w (cat_request ("Bearer " +:+ jwt_sign c jwt_secret) (CatUpdate n bk))).1 m /\
  (serve salt_gen w (cat_request ("Bearer " +:+ jwt_sign c jwt_secret) (CatDelete n))).2 =
    Sent (send (BText "Book Deleted Successfully")) /\
  cat_represents (serve salt_gen w (cat_request ("Bearer " +:+ jwt_sign c jwt_secret) (CatDelete n))).1 m.
Proof.
  intros Hrep Hn Hpos Hbk.
  destruct (cat_step_sim w m c (CatGet n) Hrep Hpos) as [Hg _].
  destruct (cat_step_sim w m c (CatUpdate n bk) Hrep (conj Hpos Hbk)) as [Hu Hwu].
  destruct (cat_step_sim w m c (CatDelete n) Hrep Hpos) as [Hd Hwd].
  simpl in *. rewrite Hn in Hg. rewrite alter_id' in Hwu by done. rewrite delete_id in Hwd by done.
  by split_and!.
Qed.

(** C23: Ids are reused: when the book with the largest id [n] is deleted
    and [n - 1] is an id too (or [n = 1]), the next book added gets the
    id [n] again, and [GET /books/<n>/] now answers the new book. *)
Theorem catalogue_id_reuse w m c n bk :
  cat_represents w m -> (1 <= n < 2 ^ 53)%Z -> book_ok bk ->
  (forall k, is_Some (m !! k) -> (k <= n)%Z) -> (n = 1%Z \/ is_Some (m !! (n - 1)%Z)) ->
  let hdr := "Bearer " +:+ jwt_sign c jwt_secret in
  let w1 := (serve salt_gen w (cat_request hdr (CatDelete n))).1 in
  let '(w2, o) := serve salt_gen w1 (cat_request hdr (CatAdd bk)) in
  o = Sent (send (BObj [("bookId", JNum n)])) /\
  serve salt_gen w2 (cat_request hdr (CatGet n)) = (w2, Sent (send (BRow (Some (stored_row n bk))))).
Proof.
  intros Hrep Hn Hbk Hmax Hprev hdr w1.
  destruct (cat_step_sim w m c (CatDelete n) Hrep ltac:(simpl; lia)) as [_ Hw1]. fold hdr w1 in Hw1.
  simpl in Hw1. pose proof (next_id_delete_max m n ltac:(lia) Hmax Hprev) as Hnext.
  destruct (cat_step_sim w1 (delete n m) c (CatAdd bk) Hw1 ltac:(simpl; split; [done|lia])) as [Ho Hw2].
  fold hdr in Ho, Hw2. destruct (serve salt_gen w1 _) as [w2 o]. simpl in Ho, Hw2. rewrite Hnext in Ho, Hw2.
  split; [done|]. destruct Hw2 as (t & Hok & Hrel). unfold hdr.
  rewrite (cat_get_sim w2 t _ c n) by (done || lia). simpl. by rewrite lookup_insert_eq.
Qed.
End Refinement.

(** ** Witnesses *)

#[local] Existing Instance bcrypt_model.
#[local] Existing Instance jwt_model.

Lemma two_books_cat_keys k : is_Some (two_books_cat !! k) -> k = 1%Z \/ k = 2%Z.
Proof.
  intros [bk Hk]. unfold two_books_cat in Hk.
  apply lookup_insert_Some in Hk as [[<- _]|[_ Hk]]; [by left|].
  apply lookup_singleton_Some in Hk as [<- _]. by right.
Qed.

Lemma represents_two_books : cat_represents books_world two_books_cat.
Proof.
  exists two_books. split; [apply book_table_okb_sound; vm_compute; reflexivity|]. split.
  - constructor; [exists dune; split; reflexivity|]. constructor; [exists emma; split; reflexivity|]. constructor.
  - intros n bk Hn. unfold two_books_cat in Hn.
    apply lookup_insert_Some in Hn as [[<- <-]|[_ Hn]]; [by left|].
    apply lookup_singleton_Some in Hn as [<- <-]. right. by left.
Qed.

Lemma odyssey_ok : book_ok odyssey.
Proof. unfold book_ok, odyssey. simpl. split_and!; (reflexivity || lia). Qed.

Lemma catalogue_refines_witness :
  let '(w', o) := serve demo_salts books_world (cat_request ("Bearer " +:+ jwt_sign mallory_claims jwt_secret) (CatAdd odyssey)) in
  let '(m', r) := cat_step two_books_cat (CatAdd odyssey) in
  o = Sent r /\ cat_represents w' m'.
Proof.
  apply (catalogue_refines demo_salts books_world two_books_cat mallory_claims (CatAdd odyssey));
    [apply represents_two_books|].
  split; [apply odyssey_ok|vm_compute; reflexivity].
Defined.

Lemma catalogue_run_refines_witness :
  (serve_all demo_salts books_world (map (cat_request ("Bearer " +:+ jwt_sign mallory_claims jwt_secret)) book_ops)).2 =
    map Sent (cat_run two_books_cat book_ops).2 /\
  cat_represents (serve_all demo_salts books_world (map (cat_request ("Bearer " +:+ jwt_sign mallory_claims jwt_secret)) book_ops)).1
                 (cat_run two_books_cat book_ops).1.
Proof.
  apply (catalogue_run_refines demo_salts books_world two_books_cat mallory_claims book_ops);
    [apply represents_two_books|].
  cbn [cat_ops_ok cat_op_ok book_ops]. split_and!; first [apply odyssey_ok | lia | vm_compute; reflexivity | done].
Defined.

Lemma catalogue_missing_id_witness :
  (serve demo_salts books_world (cat_request ("Bearer " +:+ jwt_sign mallory_claims jwt_secret) (CatGet 7))).2 =
    Sent (send (BRow None)) /\
  (serve demo_salts books_world (cat_request ("Bearer " +:+ jwt_sign mallory_claims jwt_secret) (CatUpdate 7 odyssey))).2 =
    Sent (send (BText "Book Updated Successfully")) /\
  cat_represents (serve demo_salts books_world
                    (cat_request ("Bearer " +:+ jwt_sign mallory_claims jwt_secret) (CatUpdate 7 odyssey))).1 two_books_cat /\
  (serve demo_salts books_world (cat_request ("Bearer " +:+ jwt_sign mallory_claims jwt_secret) (CatDelete 7))).2 =
    Sent (send (BText "Book Deleted Successfully")) /\
  cat_represents (serve demo_salts books_world
                    (cat_request ("Bearer " +:+ jwt_sign mallory_claims jwt_secret) (CatDelete 7))).1 two_books_cat.
Proof.
  apply (catalogue_missing_id demo_salts books_world two_books_cat mallory_claims 7 odyssey);
    [apply represents_two_books|vm_compute; reflexivity|lia|apply odyssey_ok].
Defined.

Lemma catalogue_id_reuse_witness :
  let hdr := "Bearer " +:+ jwt_sign mallory_claims jwt_secret in
  let w1 := (serve demo_salts books_world (cat_request hdr (CatDelete 2))).1 in
  let '(w2, o) := serve demo_salts w1 (cat_request hdr (CatAdd odyssey)) in
  o = Sent (send (BObj [("bookId", JNum 2)])) /\
  serve demo_salts w2 (cat_request hdr (CatGet 2)) = (w2, Sent (send (BRow (Some (stored_row 2 odyssey))))).
Proof.
  apply (catalogue_id_reuse demo_salts books_world two_books_cat mallory_claims 2 odyssey);
    [apply represents_two_books|lia|apply odyssey_ok| |].
  - intros k Hk. destruct (two_books_cat_keys k Hk) as [-> | ->]; lia.
  - right. vm_compute. by eexists.
Defined.
