(* ===== verification/RaceFree.v ===== *)
(** * Registrations of distinct usernames do not race

    [Race.register_race] shows two concurrent registrations of one
    username both succeed. This file shows that the collision is what it
    takes: when the usernames are pairwise distinct and free, every
    interleaving of their handlers ([Race.cstep]) behaves as if they ran
    one after the other.

    A registration's handler passes through four programs ([reg_thread]):
    the request as it arrives, the SELECT after the hash ([reg_k1]), the
    INSERT after the SELECT found nothing ([reg_k2]), the answer. The
    invariant [reg_inv] pairs every handler in flight with its
    registration and says where it stands in the [user] table: free
    before the INSERT, present with exactly one row after it; the
    registrations already answered are present and were answered 200.
    One handler's INSERT leaves the others' usernames as they were
    ([reg_thread_add_other]), so every step keeps the invariant
    ([reg_inv_step]).

    - [distinct_registrations]: in every configuration reachable from the
      arrival of such registrations where no handler is left, every
      client was told "User created successfully", every username has
      exactly one row, holding a bcrypt hash of its client's password,
      and logging in with that password ([Server.serve_login_hashed])
      answers a token. *)

From stdpp Require Import relations.
From S2P Require Import Prelude Js Crypto CryptoModel Sql Db Http Auth Books Users Server Race.

(** A registration as a client sends it. *)
Record reg : Type := mk_reg { r_user : string; r_name : string; r_pw : string; r_gender : string; r_location : string }.

Definition reg_request (d : reg) : request :=
  register_request [] (r_user d) (JStr (r_name d)) (r_pw d) (JStr (r_gender d)) (JStr (r_location d)).

Definition reg_safe (d : reg) : Prop :=
  has_char chr_quote (r_user d) = false /\ has_char chr_quote (r_name d) = false /\
  has_char chr_quote (r_gender d) = false /\ has_char chr_quote (r_location d) = false.

Definition created : response := send (BText "User created successfully").

(** [userRegisterAPI] after [bcrypt.hash] resolved with [h]. *)
Definition reg_k2 (d : reg) (h : string) (dbUser : option row) : prog :=
  match dbUser with
  | None =>
      PRun (createUserQuery (JStr (r_user d)) (JStr (r_name d)) h (JStr (r_gender d)) (JStr (r_location d)))
           (fun _ => PSend created)
  | Some _ => PSend (send_status 400 "User already exists")
  end.

Definition reg_k1 (d : reg) (h : string) : prog := PGet (selectUserQuery (JStr (r_user d))) (reg_k2 d h).

(** The table after [d]'s INSERT. *)
Definition reg_table (t : table) (d : reg) (h : string) : table :=
  with_rows t (tbl_rows t ++ [(next_rowid t, user_row (r_user d) (r_name d) h (r_gender d) (r_location d))]).

(** Two registrations of distinct usernames. *)
Definition demo_regs : list reg :=
  [mk_reg "alice" "Alice" "pw1" "f" "NY"; mk_reg "bob" "Bob" "pw2" "m" "LA"].

Section Threads.
Context `{Bcrypt} `{Jwt}.

(** The user has exactly one row, with the registration's fields and a
    hash of its password. *)
Definition reg_present (t : table) (d : reg) : Prop :=
  exists salt, user_rows t (r_user d) =
    [user_row (r_user d) (r_name d) (bcrypt_hash 10 salt (r_pw d)) (r_gender d) (r_location d)].

(** Where a registration's handler stands, and what the table says of its username. *)
Inductive reg_thread (t : table) (d : reg) : prog -> Prop :=
| rt_start : user_rows t (r_user d) = [] -> reg_thread t d (Server.app (reg_request d))
| rt_hashed salt : user_rows t (r_user d) = [] -> reg_thread t d (reg_k1 d (bcrypt_hash 10 salt (r_pw d)))
| rt_checked salt : user_rows t (r_user d) = [] -> reg_thread t d (reg_k2 d (bcrypt_hash 10 salt (r_pw d)) None)
| rt_inserted : reg_present t d -> reg_thread t d (PSend created).

(** The handlers in flight are the registrations [ps], those answered
    are [fin]; together they are the registrations that arrived. *)
Definition reg_inv (ds : list reg) (c : config) : Prop :=
  exists t ps fin,
    user_table_ok (w_db (c_world c)) t /\ ps ++ fin ≡ₚ ds /\
    Forall2 (reg_thread t) ps (c_threads c) /\ Forall (reg_present t) fin /\
    c_done c = replicate (length fin) (Sent created).
End Threads.

(** ** One registration's handler *)

Section Steps.
Context `{Bcrypt} `{Jwt}.
Variable salt_gen : nat -> string.

Lemma app_reg d : Server.app (reg_request d) = PHash (JStr (r_pw d)) 10 (reg_k1 d).
Proof. reflexivity. Qed.

(** The four resumptions of a registration's handler. The first draws
    the next salt and hashes the password. *)
Lemma step_reg_start w d :
  step salt_gen w (Server.app (reg_request d)) =
  (next_salt w, inl (reg_k1 d (bcrypt_hash 10 (salt_gen (w_salt w)) (r_pw d)))).
Proof. by rewrite app_reg. Qed.

(** The SELECT reads the first row of the username. *)
Lemma step_reg_k1 w t d h :
  user_table_ok (w_db w) t -> has_char chr_quote (r_user d) = false ->
  step salt_gen w (reg_k1 d h) = (w, inl (reg_k2 d h (head (user_rows t (r_user d))))).
Proof. intros Hok Hu. unfold reg_k1. simpl. rewrite (db_get_selectUserQuery _ t) by done. by rewrite with_db_id. Qed.

(** The INSERT of a free username appends its row. *)
Lemma step_reg_k2 w t d h :
  user_table_ok (w_db w) t -> reg_safe d -> has_char chr_quote h = false -> user_rows t (r_user d) = [] ->
  step salt_gen w (reg_k2 d h None) =
  (with_db w (add_user (w_db w) t (user_row (r_user d) (r_name d) h (r_gender d) (r_location d))),
   inl (PSend created)).
Proof. intros Hok (Hu & Hn & Hg & Hl) Hh Hr. simpl. by rewrite (db_run_createUserQuery _ t). Qed.

(** Another user's INSERT leaves a registration where it stands. *)
Lemma reg_thread_add_other t d d' h p :
  r_user d <> r_user d' -> reg_thread t d' p -> reg_thread (reg_table t d h) d' p.
Proof.
  intros Hne Hp. unfold reg_table.
  destruct Hp as [Hr|s Hr|s Hr|[s Hr]]; rewrite <- ?Hr.
  all: first [constructor; rewrite ?user_rows_add_other by done; done
             | apply rt_inserted; exists s; by rewrite user_rows_add_other].
Qed.

Lemma reg_present_add_other t d d' h :
  r_user d <> r_user d' -> reg_present t d' -> reg_present (reg_table t d h) d'.
Proof. intros Hne [s Hr]. exists s. unfold reg_table. by rewrite user_rows_add_other. Qed.
(** One step of a registration's handler: it leaves the table as it is,
    or inserts its own row; a handler that ends was told 200. *)
Lemma reg_step w t d p :
  user_table_ok (w_db w) t -> reg_safe d -> reg_thread t d p ->
  match step salt_gen w p with
  | (w', inl p') =>
      (w_db w' = w_db w /\ reg_thread t d p') \/
      (exists h, w_db w' = add_user (w_db w) t (user_row (r_user d) (r_name d) h (r_gender d) (r_location d)) /\
                 user_rows t (r_user d) = [] /\ reg_thread (reg_table t d h) d p')
  | (w', inr o) => w_db w' = w_db w /\ o = Sent created /\ reg_present t d
  end.
Proof.
  intros Hok Hsafe Hp. pose proof Hsafe as (Hu & _).
  destruct Hp as [Hr|salt Hr|salt Hr|Hpres].
  - rewrite step_reg_start. left. split; [done|]. by constructor.
  - rewrite (step_reg_k1 _ t), Hr by done. left. split; [done|]. by constructor.
  - rewrite (step_reg_k2 _ t) by auto using bcrypt_hash_no_quote. right.
    eexists. split_and!; [done|done|]. apply rt_inserted. exists salt.
    by apply (user_table_ok_add (w_db w) t).
  - done.
Qed.
End Steps.

(** ** Every interleaving *)

Section Interleaving.
Context `{Bcrypt} `{Jwt}.
Variable salt_gen : nat -> string.

Lemma reg_inv_step ds c c' :
  NoDup (r_user <$> ds) -> Forall reg_safe ds -> reg_inv ds c -> cstep salt_gen c c' -> reg_inv ds c'.
Proof.
  intros Hnd Hsafe (t & ps & fin & Hok & Hperm & Hth & Hfin & Hdone) Hs.
  rewrite <- Hperm, fmap_app in Hnd. rewrite <- Hperm in Hsafe.
  apply NoDup_app in Hnd as (Hndps & Hdisj & _). apply Forall_app in Hsafe as [Hsafe _].
  destruct Hs as [w ts os i p w' p' Hi E|w ts os i p w' o Hi E]; simpl in *.
  - destruct (Forall2_lookup_r _ _ _ _ _ Hth Hi) as (d & Hd & Hp).
    pose proof (reg_step salt_gen w t d p Hok (Forall_lookup_1 _ _ _ _ Hsafe Hd) Hp) as Hst.
    rewrite E in Hst. destruct Hst as [[Hw Hp']|(h & Hw & Hfree & Hp')].
    + exists t, ps, fin. simpl. rewrite Hw. split_and!; [done|done| |done|done].
      by apply (Forall2_insert_others (reg_thread t) (reg_thread t) _ _ i d).
    + exists (reg_table t d h), ps, fin. simpl. rewrite Hw. split_and!; [|done| | |done].
      * by apply (user_table_ok_add (w_db w) t).
      * apply (Forall2_insert_others (reg_thread t) _ _ _ i d); [done|done| |done].
        intros j a b Hne Ha _ Hab. apply reg_thread_add_other; [|done].
        intros Heq. by apply (NoDup_map_lookup_ne r_user ps i j d a).
      * apply Forall_forall. intros f Hf. apply reg_present_add_other; [|by apply (proj1 (Forall_forall _ _) Hfin)].
        intros Heq. apply (Hdisj (r_user d)).
        -- apply list_elem_of_fmap_2. by eapply list_elem_of_lookup_2.
        -- rewrite Heq. by apply list_elem_of_fmap_2.
  - destruct (Forall2_lookup_r _ _ _ _ _ Hth Hi) as (d & Hd & Hp).
    pose proof (reg_step salt_gen w t d p Hok (Forall_lookup_1 _ _ _ _ Hsafe Hd) Hp) as Hst.
    rewrite E in Hst. destruct Hst as (Hw & -> & Hpres).
    exists t, (delete i ps), (fin ++ [d]). simpl. rewrite Hw. split_and!.
    + done.
    + rewrite <- Hperm. etrans; [|apply Permutation_app_tail; symmetry; exact (delete_Permutation ps i d Hd)].
      simpl. rewrite app_assoc. symmetry. apply Permutation_cons_append.
    + by apply Forall2_delete.
    + apply Forall_app. by split; [|constructor].
    + by rewrite Hdone, length_app, replicate_add.
Qed.

Lemma reg_inv_arrive (ds : list reg) w t :
  user_table_ok (w_db w) t -> Forall (fun d => user_rows t (r_user d) = []) ds ->
  reg_inv ds (arrive w (map reg_request ds)).
Proof.
  intros Hok Hfree. exists t, ds, []. rewrite app_nil_r. split_and!; try done.
  simpl. rewrite map_map. induction Hfree; simpl; constructor; [by constructor|done].
Qed.

Lemma reg_inv_reachable ds c c' :
  NoDup (r_user <$> ds) -> Forall reg_safe ds -> reg_inv ds c -> reachable salt_gen c c' -> reg_inv ds c'.
Proof. intros Hnd Hsafe Hc Hr. induction Hr; [done|]. eauto using reg_inv_step. Qed.

(** C16: Registrations of pairwise distinct, free usernames do not race:
    in every configuration reachable from their arrival where no handler
    is left in flight, however the handlers interleaved, every client was
    answered "User created successfully", every username has exactly one
    row, with the fields its client sent and a hash of its password, and
    every client can now log in with its password. *)
Theorem distinct_registrations (ds : list reg) w t c :
  NoDup (r_user <$> ds) -> Forall reg_safe ds -> user_table_ok (w_db w) t ->
  Forall (fun d => user_rows t (r_user d) = []) ds ->
  reachable salt_gen (arrive w (map reg_request ds)) c -> c_threads c = [] ->
  c_done c = replicate (length ds) (Sent created) /\
  (exists t', user_table_ok (w_db (c_world c)) t' /\ Forall (reg_present t') ds) /\
  Forall (fun d => serve salt_gen (c_world c) (login_request [] (r_user d) (r_pw d)) =
                   (c_world c, Sent (send (BObj [("jwtToken", JStr (jwt_sign (login_claims (JStr (r_user d))
                                                   (w_clock (c_world c))) jwt_secret))])))) ds.
Proof.
  intros Hnd Hsafe Hok Hfree Hr Hc.
  assert (Hinv : reg_inv ds c) by (eapply reg_inv_reachable; [done|done|by eapply reg_inv_arrive|done]).
  destruct Hinv as (t' & ps & fin & Hok' & Hperm & Hth & Hfin & Hdone).
  rewrite Hc in Hth. apply Forall2_nil_inv_r in Hth as ->. simpl in Hperm.
  rewrite Hperm in Hfin. split_and!; [by rewrite Hdone, Hperm|by exists t'|].
  apply (Forall_impl _ _ _ (proj2 (Forall_and _ _) (conj Hfin Hsafe))).
  intros d [[salt Hrow] [Hu _]]. by eapply (serve_login_hashed salt_gen _ t').
Qed.
End Interleaving.

(** ** Witness *)

#[local] Existing Instance bcrypt_model.
#[local] Existing Instance jwt_model.

Lemma distinct_registrations_witness :
  exists c, reachable demo_salts (arrive (mk_world demo_db 0 0) (map reg_request demo_regs)) c /\
    c_threads c = [] /\ c_done c = replicate 2 (Sent created) /\
    (exists t', user_table_ok (w_db (c_world c)) t' /\ Forall (reg_present t') demo_regs) /\
    Forall (fun d => serve demo_salts (c_world c) (login_request [] (r_user d) (r_pw d)) =
                     (c_world c, Sent (send (BObj [("jwtToken", JStr (jwt_sign (login_claims (JStr (r_user d))
                                                     (w_clock (c_world c))) jwt_secret))])))) demo_regs.
Proof.
  eexists. split; [etrans; [apply run_reachable|apply run_reachable]|]. split; [reflexivity|].
  apply (distinct_registrations demo_salts demo_regs (mk_world demo_db 0 0) empty_user_table).
  - apply (bool_decide_unpack _). vm_compute. reflexivity.
  - repeat constructor.
  - apply user_table_okb_sound. vm_compute. reflexivity.
  - repeat constructor.
  - etrans; [apply run_reachable|apply run_reachable].
  - reflexivity.
Defined.
