(* ===== verification/Linearize.v ===== *)
(** * Concurrent registrations of distinct usernames are linearizable

    [RaceFree] shows what the table holds once concurrent registrations
    of distinct free usernames have all ended. This file says it in the
    terms of the specification ([Core]), for distinct usernames free or
    taken: the world the interleaving ends in represents the state
    [core_run] reaches when the registrations are performed one after the
    other, in the order in which their handlers drew their salts, and the
    clients got the answers [core_run] gives (200 for a free username,
    400 "User already exists" for a taken one).
    The handlers' first await ([bcrypt.hash], src/index.js line 61) is
    their linearization point: the salt decides the stored hash, and the
    INSERTs of distinct usernames commute in the store.

    The invariant [lin_inv] carries a history [hs] of the registrations
    that have hashed, in order: a handler past its first await is the
    [i]-th of [hs] and holds the hash of the [i]-th salt
    ([reg_account]); the store read off the table ([Core.store_of]) has
    the accounts of the handlers that inserted, and is the initial store
    at every other username.

    - [registrations_linearizable]: every interleaving of such
      registrations, once all have ended, is observably one sequential
      run of the specification's [registerUser] over a permutation of
      them: the same answers, as a multiset (the configuration records
      the answers in the order the handlers ended), and the same store,
      salts and clock. *)

From stdpp Require Import gmap relations.
From S2P Require Import Prelude Js Crypto CryptoModel Sql Db Http Auth Books Users Server Core Race RaceFree.

(** The specification's operation for a registration; the server's request
    for it is [reg_request] ([core_request_reg_op]). *)
Definition reg_op (d : reg) : core_op := OpRegister (r_user d) (r_name d) (r_pw d) (r_gender d) (r_location d).

(** The specification's state of [Users.alice_world]. *)
Definition alice_core : core_state := mk_core (store_of alice_table) 1 0.

Section Linearize.
Context `{Bcrypt} `{Jwt}.
Variable salt_gen : nat -> string.

(** The account of [d] when it is the [i]-th registration to draw a salt
    after the [base] salts already drawn. *)
Definition reg_account (base i : nat) (d : reg) : account :=
  mk_account (r_name d) (bcrypt_hash 10 (salt_gen (base + i)) (r_pw d)) (r_gender d) (r_location d).

(** The store after [registerUser] of [d], the [base]-th salt drawn. *)
Definition reg_store (st : store) (base : nat) (d : reg) : store :=
  match st !! r_user d with
  | Some _ => st
  | None => <[r_user d := reg_account base 0 d]> st
  end.

(** The account [d]'s username has once [d], the [i]-th, is registered. *)
Definition reg_after (st : store) (base i : nat) (d : reg) : account :=
  match st !! r_user d with
  | Some a => a
  | None => reg_account base i d
  end.

(** The answer of the table of section 6 to [registerUser] of [d]. *)
Definition reg_response (st : store) (d : reg) : response :=
  match st !! r_user d with
  | Some _ => send_status 400 "User already exists"
  | None => created
  end.

(** The state the interleaving starts from, in the specification's terms. *)
Variable s0 : core_state.

(** A registration's handler, with its place [i] in the history [hs] once
    it has hashed. *)
Inductive lin_thread (hs : list reg) (t : table) (d : reg) : prog -> Prop :=
| lt_start : d ∉ hs -> store_of t !! r_user d = cs_store s0 !! r_user d ->
    lin_thread hs t d (Server.app (reg_request d))
| lt_hashed i : hs !! i = Some d -> store_of t !! r_user d = cs_store s0 !! r_user d ->
    lin_thread hs t d (reg_k1 d (acc_hash (reg_account (cs_salt s0) i d)))
| lt_checked i : hs !! i = Some d -> store_of t !! r_user d = None -> cs_store s0 !! r_user d = None ->
    lin_thread hs t d (reg_k2 d (acc_hash (reg_account (cs_salt s0) i d)) None)
| lt_taken i h r : hs !! i = Some d -> store_of t !! r_user d = cs_store s0 !! r_user d ->
    is_Some (cs_store s0 !! r_user d) -> lin_thread hs t d (reg_k2 d h (Some r))
| lt_inserted i : hs !! i = Some d -> cs_store s0 !! r_user d = None ->
    store_of t !! r_user d = Some (reg_account (cs_salt s0) i d) -> lin_thread hs t d (PSend created).

Definition lin_present (hs : list reg) (t : table) (d : reg) : Prop :=
  exists i, hs !! i = Some d /\ store_of t !! r_user d = Some (reg_after (cs_store s0) (cs_salt s0) i d).

Definition lin_inv (ds : list reg) (c : config) : Prop :=
  exists t ps fin hs,
    user_table_ok (w_db (c_world c)) t /\ users_text t /\
    w_salt (c_world c) = cs_salt s0 + length hs /\ w_clock (c_world c) = cs_clock s0 /\
    (forall u, u ∉ r_user <$> ds -> store_of t !! u = cs_store s0 !! u) /\
    NoDup hs /\ (forall d, d ∈ hs -> d ∈ ds) /\ ps ++ fin ≡ₚ ds /\
    Forall2 (lin_thread hs t) ps (c_threads c) /\ Forall (lin_present hs t) fin /\
    c_done c ≡ₚ (fun d => Sent (reg_response (cs_store s0) d)) <$> fin.

Lemma core_request_reg_op d : core_request (reg_op d) = reg_request d.
Proof. reflexivity. Qed.

(** ** The specification, one registration after the other *)

Lemma core_step_reg_op s d :
  core_step salt_gen s (reg_op d) =
  (mk_core (reg_store (cs_store s) (cs_salt s) d) (S (cs_salt s)) (cs_clock s), reg_response (cs_store s) d).
Proof.
  unfold core_step, registerUser, reg_store, reg_response, reg_account. simpl.
  destruct (cs_store s !! r_user d); by rewrite ?Nat.add_0_r.
Qed.

Lemma reg_store_ne st base d u : u <> r_user d -> reg_store st base d !! u = st !! u.
Proof. intros Hne. unfold reg_store. case_match; [done|]. by rewrite lookup_insert_ne. Qed.

(** Registering distinct usernames one after the other: each is answered
    by the table of section 6, the [i]-th draws the [i]-th salt, the rest
    of the store is kept. *)
Lemma core_run_regs s hs :
  NoDup (r_user <$> hs) ->
  (core_run salt_gen s (reg_op <$> hs)).2 = reg_response (cs_store s) <$> hs /\
  cs_salt (core_run salt_gen s (reg_op <$> hs)).1 = cs_salt s + length hs /\
  cs_clock (core_run salt_gen s (reg_op <$> hs)).1 = cs_clock s /\
  (forall i d, hs !! i = Some d ->
     cs_store (core_run salt_gen s (reg_op <$> hs)).1 !! r_user d = Some (reg_after (cs_store s) (cs_salt s) i d)) /\
  (forall u, u ∉ r_user <$> hs -> cs_store (core_run salt_gen s (reg_op <$> hs)).1 !! u = cs_store s !! u).
Proof.
  revert s. induction hs as [|d hs IH]; intros s Hnd.
  { split_and!; simpl; [done|lia|done|by intros ??|done]. }
  rewrite fmap_cons in Hnd. apply NoDup_cons in Hnd as [Hd Hnd].
  assert (Hne : forall j d', hs !! j = Some d' -> r_user d' <> r_user d).
  { intros j d' Hj Heq. apply Hd. rewrite <- Heq. apply list_elem_of_fmap_2. by eapply list_elem_of_lookup_2. }
  cbn [fmap list_fmap core_run]. rewrite core_step_reg_op. fold (fmap reg_op hs).
  set (s1 := mk_core _ _ _).
  destruct (IH s1 Hnd) as (Hr & Hsalt & Hclock & Hin & Hout).
  destruct (core_run salt_gen s1 (reg_op <$> hs)) as [s2 rs]. simpl in *. split_and!.
  - rewrite Hr. f_equal. apply list_fmap_ext. intros j d' Hj. unfold reg_response.
    by rewrite reg_store_ne by eauto.
  - lia.
  - done.
  - intros [|i] d' Hi; simpl in Hi.
    + injection Hi as <-. rewrite Hout by done. unfold reg_store, reg_after.
      destruct (cs_store s !! r_user d) eqn:E; [by rewrite E|by rewrite lookup_insert_eq].
    + rewrite (Hin i d' Hi). unfold reg_after. rewrite reg_store_ne by eauto.
      unfold reg_account. simpl. by rewrite Nat.add_succ_r.
  - intros u Hu'. rewrite Hout by set_solver. apply reg_store_ne. set_solver.
Qed.

(** ** The history *)

(** Another registration drawing a salt leaves a handler where it stands. *)
Lemma lin_thread_snoc hs t d d' p :
  d' <> d -> lin_thread hs t d' p -> lin_thread (hs ++ [d]) t d' p.
Proof.
  intros Hne Hp. destruct Hp;
    [constructor; [set_solver|done]|econstructor; [by apply lookup_app_l_Some|done..]..].
Qed.

Lemma lin_present_snoc hs t d d' : lin_present hs t d' -> lin_present (hs ++ [d]) t d'.
Proof. intros (i & Hi & Hs). exists i. split; [by apply lookup_app_l_Some|done]. Qed.

(** A handler depends on the store only at its own username. *)
Lemma lin_thread_store hs t t' d p :
  store_of t' !! r_user d = store_of t !! r_user d -> lin_thread hs t d p -> lin_thread hs t' d p.
Proof. intros Heq Hp. destruct Hp; econstructor; by rewrite ?Heq. Qed.

Lemma lin_present_store hs t t' d :
  store_of t' !! r_user d = store_of t !! r_user d -> lin_present hs t d -> lin_present hs t' d.
Proof. intros Heq (i & Hi & Hs). exists i. by rewrite Heq. Qed.

(** One step of a registration's handler, in terms of the history: the
    hash appends the handler to [hs]; the SELECT changes nothing; the
    INSERT of a free username adds the account the history gives it; the
    answer is the one of section 6. *)
Lemma lin_step hs w t d p :
  user_table_ok (w_db w) t -> users_text t -> reg_safe d -> w_salt w = cs_salt s0 + length hs ->
  lin_thread hs t d p ->
  match step salt_gen w p with
  | (w', inl p') =>
      (w' = next_salt w /\ (d ∉ hs) /\ lin_thread (hs ++ [d]) t d p') \/
      (w' = w /\ lin_thread hs t d p') \/
      (exists i, hs !! i = Some d /\ store_of t !! r_user d = None /\ cs_store s0 !! r_user d = None /\
         p' = PSend created /\
         w' = with_db w (add_user (w_db w) t (account_row (r_user d) (reg_account (cs_salt s0) i d))))
  | (w', inr o) => w' = w /\ o = Sent (reg_response (cs_store s0) d) /\ lin_present hs t d
  end.
Proof.
  intros Hok Ht Hsafe Hsalt Hp. pose proof Hsafe as (Hu & _).
  destruct Hp as [Hn Hs|i Hi Hs|i Hi Hs Hs0|i h r Hi Hs [a Ha]|i Hi Hs0 Hs].
  - rewrite step_reg_start, Hsalt. left. split_and!; [done|done|].
    apply (lt_hashed _ _ _ (length hs)); [by apply list_lookup_middle|done].
  - rewrite (step_reg_k1 _ _ t), (user_rows_store t _ Ht (user_table_ok_shape _ _ Hok)), Hs by done.
    right; left. split; [done|]. destruct (cs_store s0 !! r_user d) eqn:E.
    + cbn [fmap option_fmap option_map]. apply (lt_taken _ _ _ i); [done|by rewrite E|rewrite E; by eexists].
    + cbn [fmap option_fmap option_map]. by eapply lt_checked.
  - rewrite (step_reg_k2 _ _ t); [|done|done|apply bcrypt_hash_no_quote|by eapply store_none_rows].
    right; right. exists i. by split_and!.
  - unfold reg_response, lin_present, reg_after. rewrite Ha. rewrite Ha in Hs.
    split_and!; [done|done|by exists i].
  - unfold reg_response, lin_present, reg_after. rewrite Hs0. split_and!; [done|done|by exists i].
Qed.

(** Every step of the interleaving keeps the invariant. *)
Lemma lin_inv_step ds c c' :
  NoDup (r_user <$> ds) -> Forall reg_safe ds -> lin_inv ds c -> cstep salt_gen c c' -> lin_inv ds c'.
Proof.
  intros Hnd Hsafe (t & ps & fin & hs & Hok & Ht & Hsalt & Hclock & Hframe & Hndh & Hsub & Hperm & Hth & Hfin & Hdone) Hs.
  pose proof Hnd as Hnd'. rewrite <- Hperm, fmap_app in Hnd'. apply NoDup_app in Hnd' as (Hndps & Hdisj & _).
  assert (Hsafe' : Forall reg_safe ps) by (rewrite <- Hperm in Hsafe; by apply Forall_app in Hsafe as [? _]).
  destruct Hs as [w ts os i p w' p' Hi E|w ts os i p w' o Hi E]; simpl in *;
    destruct (Forall2_lookup_r _ _ _ _ _ Hth Hi) as (d & Hd & Hp);
    assert (Hdds : d ∈ ds) by (rewrite <- Hperm; apply elem_of_app; left; by eapply list_elem_of_lookup_2);
    pose proof (lin_step hs w t d p Hok Ht (Forall_lookup_1 _ _ _ _ Hsafe' Hd) Hsalt Hp) as Hst;
    rewrite E in Hst.
  - destruct Hst as [(-> & Hdh & Hp')|[(-> & Hp')|(j & Hj & Hnone & Hs0 & -> & ->)]].
    + exists t, ps, fin, (hs ++ [d]). simpl. split_and!; try done.
      * rewrite length_app. simpl. lia.
      * apply NoDup_app. split_and!; [done|set_solver|apply NoDup_singleton].
      * intros d'. rewrite elem_of_app, list_elem_of_singleton. intros [?| ->]; auto.
      * apply (Forall2_insert_others (lin_thread hs t) _ _ _ i d); [done|done| |done].
        intros j a b Hne Ha _ Hab. apply lin_thread_snoc; [|done].
        intros ->. by apply (NoDup_map_lookup_ne r_user ps i j d d).
      * apply (Forall_impl _ _ _ Hfin). intros f. apply lin_present_snoc.
    + exists t, ps, fin, hs. split_and!; try done.
      by apply (Forall2_insert_others (lin_thread hs t) (lin_thread hs t) _ _ i d).
    + destruct (represents_add (w_db w) t (r_user d) (r_name d) (acc_hash (reg_account (cs_salt s0) j d))
                  (r_gender d) (r_location d) Hok Ht Hnone) as (Hok' & Ht' & Hst').
      eexists _, ps, fin, hs. simpl. split_and!; [exact Hok'|exact Ht'|done|done| |done|done|done| | |done].
      * intros u Hu. rewrite Hst', lookup_insert_ne; [by apply Hframe|]. intros <-. apply Hu.
        by apply list_elem_of_fmap_2.
      * apply (Forall2_insert_others (lin_thread hs t) _ _ _ i d); [done|done| |].
        -- intros j' a b Hne Ha _ Hab. apply (lin_thread_store hs t); [|done].
           rewrite Hst', lookup_insert_ne; [done|]. apply not_eq_sym.
           by apply (NoDup_map_lookup_ne r_user ps i j' d a).
        -- apply (lt_inserted _ _ _ j Hj Hs0). by rewrite Hst', lookup_insert_eq.
      * apply Forall_forall. intros f Hf. apply (lin_present_store hs t); [|by apply (proj1 (Forall_forall _ _) Hfin)].
        rewrite Hst', lookup_insert_ne; [done|]. intros Heq. apply (Hdisj (r_user d)).
        -- apply list_elem_of_fmap_2. by eapply list_elem_of_lookup_2.
        -- rewrite Heq. by apply list_elem_of_fmap_2.
  - destruct Hst as (-> & -> & Hpres).
    exists t, (delete i ps), (fin ++ [d]), hs. split_and!; try done.
    + rewrite <- Hperm. etrans; [|apply Permutation_app_tail; symmetry; exact (delete_Permutation ps i d Hd)].
      simpl. rewrite app_assoc. symmetry. apply Permutation_cons_append.
    + by apply Forall2_delete.
    + apply Forall_app. by split; [|constructor].
    + simpl. rewrite fmap_app, Hdone. done.
Qed.

Lemma lin_inv_arrive ds w : represents w s0 -> lin_inv ds (arrive w (map reg_request ds)).
Proof.
  intros (t & Hok & Ht & Hst & Hsalt & Hclock). exists t, ds, [], [].
  rewrite app_nil_r. simpl. split_and!; try done.
  - rewrite Hsalt. lia.
  - intros u _. by rewrite Hst.
  - constructor.
  - set_solver.
  - rewrite map_map. induction ds as [|d ds IH]; constructor; [|done]. constructor; [set_solver|by rewrite Hst].
Qed.

Lemma lin_inv_reachable ds c c' :
  NoDup (r_user <$> ds) -> Forall reg_safe ds -> lin_inv ds c -> reachable salt_gen c c' -> lin_inv ds c'.
Proof. intros Hnd Hsafe Hc Hr. induction Hr; [done|]. eauto using lin_inv_step. Qed.

(** C17: Concurrent registrations of pairwise distinct usernames with
    quote-free fields are linearizable: however their handlers
    interleave, once all have ended there is an order of the
    registrations (the order in which they drew their salts) such that
    the clients' answers are, up to the order in which they were sent,
    those of the specification's [registerUser] performed one after the
    other in that order (200 for a free username, 400 for a taken one),
    and the world represents the specification's state after them. *)
Theorem registrations_linearizable ds w c :
  NoDup (r_user <$> ds) -> Forall reg_safe ds -> represents w s0 ->
  reachable salt_gen (arrive w (map reg_request ds)) c -> c_threads c = [] ->
  exists hs, hs ≡ₚ ds /\
    c_done c ≡ₚ Sent <$> (core_run salt_gen s0 (reg_op <$> hs)).2 /\
    represents (c_world c) (core_run salt_gen s0 (reg_op <$> hs)).1.
Proof.
  intros Hnd Hsafe Hrep Hr Hc.
  destruct (lin_inv_reachable ds _ c Hnd Hsafe (lin_inv_arrive ds w Hrep) Hr)
    as (t & ps & fin & hs & Hok & Ht & Hsalt & Hclock & Hframe & Hndh & Hsub & Hperm & Hth & Hfin & Hdone).
  rewrite Hc in Hth. apply Forall2_nil_inv_r in Hth as ->. simpl in Hperm.
  assert (Hhs : hs ≡ₚ ds).
  { apply NoDup_Permutation; [done|by eapply NoDup_fmap_1|]. intros d. split; [apply Hsub|].
    rewrite <- Hperm. intros Hd. destruct (proj1 (Forall_forall _ _) Hfin d Hd) as (i & Hi & _).
    by eapply list_elem_of_lookup_2. }
  destruct (core_run_regs s0 hs) as (Hrs & Hsalt' & Hclock' & Hin & Hout); [by rewrite Hhs|].
  exists hs. split_and!; [done| |].
  - rewrite Hdone, Hrs, <- list_fmap_compose, Hperm, Hhs. done.
  - exists t. split_and!; [done|done| |by rewrite Hsalt'|by rewrite Hclock'].
    apply map_eq. intros u. destruct (decide (u ∈ r_user <$> ds)) as [Hu|Hu].
    + apply list_elem_of_fmap in Hu as (d & -> & Hd). rewrite <- Hperm in Hd.
      destruct (proj1 (Forall_forall _ _) Hfin d Hd) as (i & Hi & Hs). by rewrite Hs, (Hin i d Hi).
    + rewrite Hframe, Hout by (by rewrite ?Hhs). done.
Qed.
End Linearize.

(** ** Witness *)

#[local] Existing Instance bcrypt_model.
#[local] Existing Instance jwt_model.

Lemma represents_alice : represents alice_world alice_core.
Proof.
  exists alice_table. split_and!; [|constructor; [eexists; reflexivity|constructor]|reflexivity..].
  apply user_table_okb_sound. vm_compute. reflexivity.
Qed.

(** alice is taken, bob is free: one 400 and one 200. *)
Lemma registrations_linearizable_witness :
  exists c, reachable demo_salts (arrive alice_world (map reg_request demo_regs)) c /\
    c_threads c = [] /\
    exists hs, hs ≡ₚ demo_regs /\
      c_done c ≡ₚ Sent <$> (core_run demo_salts alice_core (reg_op <$> hs)).2 /\
      represents (c_world c) (core_run demo_salts alice_core (reg_op <$> hs)).1.
Proof.
  eexists. split; [etrans; [apply run_reachable|apply run_reachable]|]. split; [reflexivity|].
  apply (registrations_linearizable demo_salts alice_core demo_regs alice_world).
  - apply (bool_decide_unpack _). vm_compute. reflexivity.
  - repeat constructor.
  - apply represents_alice.
  - etrans; [apply run_reachable|apply run_reachable].
  - reflexivity.
Defined.
