(* ===== verification/Lifecycle.v ===== *)
(** * Users are never updated or deleted: what a request can change

    The spec (section 3) says a registered user is never updated or
    deleted. The source has no statement that does either, but every
    statement it sends is a template literal with request data spliced
    in (lines 64, 67-77, 90, 115, 122-272), and an injected text can
    change what a statement does ([Books.deleteBookAPI_injection]). This
    file shows that no input makes one of them remove or change a row of
    any table but [book].

    - [token_target] reads, from the first three tokens of a statement,
      the table an [UPDATE t] or [DELETE FROM t] names;
      [parse_stmt_target]: the statement [Sql.parse_stmt] builds writes
      exactly that table, whatever the tokens after them are.
    - [sql_keeps_prefix]: a text whose constant prefix lexes to at least
      three tokens ([Sql.lex_prefix]) compiles to a statement whose
      target is fixed by that prefix. Every template of the source has
      such a prefix before its first interpolation, so [SELECT] and
      [INSERT] templates stay reads and inserts, and the [UPDATE] and
      [DELETE] templates stay on [book] (the [*_keeps] lemmas), for all
      interpolated values. SQLite's [prepare] compiles one statement and
      ignores the text after it ([Sql.stmt_end]), so a [;] in an
      interpolated value does not start a second statement.
    - [exec_keeps]: a statement that does not target a table keeps each
      of that table's rows, unchanged and in order ([rows_kept]); an
      [INSERT] adds its row in rowid order ([insert_rowid_sublist]).
    - [prog_keeps] says that every statement a handler can send, on every
      path through its awaits, keeps a table; [run_keeps] and
      [step_keeps] carry it through [Http.run] and [Http.step].
    - [serve_keeps_rows] (one request at a time) and [arrive_keeps_rows]
      (handlers interleaved, [Race.cstep]): no request, alone or
      concurrently with others, changes or removes a row of a table other
      than [book]; the user table only grows. *)

From stdpp Require Import relations.
From S2P Require Import Prelude Js Crypto CryptoModel Sql Db Http Auth Books Users Server Race.

(** ** What a statement may change *)

(** Every row [tn] had in [d] is in [d'], unchanged, in the same order. *)
Definition rows_kept (tn : string) (d d' : db) : Prop :=
  forall t, find_table (db_tables d) tn = Some t ->
  exists t', find_table (db_tables d') tn = Some t' /\ tbl_rows t `sublist_of` tbl_rows t'.

(** The table whose rows a statement may remove or change. *)
Definition stmt_target (s : stmt) : option string :=
  match s with
  | SUpdate n _ _ | SDelete n _ => Some n
  | SSelect _ _ _ _ | SInsert _ _ _ => None
  end.

(** The table the first tokens of an [UPDATE t SET] or a [DELETE FROM t]
    name. *)
Definition token_target (ts : list token) : option string :=
  match ts with
  | TWord k :: t2 :: t3 :: _ =>
      if String.eqb (string_upper k) "UPDATE" then
        match t2 with TWord n => Some n | _ => None end
      else if String.eqb (string_upper k) "DELETE" then
        match t3 with TWord n => Some n | _ => None end
      else None
  | _ => None
  end.

(** The text compiles to no statement, or to one that keeps [tn]. *)
Definition sql_keeps (tn : string) (sql : string) : bool :=
  match compile sql ≫= stmt_target with
  | Some n => negb (name_eqb n tn)
  | None => true
  end.

(** Every statement the handler can send, whatever the results of its
    awaits, keeps [tn]. *)
Fixpoint prog_keeps (tn : string) (p : prog) : Prop :=
  match p with
  | PSend _ => True
  | PGet q k => sql_keeps tn q = true /\ forall r, prog_keeps tn (k r)
  | PAll q k => sql_keeps tn q = true /\ forall rs, prog_keeps tn (k rs)
  | PRun q k => sql_keeps tn q = true /\ forall i, prog_keeps tn (k i)
  | PHash _ _ k => forall h, prog_keeps tn (k h)
  | PCompare _ _ k => forall b, prog_keeps tn (k b)
  | PNow k => forall n, prog_keeps tn (k n)
  end.

(** A registration whose name tries to end the [INSERT] and start a
    [DELETE FROM user]. *)
Definition eve_registration : request :=
  register_request [] "eve" (JStr "x'); DELETE FROM user; --") "pw" (JStr "f") (JStr "NY").

(** The unauthenticated injection into the [DELETE] of line 255. *)
Definition injection_delete : request := http_request "DELETE" "/books/1 OR 1=1/" [] [].

(** ** Statements *)

(** Inverts a computation of the [option] monad that succeeded. *)
Ltac opt_inv H :=
  repeat (first [ apply bind_Some in H as (? & ? & H) | case_match | discriminate H ]; simpl in H).

Lemma parse_ident_Some ts n r : parse_ident ts = Some (n, r) -> ts = TWord n :: r.
Proof. destruct ts as [|[] ?]; simpl; try case_match; congruence. Qed.

Lemma expect_kw_Some k ts r : expect_kw k ts = Some r -> exists t, ts = t :: r.
Proof. destruct ts; simpl; try case_match; naive_solver. Qed.

(** The statement the parser builds targets the table its first three
    tokens name. *)
Lemma parse_stmt_target ts s : parse_stmt ts = Some s -> stmt_target s = token_target ts.
Proof.
  unfold parse_stmt. intros H. apply bind_Some in H as ([s' rest] & Hp & Hend).
  destruct (stmt_end rest); simplify_eq/=.
  destruct ts as [|t ts]; [done|].
  destruct (is_kw "SELECT" t) eqn:E1; [|destruct (is_kw "INSERT" t) eqn:E2;
    [|destruct (is_kw "UPDATE" t) eqn:E3; [|destruct (is_kw "DELETE" t) eqn:E4; [|done]]]].
  all: destruct t as [k| | |]; try discriminate.
  all: unfold parse_select, parse_insert, parse_update, parse_delete in Hp; simpl in Hp.
  all: opt_inv Hp; simplify_eq/=.
  all: repeat match goal with
    | H : parse_ident _ = Some _ |- _ => apply parse_ident_Some in H
    | H : expect_kw _ _ = Some _ |- _ => apply expect_kw_Some in H as [? H]
    | H : (_ =? _)%string = true |- _ => apply String.eqb_eq in H
    end; simplify_eq/=.
  all: match goal with H : string_upper _ = _ |- _ => rewrite H end; simpl; by repeat case_match.
Qed.

Lemma token_target_app ts l : 3 <= length ts -> token_target (ts ++ l) = token_target ts.
Proof. intros Hl. destruct ts as [|[] [|? [|? ?]]]; simpl in *; try lia; done. Qed.

(** A constant prefix of at least three tokens fixes the target. *)
Lemma sql_keeps_prefix tn p s m o :
  lex_run LTop [] p = Some (m, o) -> 3 <= length o ->
  (forall n, token_target (rev o) = Some n -> name_eqb n tn = false) ->
  sql_keeps tn (p +:+ s) = true.
Proof.
  intros Hp Hlen Hn. unfold sql_keeps, compile. rewrite (lex_prefix p s m o Hp).
  destruct (lex_run m [] s ≫= _) as [l|]; simpl; [|done].
  destruct (parse_stmt (rev o ++ l)) as [st|] eqn:E; simpl; [|done].
  rewrite (parse_stmt_target _ _ E), token_target_app by (rewrite length_rev; lia).
  destruct (token_target (rev o)) as [n|] eqn:Et; [|done]. by rewrite Hn.
Qed.

Lemma name_eqb_sym a b : name_eqb a b = name_eqb b a.
Proof. apply String.eqb_sym. Qed.

Lemma find_table_eqb ts n m : name_eqb m n = true -> find_table ts m = find_table ts n.
Proof.
  intros Hmn. induction ts as [|[k u] ts IH]; simpl; [done|].
  rewrite (name_eqb_sym m k), (name_eqb_sym n k), (name_eqb_trans m n k Hmn). by rewrite IH.
Qed.

Lemma find_set_table_same ts n m t t' :
  name_eqb m n = true -> find_table ts n = Some t -> find_table (set_table ts n t') m = Some t'.
Proof. intros Hmn Hn. rewrite (find_table_eqb _ n m Hmn). by eapply find_set_table_eq. Qed.

Lemma insert_rowid_sublist x rs : rs `sublist_of` insert_rowid x rs.
Proof.
  induction rs as [|y rs IH]; simpl; [apply sublist_nil_l|].
  case_match; [by apply sublist_cons|by apply sublist_skip].
Qed.

Lemma insert_row_sublist t cs vs t' rid :
  insert_row t cs vs = Ok (t', rid) -> tbl_rows t `sublist_of` tbl_rows t'.
Proof. unfold insert_row. intros H. res_inv H. simplify_eq/=. apply insert_rowid_sublist. Qed.

(** A statement keeps every table it does not target. *)
Lemma exec_keeps tn d s d' rs i :
  exec d s = Ok (d', rs, i) ->
  (forall n, stmt_target s = Some n -> name_eqb n tn = false) -> rows_kept tn d d'.
Proof.
  intros H Hn t Ht. destruct s as [n w o l|n cs vs|n sets w|n w]; simpl in H, Hn; res_inv H; simplify_eq/=.
  all: repeat match goal with H : res_of_option _ _ = Ok _ |- _ =>
         unfold res_of_option in H; case_match; simplify_eq end; eauto.
  - destruct x0 as [t' rid]. destruct (name_eqb tn n) eqn:E.
    + rewrite (find_table_eqb _ n tn E) in Ht. simplify_eq. exists t'. split.
      * by eapply find_set_table_same.
      * by eapply insert_row_sublist.
    + rewrite find_set_table_ne; eauto.
  - rewrite find_set_table_ne; [eauto|]. by rewrite name_eqb_sym, Hn.
  - rewrite find_set_table_ne; [eauto|]. by rewrite name_eqb_sym, Hn.
Qed.

(** ** The promise API and the handlers *)

#[export] Instance rows_kept_preorder tn : PreOrder (rows_kept tn).
Proof.
  split.
  - intros d t Ht. by exists t.
  - intros d1 d2 d3 H12 H23 t Ht.
    destruct (H12 t Ht) as (t2 & Ht2 & Hs2). destruct (H23 t2 Ht2) as (t3 & Ht3 & Hs3).
    exists t3. split; [done|]. by etrans.
Qed.

Lemma db_exec_keeps tn d q d' rs i :
  db_exec d q = Ok (d', rs, i) -> sql_keeps tn q = true -> rows_kept tn d d'.
Proof.
  unfold db_exec, sql_keeps. destruct (compile q) as [s|]; simpl; [|done].
  intros H Hk. eapply exec_keeps; [done|]. intros n Hn. rewrite Hn in Hk. by apply negb_true_iff.
Qed.

Lemma db_get_keeps tn d q d' r : db_get d q = Ok (d', r) -> sql_keeps tn q = true -> rows_kept tn d d'.
Proof. unfold db_get. destruct (db_exec d q) as [[[??]?]|] eqn:E; intros; simplify_eq. by eapply db_exec_keeps. Qed.

Lemma db_all_keeps tn d q d' rs : db_all d q = Ok (d', rs) -> sql_keeps tn q = true -> rows_kept tn d d'.
Proof. unfold db_all. destruct (db_exec d q) as [[[??]?]|] eqn:E; intros; simplify_eq. by eapply db_exec_keeps. Qed.

Lemma db_run_keeps tn d q d' i : db_run d q = Ok (d', i) -> sql_keeps tn q = true -> rows_kept tn d d'.
Proof. unfold db_run. destruct (db_exec d q) as [[[??]?]|] eqn:E; intros; simplify_eq. by eapply db_exec_keeps. Qed.

Section Handlers.
Context `{Bcrypt}.
Variable salt_gen : nat -> string.

Lemma run_keeps tn p w : prog_keeps tn p -> rows_kept tn (w_db w) (w_db (run salt_gen w p).1).
Proof.
  revert w. induction p as [r|q k IH|q k IH|q k IH|data rounds k IH|data h k IH|k IH]; intros w Hp;
    simpl in *; repeat case_match; simplify_eq/=; try reflexivity; try (apply IH; by auto).
  all: try (destruct Hp as [Hq Hk]; etrans; [|apply IH, Hk]; simpl).
  - by eapply db_get_keeps.
  - by eapply db_all_keeps.
  - by eapply db_run_keeps.
  - apply (IH _ (next_salt w)), Hp.
Qed.

Lemma step_keeps tn p w :
  prog_keeps tn p ->
  rows_kept tn (w_db w) (w_db (step salt_gen w p).1) /\
  match (step salt_gen w p).2 with inl p' => prog_keeps tn p' | inr _ => True end.
Proof.
  intros Hp. destruct p; simpl in *; repeat case_match; simplify_eq/=; try (split; [reflexivity|by auto]).
  all: destruct Hp as [Hq Hk]; split; [|done].
  - by eapply db_get_keeps.
  - by eapply db_all_keeps.
  - by eapply db_run_keeps.
Qed.
End Handlers.

(** ** The templates of the source *)

Create HintDb keeps.

(** Groups the constant pieces before the first interpolation. *)
Ltac gather_prefix :=
  repeat match goal with
  | |- context [?a +:+ (?b +:+ ?c)] => closed_term a; closed_term b; rewrite (string_app_assoc a b c)
  end.

Ltac sql_keeps_tac :=
  gather_prefix; eapply sql_keeps_prefix;
  [vm_compute; reflexivity | vm_compute; lia | intros ?n ?Hn; vm_compute in Hn; congruence].

Lemma selectUserQuery_keeps tn u : sql_keeps tn (selectUserQuery u) = true.
Proof. unfold selectUserQuery. sql_keeps_tac. Qed.

Lemma createUserQuery_keeps tn u n h g l : sql_keeps tn (createUserQuery u n h g l) = true.
Proof. unfold createUserQuery. sql_keeps_tac. Qed.

Lemma getBooksQuery_keeps tn : sql_keeps tn getBooksQuery = true.
Proof. by vm_compute. Qed.

Lemma getBooksFilterQuery_keeps tn a b c d e : sql_keeps tn (getBooksFilterQuery a b c d e) = true.
Proof. unfold getBooksFilterQuery. sql_keeps_tac. Qed.

Lemma getBookQuery_keeps tn i : sql_keeps tn (getBookQuery i) = true.
Proof. unfold getBookQuery. sql_keeps_tac. Qed.

Lemma addBookQuery_keeps tn b : sql_keeps tn (addBookQuery b) = true.
Proof. unfold addBookQuery. sql_keeps_tac. Qed.

Lemma getAuthorBooksQuery_keeps tn i : sql_keeps tn (getAuthorBooksQuery i) = true.
Proof. unfold getAuthorBooksQuery. sql_keeps_tac. Qed.

Lemma updateBookQuery_keeps tn i b : name_eqb "book" tn = false -> sql_keeps tn (updateBookQuery i b) = true.
Proof. intros Hb. unfold updateBookQuery. sql_keeps_tac. Qed.

Lemma deleteBookQuery_keeps tn i : name_eqb "book" tn = false -> sql_keeps tn (deleteBookQuery i) = true.
Proof. intros Hb. unfold deleteBookQuery. sql_keeps_tac. Qed.

#[export] Hint Resolve selectUserQuery_keeps createUserQuery_keeps getBooksQuery_keeps
  getBooksFilterQuery_keeps getBookQuery_keeps addBookQuery_keeps getAuthorBooksQuery_keeps
  updateBookQuery_keeps deleteBookQuery_keeps : keeps.

(** ** Routes and the server *)

Section App.
Context `{Jwt}.

(** Every handler of the route table, on every path through its awaits. *)
Lemma app_routes_keep tn :
  name_eqb "book" tn = false ->
  Forall (fun rt => forall r, prog_keeps tn (rt_handler rt r)) app_routes.
Proof.
  intros Hb. unfold app_routes. repeat apply Forall_cons_2; try apply Forall_nil_2; intros r; simpl.
  all: repeat first [progress intros | split | case_match | progress simpl]; auto with keeps.
Qed.

Lemma app_keeps tn req : name_eqb "book" tn = false -> prog_keeps tn (Server.app req).
Proof. intros Hb. apply app_forall; [done|by apply app_routes_keep]. Qed.
End App.

Section Server.
Context `{Bcrypt} `{Jwt}.
Variable salt_gen : nat -> string.


Lemma reachable_keeps tn c c' :
  reachable salt_gen c c' -> Forall (prog_keeps tn) (c_threads c) ->
  rows_kept tn (w_db (c_world c)) (w_db (c_world c')) /\ Forall (prog_keeps tn) (c_threads c').
Proof.
  induction 1 as [c|c1 c2 c3 Hs _ IH]; intros Hk; [done|].
  destruct Hs as [w ts os i p w' p' Hi E|w ts os i p w' o Hi E]; simpl in *;
    pose proof (step_keeps salt_gen tn p w (Forall_lookup_1 _ _ _ _ Hk Hi)) as [Hw Hp]; rewrite E in Hw, Hp;
    simpl in *; destruct IH as [IH1 IH2]; try (split; [by etrans|done]).
  - by apply Forall_insert.
  - by apply Forall_delete.
Qed.

End Server.

(** ** Witnesses *)

#[local] Existing Instance bcrypt_model.
#[local] Existing Instance jwt_model.


